(** * Banking ledger service: the ledger consistency engine

    A shallow embedding of the Go sources of the service

    - [storage] : the Postgres account table ([CreateAccount],
      [GetAccountByID], [UpdateBalance], [AtomicBalanceUpdate]) and the
      Mongo transaction collection (writes, status updates, reads by
      identifier and the paged history of an account);
    - [queue]   : the RabbitMQ publisher;
    - [services]: [TransactionService] (synchronous and asynchronous
      processing, compensation on a failed ledger write, history) and
      [AccountService];
    - [handlers]: the two processing paths of the HTTP handler, the read
      handlers and the readiness check;
    - [middleware]: the checks of the identifiers in the path;
    - [config]  : the reading of integer settings;
    - [worker]  : message processing and the business-error classifier.

    Conventions of the embedding.

    - A monetary value is its number of cents, an integer.  The account
      table stores [balance] as DECIMAL(15,2); the Go code carries the
      same values as float64.  The operators [+], [-], [<] and [<=] of the
      Go code are read on these values exactly; IEEE rounding, infinities
      and NaN are outside the embedding.
    - A Go [error] is its construction: a plain message, or a message
      prefix wrapping a cause (the [%w] verb).
    - The three external systems are one value [World]: the account
      table, the transaction collection and the queue.  The failures of the
      external systems (connection lost, timeout, constraint violated ...)
      are scripted in the world, one entry per call, the way the mocks of
      the test suite script them; an exhausted script means no failure.
    - [calls] is a ghost log of the calls made on the storage and queue
      interfaces by the two processing paths, in order.  Nothing reads it;
      it is there to state which calls a function makes.
    - Go's [int] is 64 bits wide: where the code multiplies or adds
      without a check the result is wrapped ([storage.wrap_int]). *)

From Stdlib Require Import ZArith Lia Ascii String.
From stdpp Require Import base option list strings gmap pretty sorting.

Local Open Scope Z_scope.

(** ** Package strings (the two functions the classifier uses) *)

Definition lower_ascii (c : ascii) : ascii :=
  let n := Ascii.N_of_ascii c in
  if ((65 <=? n)%N && (n <=? 90)%N)%bool then Ascii.ascii_of_N (n + 32) else c.

(** [strings.ToLower], on ASCII text. *)
Fixpoint ToLower (s : string) : string :=
  match s with
  | EmptyString => EmptyString
  | String c r => String (lower_ascii c) (ToLower r)
  end.

Fixpoint HasPrefix (s p : string) {struct p} : bool :=
  match p, s with
  | EmptyString, _ => true
  | String a p', String b s' => (Ascii.eqb a b && HasPrefix s' p')%bool
  | String _ _, EmptyString => false
  end.

(** [strings.Contains s substr]. *)
Fixpoint Contains (s substr : string) : bool :=
  (HasPrefix s substr ||
   match s with
   | EmptyString => false
   | String _ r => Contains r substr
   end)%bool.

(** ** Errors *)

Inductive error : Type :=
| errorString (msg : string)                  (* errors.New, fmt.Errorf without %w *)
| wrapError (prefix : string) (cause : error) (* fmt.Errorf (prefix ++ "%w", cause) *).

Fixpoint Error (e : error) : string :=
  match e with
  | errorString msg => msg
  | wrapError prefix cause => prefix +:+ Error cause
  end.

(** [errors.Unwrap]. *)
Definition Unwrap (e : error) : option error :=
  match e with
  | errorString _ => None
  | wrapError _ cause => Some cause
  end.

Inductive result (A : Type) : Type :=
| Ok (a : A)
| Err (e : error).
Arguments Ok {A} a.
Arguments Err {A} e.

Definition is_Err {A} (r : result A) : bool :=
  match r with Ok _ => false | Err _ => true end.

(** ** Package models *)

Definition money : Type := Z.

(** The verb [%.2f] on a value given in cents. *)
Definition two_digits (n : Z) : string :=
  if n <? 10 then "0" +:+ pretty n else pretty n.

Definition fmt_2f (c : money) : string :=
  (if c <? 0 then "-" else EmptyString)
    +:+ pretty (Z.abs c / 100) +:+ "." +:+ two_digits (Z.abs c mod 100).

Record Account : Type := mkAccount {
  acc_ID : string;
  acc_OwnerName : string;
  acc_Balance : money;
  acc_CreatedAt : Z;
  acc_UpdatedAt : Z
}.

Record Transaction : Type := mkTransaction {
  txn_ID : string;
  txn_TransactionID : string;
  txn_AccountID : string;
  txn_Type : string;            (* "deposit" or "withdraw" *)
  txn_Amount : money;
  txn_PreviousBalance : money;
  txn_NewBalance : money;
  txn_Description : string;
  txn_Timestamp : Z;
  txn_Status : string;          (* "pending", "completed", "failed" *)
  txn_ErrorMessage : string
}.

Record TransactionRequest : Type := mkTransactionRequest {
  req_Type : string;
  req_Amount : money;
  req_Description : string
}.

Record CreateAccountRequest : Type := mkCreateAccountRequest {
  car_OwnerName : string;
  car_InitialBalance : money
}.

(** queue.TransactionMessage *)
Record TransactionMessage : Type := mkTransactionMessage {
  msg_ID : string;
  msg_AccountID : string;
  msg_Type : string;
  msg_Amount : money;
  msg_Reference : string;
  msg_CreatedAt : Z
}.

(** ** The world: the three external systems and their environment *)

(** Where a Postgres transaction can break. *)
Inductive PgStep : Type := AtBegin | AtQuery | AtExec | AtCommit.

Record PgFault : Type := mkPgFault {
  fault_step : PgStep;
  fault_err : error
}.

Inductive Call : Type :=
| CallGetAccountByID (accountID : string)
| CallAtomicBalanceUpdate (accountID transactionType : string) (amount : money)
| CallCreateTransaction (t : Transaction)
| CallUpdateTransaction (t : Transaction)
| CallGetTransactionByID (transactionID : string)
| CallUpdateTransactionStatusWithError (transactionID status errorMessage : string)
| CallPublishTransaction (m : TransactionMessage).

Record World : Type := mkWorld {
  accounts : gmap string Account;        (* table accounts, primary key id *)
  ledger : list Transaction;             (* the collection, in insertion order *)
  published : list TransactionMessage;   (* messages accepted by the broker *)
  clock : Z;                             (* what time.Now () returns next *)
  uuids : nat;                           (* how many uuids were drawn *)
  pg_faults : list (option PgFault);     (* script: failures of Postgres calls *)
  mongo_faults : list (option error);    (* script: failures of Mongo calls *)
  amqp_faults : list (option error);     (* script: failures of publishes *)
  calls : list Call                      (* ghost: interface calls made so far *)
}.

Definition set_accounts (w : World) (m : gmap string Account) : World :=
  mkWorld m (ledger w) (published w) (clock w) (uuids w)
          (pg_faults w) (mongo_faults w) (amqp_faults w) (calls w).
Definition set_ledger (w : World) (l : list Transaction) : World :=
  mkWorld (accounts w) l (published w) (clock w) (uuids w)
          (pg_faults w) (mongo_faults w) (amqp_faults w) (calls w).
Definition set_published (w : World) (q : list TransactionMessage) : World :=
  mkWorld (accounts w) (ledger w) q (clock w) (uuids w)
          (pg_faults w) (mongo_faults w) (amqp_faults w) (calls w).
Definition set_clock (w : World) (t : Z) : World :=
  mkWorld (accounts w) (ledger w) (published w) t (uuids w)
          (pg_faults w) (mongo_faults w) (amqp_faults w) (calls w).
Definition set_uuids (w : World) (n : nat) : World :=
  mkWorld (accounts w) (ledger w) (published w) (clock w) n
          (pg_faults w) (mongo_faults w) (amqp_faults w) (calls w).
Definition set_pg_faults (w : World) (s : list (option PgFault)) : World :=
  mkWorld (accounts w) (ledger w) (published w) (clock w) (uuids w)
          s (mongo_faults w) (amqp_faults w) (calls w).
Definition set_mongo_faults (w : World) (s : list (option error)) : World :=
  mkWorld (accounts w) (ledger w) (published w) (clock w) (uuids w)
          (pg_faults w) s (amqp_faults w) (calls w).
Definition set_amqp_faults (w : World) (s : list (option error)) : World :=
  mkWorld (accounts w) (ledger w) (published w) (clock w) (uuids w)
          (pg_faults w) (mongo_faults w) s (calls w).
Definition set_calls (w : World) (c : list Call) : World :=
  mkWorld (accounts w) (ledger w) (published w) (clock w) (uuids w)
          (pg_faults w) (mongo_faults w) (amqp_faults w) c.

(** The failure scripted for the [n]-th call to come, if any. *)
Definition nth_fault {A} (n : nat) (script : list (option A)) : option A :=
  nth n script None.

(** *** State passing *)

Definition State (A : Type) : Type := World → A * World.

Definition log_call (c : Call) (w : World) : World :=
  set_calls w (calls w ++ [c]).

Definition time_Now : State Z :=
  λ w, (clock w, set_clock w (clock w + 1)).

(** [uuid.New ().String ()]: the n-th draw is a text determined by n, so two
    draws never agree. *)
Definition uuid_New_String : State string :=
  λ w, (pretty (uuids w), set_uuids w (S (uuids w))).

Definition pop_pg_fault : State (option PgFault) :=
  λ w, match pg_faults w with
       | [] => (None, w)
       | f :: s => (f, set_pg_faults w s)
       end.

Definition pop_mongo_fault : State (option error) :=
  λ w, match mongo_faults w with
       | [] => (None, w)
       | f :: s => (f, set_mongo_faults w s)
       end.

Definition pop_amqp_fault : State (option error) :=
  λ w, match amqp_faults w with
       | [] => (None, w)
       | f :: s => (f, set_amqp_faults w s)
       end.

Definition NewTransactionID : State string :=
  λ w, let '(u, w) := uuid_New_String w in ("txn_" +:+ u, w).

Definition NewAccountID : State string :=
  λ w, let '(u, w) := uuid_New_String w in ("acc_" +:+ u, w).

(** ** Package storage *)

Module storage.

(** The row of [accountID] with its balance and update time replaced: the
    statement UPDATE accounts SET balance = $1, updated_at = $2 WHERE id = $3. *)
Definition update_row (a : Account) (newBalance : money) (now : Z) : Account :=
  mkAccount (acc_ID a) (acc_OwnerName a) newBalance (acc_CreatedAt a) now.

Definition GetAccountByID (accountID : string) : State (result Account) :=
  λ w,
    let w := log_call (CallGetAccountByID accountID) w in
    let '(f, w) := pop_pg_fault w in
    match f with
    | Some flt => (Err (wrapError "failed to get account: " (fault_err flt)), w)
    | None =>
        match accounts w !! accountID with
        | None => (Err (errorString "account not found"), w)
        | Some a => (Ok a, w)
        end
    end.

(** The switch of [AtomicBalanceUpdate] that calculates the new balance from
    the transaction type. *)
Definition calculate_new_balance (transactionType : string)
    (previousBalance amount : money) : result money :=
  if String.eqb transactionType "deposit" then
    Ok (previousBalance + amount)
  else if String.eqb transactionType "withdraw" then
    if previousBalance <? amount then
      Err (errorString
             ("insufficient funds: current balance " +:+ fmt_2f previousBalance
                +:+ ", requested " +:+ fmt_2f amount))
    else Ok (previousBalance - amount)
  else
    Err (errorString ("invalid transaction type: " +:+ transactionType)).

(** The body of [AtomicBalanceUpdate] between BEGIN and COMMIT, [f] being
    the failure that awaits this call.  A failure before COMMIT returns
    through the deferred Rollback, so the table is left as it was. *)
Definition AtomicBalanceUpdate_tx (f : option PgFault)
    (accountID transactionType : string) (amount : money)
    : State (result (money * money)) :=
  λ w,
    match f with
    | Some (mkPgFault AtBegin e) =>
        (Err (wrapError "failed to begin transaction: " e), w)
    | Some (mkPgFault AtQuery e) =>
        (Err (wrapError "failed to lock account: " e), w)
    | _ =>
        match accounts w !! accountID with
        | None => (Err (errorString "account not found"), w)
        | Some a =>
            let previousBalance := acc_Balance a in
            match calculate_new_balance transactionType previousBalance amount with
            | Err e => (Err e, w)
            | Ok newBalance =>
                let '(now, w1) := time_Now w in
                match f with
                | Some (mkPgFault AtExec e) =>
                    (Err (wrapError "failed to update balance: " e), w1)
                | Some (mkPgFault AtCommit e) =>
                    (Err (wrapError "failed to commit transaction: " e), w1)
                | _ =>
                    (Ok (previousBalance, newBalance),
                     set_accounts w1
                       (<[accountID := update_row a newBalance now]>
                          (accounts w1)))
                end
            end
        end
    end.

Definition AtomicBalanceUpdate (accountID transactionType : string)
    (amount : money) : State (result (money * money)) :=
  λ w,
    let w := log_call (CallAtomicBalanceUpdate accountID transactionType amount) w in
    let '(f, w) := pop_pg_fault w in
    AtomicBalanceUpdate_tx f accountID transactionType amount w.

(** *** The Mongo collection *)

Fixpoint find_one (transactionID : string) (l : list Transaction)
    : option Transaction :=
  match l with
  | [] => None
  | t :: r =>
      if String.eqb (txn_TransactionID t) transactionID then Some t
      else find_one transactionID r
  end.

(** [UpdateOne]: the first document matching the filter is modified; [None]
    when MatchedCount is 0. *)
Fixpoint update_one (transactionID : string) (upd : Transaction → Transaction)
    (l : list Transaction) : option (list Transaction) :=
  match l with
  | [] => None
  | t :: r =>
      if String.eqb (txn_TransactionID t) transactionID then Some (upd t :: r)
      else cons t <$> update_one transactionID upd r
  end.

Definition set_result (previousBalance newBalance : money)
    (status errorMessage : string) (t : Transaction) : Transaction :=
  mkTransaction (txn_ID t) (txn_TransactionID t) (txn_AccountID t)
    (txn_Type t) (txn_Amount t) previousBalance newBalance
    (txn_Description t) (txn_Timestamp t) status errorMessage.

Definition set_status (status errorMessage : string) (t : Transaction)
    : Transaction :=
  set_result (txn_PreviousBalance t) (txn_NewBalance t) status errorMessage t.

Definition CreateTransaction (t : Transaction) : State (result unit) :=
  λ w,
    let w := log_call (CallCreateTransaction t) w in
    let '(f, w) := pop_mongo_fault w in
    match f with
    | Some e => (Err (wrapError "failed to insert transaction: " e), w)
    | None => (Ok tt, set_ledger w (ledger w ++ [t]))
    end.

Definition UpdateTransaction (t : Transaction) : State (result unit) :=
  λ w,
    let w := log_call (CallUpdateTransaction t) w in
    let '(f, w) := pop_mongo_fault w in
    match f with
    | Some e => (Err (wrapError "failed to update transaction: " e), w)
    | None =>
        match update_one (txn_TransactionID t)
                (set_result (txn_PreviousBalance t) (txn_NewBalance t)
                            (txn_Status t) (txn_ErrorMessage t))
                (ledger w) with
        | None => (Err (errorString "transaction not found for update"), w)
        | Some l => (Ok tt, set_ledger w l)
        end
    end.

Definition GetTransactionByID (transactionID : string)
    : State (result Transaction) :=
  λ w,
    let w := log_call (CallGetTransactionByID transactionID) w in
    let '(f, w) := pop_mongo_fault w in
    match f with
    | Some e => (Err (wrapError "failed to find transaction: " e), w)
    | None =>
        match find_one transactionID (ledger w) with
        | None => (Err (errorString "transaction not found"), w)
        | Some t => (Ok t, w)
        end
    end.

Definition UpdateTransactionStatusWithError
    (transactionID status errorMessage : string) : State (result unit) :=
  λ w,
    let w := log_call (CallUpdateTransactionStatusWithError transactionID status errorMessage) w in
    let '(f, w) := pop_mongo_fault w in
    match f with
    | Some e =>
        (Err (wrapError "failed to update transaction status with error: " e), w)
    | None =>
        match update_one transactionID (set_status status errorMessage)
                (ledger w) with
        | None =>
            (Err (errorString
                    "transaction not found for status update with error"), w)
        | Some l => (Ok tt, set_ledger w l)
        end
    end.

(** *** The rest of the account table *)

(** The text lib/pq gives a violated primary key (the quotation marks are
    ASCII 34).  The limits of the column types (VARCHAR(255),
    DECIMAL(15,2)) are left to the script of failures. *)
Definition duplicate_key : error :=
  errorString
    ("pq: duplicate key value violates unique constraint "
       +:+ String (ascii_of_nat 34)
             ("accounts_pkey" +:+ String (ascii_of_nat 34) EmptyString)).

(** INSERT INTO accounts; the error of the driver is returned as it is. *)
Definition CreateAccount (account : Account) : State (result unit) :=
  λ w,
    let '(f, w) := pop_pg_fault w in
    match f with
    | Some flt => (Err (fault_err flt), w)
    | None =>
        match accounts w !! acc_ID account with
        | Some _ => (Err duplicate_key, w)
        | None =>
            (Ok tt,
             set_accounts w (<[acc_ID account := account]> (accounts w)))
        end
    end.

(** UPDATE accounts SET balance, updated_at WHERE id; RowsAffected of this
    driver does not fail. *)
Definition UpdateBalance (accountID : string) (newBalance : money)
    : State (result unit) :=
  λ w,
    let '(now, w) := time_Now w in
    let '(f, w) := pop_pg_fault w in
    match f with
    | Some flt => (Err (wrapError "failed to update balance: " (fault_err flt)), w)
    | None =>
        match accounts w !! accountID with
        | None => (Err (errorString "account not found"), w)
        | Some a =>
            (Ok tt,
             set_accounts w
               (<[accountID := update_row a newBalance now]> (accounts w)))
        end
    end.

(** *** The rest of the collection *)

(** Go's int (64 bits): the value an arithmetic result wraps to. *)
Definition wrap_int (z : Z) : Z := (z + 2 ^ 63) mod 2 ^ 64 - 2 ^ 63.

(** Sort by timestamp descending. *)
Definition newest_first (a b : Transaction) : Prop :=
  txn_Timestamp b ≤ txn_Timestamp a.

#[global] Instance newest_first_dec : RelDecision newest_first :=
  λ a b, Z_le_dec (txn_Timestamp b) (txn_Timestamp a).

Definition UpdateTransactionStatus (transactionID status : string)
    : State (result unit) :=
  λ w,
    let '(f, w) := pop_mongo_fault w in
    match f with
    | Some e =>
        (Err (wrapError "failed to update transaction status: " e), w)
    | None =>
        match update_one transactionID
                (λ t, set_status status (txn_ErrorMessage t) t) (ledger w) with
        | None =>
            (Err (errorString "transaction not found for status update"), w)
        | Some l => (Ok tt, set_ledger w l)
        end
    end.

Section find.

(** The error with which the server refuses a negative skip. *)
Variable skip_refused : error.

(** CountDocuments, then Find with skip, limit and sort, then cursor.All:
    three exchanges with the server, each of which can fail.  The server
    takes limit 0 as no limit and a negative limit by its absolute value
    (as far as one batch holds them); it leaves the order of documents
    with equal timestamps open, here they come as the sort leaves them. *)
Definition GetTransactionsByAccountID (accountID : string) (page limit : Z)
    : State (result (list Transaction * Z)) :=
  λ w,
    let skip := wrap_int (wrap_int (page - 1) * limit) in
    let matching := filter (λ t, txn_AccountID t = accountID) (ledger w) in
    let '(f, w) := pop_mongo_fault w in
    match f with
    | Some e => (Err (wrapError "failed to count transactions: " e), w)
    | None =>
        let total := Z.of_nat (length matching) in
        let '(f, w) := pop_mongo_fault w in
        match f with
        | Some e => (Err (wrapError "failed to find transactions: " e), w)
        | None =>
            if skip <? 0 then
              (Err (wrapError "failed to find transactions: " skip_refused), w)
            else
              let '(f, w) := pop_mongo_fault w in
              match f with
              | Some e =>
                  (Err (wrapError "failed to decode transactions: " e), w)
              | None =>
                  let rest :=
                    drop (Z.to_nat skip) (merge_sort newest_first matching) in
                  let transactions :=
                    if limit =? 0 then rest
                    else take (Z.to_nat (Z.abs limit)) rest in
                  (Ok (transactions, total), w)
              end
        end
    end.

End find.

End storage.

(** ** Package queue *)

Module queue.

(** [PublishTransaction]: the message is marshalled (which cannot fail on
    these fields) and handed to the broker as a persistent message; a broker
    failure is reported with the verb [%v], that is by its text only. *)
Definition PublishTransaction (m : TransactionMessage) : State (result unit) :=
  λ w,
    let w := log_call (CallPublishTransaction m) w in
    let '(_, w) := time_Now w in
    let '(f, w) := pop_amqp_fault w in
    match f with
    | Some e =>
        (Err (errorString ("failed to publish message: " +:+ Error e)), w)
    | None => (Ok tt, set_published w (published w ++ [m]))
    end.

End queue.

(** ** Package services: TransactionService *)

Module services.

Definition GetAccountByID (accountID : string) : State (result Account) :=
  storage.GetAccountByID accountID.

Definition CreatePendingTransaction (t : Transaction) : State (result unit) :=
  storage.CreateTransaction t.

Definition UpdateTransactionStatusWithError
    (transactionID status errorMessage : string) : State (result unit) :=
  storage.UpdateTransactionStatusWithError transactionID status errorMessage.

Definition GetTransactionByID (transactionID : string)
    : State (result Transaction) :=
  λ w,
    if String.eqb transactionID EmptyString then
      (Err (errorString "transaction ID is required"), w)
    else
      let '(r, w) := storage.GetTransactionByID transactionID w in
      match r with
      | Err err => (Err (wrapError "failed to get transaction: " err), w)
      | Ok t => (Ok t, w)
      end.

(** [None] is Go's nil error. *)
Definition validateTransactionRequest (req : TransactionRequest)
    : option error :=
  if (negb (String.eqb (req_Type req) "deposit")
      && negb (String.eqb (req_Type req) "withdraw"))%bool then
    Some (errorString
            "transaction type must be either 'deposit' or 'withdraw'")
  else if req_Amount req <=? 0 then
    Some (errorString "amount must be greater than 0")
  else None.

(** The kind that undoes [transactionType]. *)
Definition rollbackType (transactionType : string) : string :=
  if String.eqb transactionType "withdraw" then "deposit" else "withdraw".

Definition ProcessTransaction (accountID : string) (req : TransactionRequest)
    : State (result Transaction) :=
  λ w,
    match validateTransactionRequest req with
    | Some err => (Err err, w)
    | None =>
        let '(r, w) :=
          storage.AtomicBalanceUpdate accountID (req_Type req) (req_Amount req) w in
        match r with
        | Err err =>
            (Err (wrapError "failed to process transaction: " err), w)
        | Ok (previousBalance, newBalance) =>
            let '(id, w) := NewTransactionID w in
            let '(tid, w) := NewTransactionID w in
            let '(now, w) := time_Now w in
            let transaction :=
              mkTransaction id tid accountID (req_Type req) (req_Amount req)
                previousBalance newBalance (req_Description req) now
                "completed" EmptyString in
            let '(r, w) := storage.CreateTransaction transaction w in
            match r with
            | Err err =>
                let '(_, w) :=
                  storage.AtomicBalanceUpdate accountID
                    (rollbackType (req_Type req)) (req_Amount req) w in
                (Err (wrapError "failed to save transaction: " err), w)
            | Ok _ => (Ok transaction, w)
            end
        end
    end.

Definition ProcessTransactionAsync (transactionID : string)
    (req : TransactionRequest) : State (result Transaction) :=
  λ w,
    let '(r, w) := GetTransactionByID transactionID w in
    match r with
    | Err err => (Err (wrapError "pending transaction not found: " err), w)
    | Ok transaction =>
        if negb (String.eqb (txn_Status transaction) "pending") then
          (Err (errorString ("transaction is not in pending state: "
                               +:+ txn_Status transaction)), w)
        else
          match validateTransactionRequest req with
          | Some err =>
              let '(_, w) :=
                UpdateTransactionStatusWithError transactionID "failed"
                  (Error err) w in
              (Err err, w)
          | None =>
              let '(r, w) :=
                storage.AtomicBalanceUpdate (txn_AccountID transaction)
                  (req_Type req) (req_Amount req) w in
              match r with
              | Err err =>
                  let '(_, w) :=
                    UpdateTransactionStatusWithError transactionID "failed"
                      (Error err) w in
                  (Err (wrapError "failed to update balance: " err), w)
              | Ok (previousBalance, newBalance) =>
                  let updatedTransaction :=
                    mkTransaction (txn_ID transaction)
                      (txn_TransactionID transaction)
                      (txn_AccountID transaction) (txn_Type transaction)
                      (txn_Amount transaction) previousBalance newBalance
                      (txn_Description transaction)
                      (txn_Timestamp transaction) "completed" EmptyString in
                  let '(r, w) :=
                    storage.UpdateTransaction updatedTransaction w in
                  match r with
                  | Err err =>
                      let '(_, w) :=
                        storage.AtomicBalanceUpdate
                          (txn_AccountID transaction)
                          (rollbackType (req_Type req)) (req_Amount req) w in
                      let '(_, w) :=
                        UpdateTransactionStatusWithError transactionID
                          "failed" "Failed to update transaction record" w in
                      (Err (wrapError "failed to update transaction: " err), w)
                  | Ok _ => (Ok updatedTransaction, w)
                  end
              end
          end
    end.

Definition CreateInitialTransaction (accountID : string)
    (initialBalance : money) : State (result unit) :=
  λ w,
    if initialBalance <=? 0 then (Ok tt, w)
    else
      let '(id, w) := NewTransactionID w in
      let '(tid, w) := NewTransactionID w in
      let '(now, w) := time_Now w in
      let initialTransaction :=
        mkTransaction id tid accountID "deposit" initialBalance 0
          initialBalance "Initial deposit" now "completed" EmptyString in
      storage.CreateTransaction initialTransaction w.

Definition UpdateTransactionStatus (transactionID status : string)
    : State (result unit) :=
  storage.UpdateTransactionStatus transactionID status.

Section history.

Variable skip_refused : error.

Definition GetTransactionHistory (accountID : string) (page limit : Z)
    : State (result (list Transaction * Z)) :=
  λ w,
    if String.eqb accountID EmptyString then
      (Err (errorString "account ID is required"), w)
    else
      let '(r, w) := storage.GetAccountByID accountID w in
      match r with
      | Err err => (Err (wrapError "account not found: " err), w)
      | Ok _ =>
          let page := if page <=? 0 then 1 else page in
          let limit := if limit <=? 0 then 10 else limit in
          let limit := if 100 <? limit then 100 else limit in
          let '(r, w) :=
            storage.GetTransactionsByAccountID skip_refused accountID page
              limit w in
          match r with
          | Err err =>
              (Err (wrapError "failed to get transaction history: " err), w)
          | Ok (transactions, total) => (Ok (transactions, total), w)
          end
      end.

End history.

(** *** AccountService *)

Module AccountService.

Definition CreateAccount (req : CreateAccountRequest) : State (result Account) :=
  λ w,
    if String.eqb (car_OwnerName req) EmptyString then
      (Err (errorString "owner name is required"), w)
    else if car_InitialBalance req <? 0 then
      (Err (errorString "initial balance cannot be negative"), w)
    else
      let '(id, w) := NewAccountID w in
      let '(createdAt, w) := time_Now w in
      let '(updatedAt, w) := time_Now w in
      let account :=
        mkAccount id (car_OwnerName req) (car_InitialBalance req) createdAt
          updatedAt in
      let '(r, w) := storage.CreateAccount account w in
      match r with
      | Err err => (Err (wrapError "failed to create account: " err), w)
      | Ok _ => (Ok account, w)
      end.

Definition GetAccountByID (accountID : string) : State (result Account) :=
  λ w,
    if String.eqb accountID EmptyString then
      (Err (errorString "account ID is required"), w)
    else
      let '(r, w) := storage.GetAccountByID accountID w in
      match r with
      | Err err => (Err (wrapError "failed to get account: " err), w)
      | Ok account => (Ok account, w)
      end.

Definition GetAccountBalance (accountID : string) : State (result money) :=
  λ w,
    let '(r, w) := GetAccountByID accountID w in
    match r with
    | Err err => (Err err, w)
    | Ok account => (Ok (acc_Balance account), w)
    end.

End AccountService.

End services.

(** ** Package handlers: TransactionHandler *)

Module handlers.

(** A value put in a [gin.H]. *)
Inductive JSON : Type :=
| JString (s : string)
| JTransaction (t : Transaction).

(** What [c.JSON (code, body)] sends. *)
Record Response : Type := mkResponse {
  code : Z;
  body : list (string * JSON)
}.

Definition StatusOK : Z := 200.
Definition StatusAccepted : Z := 202.
Definition StatusBadRequest : Z := 400.
Definition StatusNotFound : Z := 404.
Definition StatusInternalServerError : Z := 500.

Definition processTransactionSync (accountID : string)
    (req : TransactionRequest) : State Response :=
  λ w,
    let '(r, w) := services.ProcessTransaction accountID req w in
    match r with
    | Err err =>
        if Contains (Error err) "insufficient funds" then
          (mkResponse StatusBadRequest
             [("error", JString "Insufficient funds");
              ("details", JString (Error err))], w)
        else if Contains (Error err) "account not found" then
          (mkResponse StatusNotFound
             [("error", JString "Account not found");
              ("details", JString (Error err))], w)
        else
          (mkResponse StatusInternalServerError
             [("error", JString "Transaction processing failed");
              ("details", JString (Error err))], w)
    | Ok transaction =>
        (mkResponse StatusOK
           [("message", JString "Transaction processed successfully");
            ("transaction", JTransaction transaction);
            ("processing_mode", JString "sync")], w)
    end.

Definition processTransactionAsync (accountID : string)
    (req : TransactionRequest) : State Response :=
  λ w,
    let '(r, w) := services.GetAccountByID accountID w in
    match r with
    | Err _ =>
        (mkResponse StatusNotFound [("error", JString "Account not found")], w)
    | Ok account =>
        if (String.eqb (req_Type req) "withdraw"
            && (acc_Balance account <? req_Amount req))%bool then
          (mkResponse StatusBadRequest
             [("error", JString "Insufficient funds");
              ("details",
               JString "Current balance is insufficient for this withdrawal")],
           w)
        else
          let '(transactionID, w) := NewTransactionID w in
          let '(now, w) := time_Now w in
          let pendingTransaction :=
            mkTransaction transactionID transactionID accountID
              (req_Type req) (req_Amount req) (acc_Balance account) 0
              (req_Description req) now "pending" EmptyString in
          let '(r, w) :=
            services.CreatePendingTransaction pendingTransaction w in
          match r with
          | Err _ =>
              (mkResponse StatusInternalServerError
                 [("error", JString "Failed to create transaction record")], w)
          | Ok _ =>
              let '(now, w) := time_Now w in
              let message :=
                mkTransactionMessage transactionID accountID (req_Type req)
                  (req_Amount req) (req_Description req) now in
              let '(r, w) := queue.PublishTransaction message w in
              match r with
              | Err _ =>
                  let '(_, w) :=
                    services.UpdateTransactionStatusWithError transactionID
                      "failed" "Queue system unavailable" w in
                  processTransactionSync accountID req w
              | Ok _ =>
                  (mkResponse StatusAccepted
                     [("message", JString "Transaction queued for processing");
                      ("transaction_id", JString transactionID);
                      ("status", JString "pending");
                      ("account_id", JString accountID);
                      ("processing_mode", JString "async")], w)
              end
          end
    end.

(** *** The read handlers and the readiness check *)

(** GET /transactions/:id *)
Definition GetTransaction (transactionID : string) : State Response :=
  λ w,
    let '(r, w) := services.GetTransactionByID transactionID w in
    match r with
    | Err err => (mkResponse StatusNotFound [("error", JString (Error err))], w)
    | Ok transaction =>
        (mkResponse StatusOK [("transaction", JTransaction transaction)], w)
    end.

(** A value put in the [gin.H] of the other handlers. *)
#[local] Unset Elimination Schemes.
Inductive Value : Type :=
| VString (s : string)
| VInt (n : Z)
| VAccount (a : Account)
| VTransactions (l : list Transaction)
| VObject (fields : list (string * Value)).
#[local] Set Elimination Schemes.

Record Reply : Type := mkReply {
  reply_code : Z;
  reply_body : list (string * Value)
}.

Definition StatusServiceUnavailable : Z := 503.

(** GET /accounts/:id *)
Definition GetAccount (accountID : string) : State Reply :=
  λ w,
    let '(r, w) := services.AccountService.GetAccountByID accountID w in
    match r with
    | Err err => (mkReply StatusNotFound [("error", VString (Error err))], w)
    | Ok account => (mkReply StatusOK [("account", VAccount account)], w)
    end.

Section history.

Variable skip_refused : error.

(** GET /accounts/:id/transactions; [page] and [limit] are what the
    middleware left in the context, 0 when it left nothing. *)
Definition GetTransactions (accountID : string) (page limit : Z) : State Reply :=
  λ w,
    let page := if page =? 0 then 1 else page in
    let limit := if limit =? 0 then 10 else limit in
    let '(r, w) :=
      services.GetTransactionHistory skip_refused accountID page limit w in
    match r with
    | Err err =>
        if Contains (Error err) "account not found" then
          (mkReply StatusNotFound
             [("error", VString "Account not found");
              ("details", VString (Error err))], w)
        else
          (mkReply StatusInternalServerError
             [("error", VString "Failed to retrieve transaction history");
              ("details", VString (Error err))], w)
    | Ok (transactions, total) =>
        (mkReply StatusOK
           [("transactions", VTransactions transactions);
            ("pagination",
             VObject [("page", VInt page); ("limit", VInt limit);
                      ("total", VInt total)])], w)
    end.

End history.

Record HealthStatus : Type := mkHealthStatus {
  hs_Healthy : bool;
  hs_Status : string;
  hs_Error : string
}.

Definition checkPostgresConnection : State HealthStatus :=
  λ w,
    let '(r, w) :=
      services.AccountService.GetAccountByID "health_check_non_existent" w in
    match r with
    | Err err =>
        if String.eqb (Error err) "failed to get account: account not found"
        then (mkHealthStatus true "connected" EmptyString, w)
        else (mkHealthStatus false "disconnected" (Error err), w)
    | Ok _ => (mkHealthStatus true "connected" EmptyString, w)
    end.

Definition checkMongoConnection : State HealthStatus :=
  λ w,
    let '(r, w) :=
      services.GetTransactionByID "health_check_non_existent" w in
    match r with
    | Err err =>
        if String.eqb (Error err)
             "failed to get transaction: transaction not found"
        then (mkHealthStatus true "connected" EmptyString, w)
        else (mkHealthStatus false "disconnected" (Error err), w)
    | Ok _ => (mkHealthStatus true "connected" EmptyString, w)
    end.

(** [rabbitMQ] is [None] for a nil pointer, else what IsConnected returns. *)
Definition checkRabbitMQConnection (rabbitMQ : option bool) : HealthStatus :=
  match rabbitMQ with
  | None => mkHealthStatus false "not_configured" "RabbitMQ not initialized"
  | Some true => mkHealthStatus true "connected" EmptyString
  | Some false => mkHealthStatus false "disconnected" "RabbitMQ connection lost"
  end.

Definition check_entry (s : HealthStatus) : Value :=
  VObject [("status", VString (hs_Status s)); ("error", VString (hs_Error s))].

(** GET /ready *)
Definition ReadyCheck (rabbitMQ : option bool) : State Reply :=
  λ w,
    let '(postgresStatus, w) := checkPostgresConnection w in
    let allHealthy := hs_Healthy postgresStatus in
    let '(mongoStatus, w) := checkMongoConnection w in
    let allHealthy := if hs_Healthy mongoStatus then allHealthy else false in
    let rabbitStatus := checkRabbitMQConnection rabbitMQ in
    let checks :=
      VObject [("postgres", check_entry postgresStatus);
               ("mongodb", check_entry mongoStatus);
               ("rabbitmq", check_entry rabbitStatus)] in
    if allHealthy then
      (mkReply StatusOK [("status", VString "ready"); ("services", checks)], w)
    else
      (mkReply StatusServiceUnavailable
         [("status", VString "not_ready"); ("services", checks)], w).

End handlers.

(** ** Package middleware *)

Module middleware.

(** [Some] is the answer with which the request is aborted, [None] lets it
    through. *)
Definition ValidateAccountID (accountID : string) : option handlers.Response :=
  if String.eqb accountID EmptyString then
    Some (handlers.mkResponse handlers.StatusBadRequest
            [("error", handlers.JString "account ID is required");
             ("field", handlers.JString "id")])
  else if negb (HasPrefix accountID "acc_") then
    Some (handlers.mkResponse handlers.StatusBadRequest
            [("error", handlers.JString "invalid account ID format");
             ("field", handlers.JString "id")])
  else None.

Definition ValidateTransactionID (transactionID : string)
    : option handlers.Response :=
  if String.eqb transactionID EmptyString then
    Some (handlers.mkResponse handlers.StatusBadRequest
            [("error", handlers.JString "transaction ID is required");
             ("field", handlers.JString "id")])
  else if negb (HasPrefix transactionID "txn_") then
    Some (handlers.mkResponse handlers.StatusBadRequest
            [("error", handlers.JString "invalid transaction ID format");
             ("field", handlers.JString "id")])
  else None.

End middleware.

(** ** Package config *)

Module config.

(** The loop of [parseInt], [result] being the value so far. *)
Fixpoint parseInt_from (result : Z) (s : string) : Z :=
  match s with
  | EmptyString => result
  | String char r =>
      if (("0" <=? char)%char && (char <=? "9")%char)%bool then
        parseInt_from
          (storage.wrap_int
             (storage.wrap_int (result * 10)
                + (Z.of_N (N_of_ascii char) - Z.of_N (N_of_ascii "0"))))
          r
      else 0
  end.

Definition parseInt (s : string) : Z := parseInt_from 0 s.

(** The environment: what [os.LookupEnv] finds. *)
Definition getEnv (env : gmap string string) (key defaultVal : string) : string :=
  match env !! key with
  | Some value => value
  | None => defaultVal
  end.

Definition getEnvInt (env : gmap string string) (key : string) (defaultVal : Z)
    : Z :=
  match env !! key with
  | Some value =>
      let intVal := parseInt value in
      if 0 <? intVal then intVal else defaultVal
  | None => defaultVal
  end.

End config.

(** ** Package worker *)

Module worker.

(** What the worker tells the broker about a delivery:
    [delivery.Ack (multiple)] or [delivery.Nack (multiple, requeue)]. *)
Inductive Disposition : Type :=
| Ack (multiple : bool)
| Nack (multiple requeue : bool).

Definition businessErrors : list string :=
  [ "insufficient funds";
    "invalid transaction type";
    "account not found";
    "amount must be greater than 0";
    "transaction is not in pending state" ].

Definition isBusinessError (err : error) : bool :=
  let errorMsg := ToLower (Error err) in
  existsb (λ busErr, Contains errorMsg busErr) businessErrors.

(** [decoded] is what [json.Unmarshal] made of the delivery's body. *)
Definition processMessage (decoded : result TransactionMessage)
    : State Disposition :=
  λ w,
    let '(_, w) := time_Now w in
    match decoded with
    | Err _ => (Nack false false, w)
    | Ok msg =>
        let req :=
          mkTransactionRequest (msg_Type msg) (msg_Amount msg)
            (msg_Reference msg) in
        let '(r, w) := services.ProcessTransactionAsync (msg_ID msg) req w in
        match r with
        | Err processErr =>
            if isBusinessError processErr then (Ack false, w)
            else (Nack false true, w)
        | Ok _ => (Ack false, w)
        end
    end.

End worker.

(** * Vocabulary of the statements *)

(** ** Post-states and observations *)

(** The world once a Postgres call is logged and its scripted failure taken. *)
Definition pg_entered (c : Call) (w : World) : World :=
  set_pg_faults (log_call c w) (tl (pg_faults w)).

(** The world once a Mongo call is logged and its scripted failure taken. *)
Definition mongo_entered (c : Call) (w : World) : World :=
  set_mongo_faults (log_call c w) (tl (mongo_faults w)).

(** The world once the balance of [accountID] is committed. *)
Definition pg_committed (accountID : string) (a : Account) (newBalance : money)
    (w : World) : World :=
  set_accounts (set_clock w (clock w + 1))
    (<[accountID := storage.update_row a newBalance (clock w)]> (accounts w)).

(** The balance the table holds for [accountID], if the row exists. *)
Definition balance_of (accountID : string) (w : World) : option money :=
  acc_Balance <$> accounts w !! accountID.

(** deposit ↔ withdraw *)
Definition inverse_kind (kind : string) : string :=
  if String.eqb kind "deposit" then "withdraw"
  else if String.eqb kind "withdraw" then "deposit"
  else kind.

(** ** The invariant of completed records *)

(** status = completed ⇒ newBalance = previousBalance ± amount, by kind. *)
Definition completed_invariant (t : Transaction) : Prop :=
  txn_Status t = "completed" →
  (txn_Type t = "deposit" →
     txn_NewBalance t = txn_PreviousBalance t + txn_Amount t)
  ∧ (txn_Type t = "withdraw" →
     txn_NewBalance t = txn_PreviousBalance t - txn_Amount t).

(** What a call on the storage interfaces may hand to the collection: a
    record written or updated obeys the invariant, and a bare status update
    never sets "completed". *)
Definition call_respects_invariant (c : Call) : Prop :=
  match c with
  | CallCreateTransaction t | CallUpdateTransaction t => completed_invariant t
  | CallUpdateTransactionStatusWithError _ status _ => status ≠ "completed"
  | _ => True
  end.

(** The request restates the kind and the amount of the stored record, as
    the message built from that record does. *)
Definition restates (req : TransactionRequest) (t : Transaction) : Prop :=
  req_Type req = txn_Type t ∧ req_Amount req = txn_Amount t.

(** ** Observations of the further properties *)

(** No balance of the table is negative. *)
Definition balances_nonnegative (w : World) : Prop :=
  ∀ id a, accounts w !! id = Some a → 0 ≤ acc_Balance a.

(** No failure is scripted for any external system. *)
Definition healthy (w : World) : Prop :=
  pg_faults w = [] ∧ mongo_faults w = [] ∧ amqp_faults w = [].

(** [n] deliveries of the same message to a worker, one after the other,
    with what the worker answered each time. *)
Fixpoint deliveries (n : nat) (decoded : result TransactionMessage)
    (w : World) : list worker.Disposition * World :=
  match n with
  | O => ([], w)
  | S n =>
      let '(d, w) := worker.processMessage decoded w in
      let '(ds, w) := deliveries n decoded w in
      (d :: ds, w)
  end.

(** The request a worker builds from a message. *)
Definition request_of (m : TransactionMessage) : TransactionRequest :=
  mkTransactionRequest (msg_Type m) (msg_Amount m) (msg_Reference m).

(** What can happen to the account table: the entry points of the service
    that write to it. *)
Inductive Operation : Type :=
| OpCreateAccount (req : CreateAccountRequest)
| OpProcessSync (accountID : string) (req : TransactionRequest)
| OpProcessAsync (accountID : string) (req : TransactionRequest)
| OpDeliver (decoded : result TransactionMessage).

Definition perform (op : Operation) (w : World) : World :=
  match op with
  | OpCreateAccount req => (services.AccountService.CreateAccount req w).2
  | OpProcessSync accountID req =>
      (handlers.processTransactionSync accountID req w).2
  | OpProcessAsync accountID req =>
      (handlers.processTransactionAsync accountID req w).2
  | OpDeliver decoded => (worker.processMessage decoded w).2
  end.

Definition perform_all (ops : list Operation) (w : World) : World :=
  foldl (λ w op, perform op w) w ops.

(** The records of an account, newest first. *)
Definition history_of (accountID : string) (w : World) : list Transaction :=
  merge_sort storage.newest_first
    (filter (λ t, txn_AccountID t = accountID) (ledger w)).

(** The limit [GetTransactionHistory] applies: 10 when none is asked for,
    never more than 100. *)
Definition applied_limit (limit : Z) : Z :=
  if limit <=? 0 then 10 else if 100 <? limit then 100 else limit.

(** ** Scenarios *)

Definition ann : Account := mkAccount "acc_1" "Ann" 50000 0 0.

(** One account holding 500.00; every external system healthy. *)
Definition bank : World :=
  mkWorld {["acc_1" := ann]} [] [] 100 0 [] [] [] [].

(** The same, the next call on the collection failing. *)
Definition bank_ledger_down : World :=
  set_mongo_faults bank [Some (errorString "database error")].

(** The same, the next publish failing. *)
Definition bank_queue_down : World :=
  set_amqp_faults bank [Some (errorString "connection closed")].

Definition pending_deposit : Transaction :=
  mkTransaction "txn_1" "txn_1" "acc_1" "deposit" 15000 50000 0 "salary" 90
    "pending" EmptyString.

Definition completed_deposit : Transaction :=
  mkTransaction "txn_1" "txn_1" "acc_1" "deposit" 15000 35000 50000 "salary" 90
    "completed" EmptyString.

Definition bank_pending : World := set_ledger bank [pending_deposit].
Definition bank_completed : World := set_ledger bank [completed_deposit].

Definition deposit_100 : TransactionRequest :=
  mkTransactionRequest "deposit" 10000 "gift".
Definition deposit_150 : TransactionRequest :=
  mkTransactionRequest "deposit" 15000 "salary".
Definition withdraw_600 : TransactionRequest :=
  mkTransactionRequest "withdraw" 60000 "rent".
Definition transfer_150 : TransactionRequest :=
  mkTransactionRequest "transfer" 15000 "salary".

(** A valid request that does not restate the pending deposit of 150.00. *)
Definition withdraw_100 : TransactionRequest :=
  mkTransactionRequest "withdraw" 10000 "salary".

(** A message whose kind is not one of the two. *)
Definition transfer_message : TransactionMessage :=
  mkTransactionMessage "txn_1" "acc_1" "transfer" 15000 "salary" 91.

Definition insufficient_500_600 : error :=
  errorString "insufficient funds: current balance 500.00, requested 600.00".

(** *** Scenarios of the further properties *)

Definition deposit_message : TransactionMessage :=
  mkTransactionMessage "txn_1" "acc_1" "deposit" 15000 "salary" 91.

(** A pending withdrawal of 600.00 from the account holding 500.00. *)
Definition pending_withdrawal : Transaction :=
  mkTransaction "txn_2" "txn_2" "acc_1" "withdraw" 60000 50000 0 "rent" 95
    "pending" EmptyString.

Definition bank_overdrawn : World := set_ledger bank [pending_withdrawal].

Definition withdrawal_message : TransactionMessage :=
  mkTransactionMessage "txn_2" "acc_1" "withdraw" 60000 "rent" 96.

(** The pending deposit, the second call on the collection failing. *)
Definition bank_update_down : World :=
  set_mongo_faults bank_pending [None; Some (errorString "database error")].

(** The database of the accounts failing at the next call. *)
Definition bank_accounts_down : World :=
  set_pg_faults bank
    [Some (mkPgFault AtBegin (errorString "connection refused"))].

(** Three completed records of the account and one of another account. *)
Definition record_at (id accountID : string) (timestamp : Z) : Transaction :=
  mkTransaction id id accountID "deposit" 1000 0 1000 "gift" timestamp
    "completed" EmptyString.

Definition bank_history : World :=
  set_ledger bank
    [record_at "txn_a" "acc_1" 10; record_at "txn_b" "acc_2" 20;
     record_at "txn_c" "acc_1" 30; record_at "txn_d" "acc_1" 20].

(** * Properties *)

(** ** Scripts and projections *)

Lemma nth_fault_tl {A} (n : nat) (script : list (option A)) :
  nth_fault n (tl script) = nth_fault (S n) script.
Proof. destruct script as [|f s]; [by destruct n|done]. Qed.

Lemma pop_pg_fault_eq (w : World) :
  pop_pg_fault w = (nth_fault 0 (pg_faults w), set_pg_faults w (tl (pg_faults w))).
Proof. destruct w as [? ? ? ? ? pg ? ? ?]; by destruct pg. Qed.

Lemma pop_mongo_fault_eq (w : World) :
  pop_mongo_fault w
  = (nth_fault 0 (mongo_faults w), set_mongo_faults w (tl (mongo_faults w))).
Proof. destruct w as [? ? ? ? ? ? mg ? ?]; by destruct mg. Qed.

Lemma pop_amqp_fault_eq (w : World) :
  pop_amqp_fault w
  = (nth_fault 0 (amqp_faults w), set_amqp_faults w (tl (amqp_faults w))).
Proof. destruct w as [? ? ? ? ? ? ? mq ?]; by destruct mq. Qed.

(** ** The atomic balance update *)

Lemma AtomicBalanceUpdate_unfold accountID transactionType amount w :
  storage.AtomicBalanceUpdate accountID transactionType amount w
  = storage.AtomicBalanceUpdate_tx (nth_fault 0 (pg_faults w))
      accountID transactionType amount
      (pg_entered (CallAtomicBalanceUpdate accountID transactionType amount) w).
Proof.
  unfold storage.AtomicBalanceUpdate. by rewrite pop_pg_fault_eq.
Qed.

Lemma AtomicBalanceUpdate_tx_healthy accountID transactionType amount a w :
  accounts w !! accountID = Some a →
  storage.AtomicBalanceUpdate_tx None accountID transactionType amount w
  = match storage.calculate_new_balance transactionType (acc_Balance a) amount with
    | Err e => (Err e, w)
    | Ok newBalance =>
        (Ok (acc_Balance a, newBalance), pg_committed accountID a newBalance w)
    end.
Proof.
  intros Ha. unfold storage.AtomicBalanceUpdate_tx. rewrite Ha.
  by destruct (storage.calculate_new_balance _ _ _).
Qed.

Lemma AtomicBalanceUpdate_tx_missing f accountID transactionType amount w :
  f = None →
  accounts w !! accountID = None →
  storage.AtomicBalanceUpdate_tx f accountID transactionType amount w
  = (Err (errorString "account not found"), w).
Proof.
  intros -> Ha. unfold storage.AtomicBalanceUpdate_tx. by rewrite Ha.
Qed.

Lemma calculate_deposit previousBalance amount :
  storage.calculate_new_balance "deposit" previousBalance amount
  = Ok (previousBalance + amount).
Proof. reflexivity. Qed.

Lemma calculate_withdraw_short previousBalance amount :
  previousBalance < amount →
  storage.calculate_new_balance "withdraw" previousBalance amount
  = Err (errorString
           ("insufficient funds: current balance " +:+ fmt_2f previousBalance
              +:+ ", requested " +:+ fmt_2f amount)).
Proof.
  intros Hlt. unfold storage.calculate_new_balance. simpl.
  by rewrite (proj2 (Z.ltb_lt _ _) Hlt).
Qed.

Lemma calculate_withdraw_enough previousBalance amount :
  amount ≤ previousBalance →
  storage.calculate_new_balance "withdraw" previousBalance amount
  = Ok (previousBalance - amount).
Proof.
  intros Hle. unfold storage.calculate_new_balance. simpl.
  by rewrite (proj2 (Z.ltb_ge _ _) Hle).
Qed.

Lemma calculate_other transactionType previousBalance amount :
  transactionType ≠ "deposit" →
  transactionType ≠ "withdraw" →
  storage.calculate_new_balance transactionType previousBalance amount
  = Err (errorString ("invalid transaction type: " +:+ transactionType)).
Proof.
  intros Hd Hw. unfold storage.calculate_new_balance.
  by rewrite (proj2 (String.eqb_neq _ _) Hd), (proj2 (String.eqb_neq _ _) Hw).
Qed.

Lemma balance_of_Some accountID w b :
  balance_of accountID w = Some b ↔
  ∃ a, accounts w !! accountID = Some a ∧ acc_Balance a = b.
Proof.
  unfold balance_of. rewrite fmap_Some.
  split; intros (a & Ha & Hb); exists a; auto.
Qed.

Lemma balance_of_None accountID w :
  balance_of accountID w = None ↔ accounts w !! accountID = None.
Proof. unfold balance_of. by rewrite fmap_None. Qed.

Lemma balance_of_pg_entered accountID c w :
  balance_of accountID (pg_entered c w) = balance_of accountID w.
Proof. reflexivity. Qed.

Lemma balance_of_pg_committed accountID a newBalance w :
  balance_of accountID (pg_committed accountID a newBalance w) = Some newBalance.
Proof.
  unfold balance_of, pg_committed. simpl. by rewrite lookup_insert_eq.
Qed.

(** A healthy call on an existing row: the outcome is decided by the
    switch alone. *)
Lemma AtomicBalanceUpdate_healthy accountID transactionType amount a w :
  nth_fault 0 (pg_faults w) = None →
  accounts w !! accountID = Some a →
  storage.AtomicBalanceUpdate accountID transactionType amount w
  = let w1 :=
      pg_entered (CallAtomicBalanceUpdate accountID transactionType amount) w in
    match storage.calculate_new_balance transactionType (acc_Balance a) amount with
    | Err e => (Err e, w1)
    | Ok newBalance =>
        (Ok (acc_Balance a, newBalance), pg_committed accountID a newBalance w1)
    end.
Proof.
  intros Hf Ha. rewrite AtomicBalanceUpdate_unfold, Hf.
  by apply AtomicBalanceUpdate_tx_healthy.
Qed.

(** C1.  On a healthy database, [AtomicBalanceUpdate] on an account with
    balance [b] returns [(b, b + amount)] for a deposit and stores the new
    balance; for a withdrawal it fails with the insufficient-funds error
    when [b < amount] and otherwise returns [(b, b - amount)] and stores
    it; a kind other than the two fails with the invalid-type error; a
    missing account fails with the account-not-found error. *)
Theorem AtomicBalanceUpdate_contract accountID transactionType amount w :
  nth_fault 0 (pg_faults w) = None →
  let out := storage.AtomicBalanceUpdate accountID transactionType amount w in
  (balance_of accountID w = None →
     out.1 = Err (errorString "account not found"))
  ∧ (∀ b, balance_of accountID w = Some b →
       (transactionType = "deposit" →
          out.1 = Ok (b, b + amount)
          ∧ balance_of accountID out.2 = Some (b + amount))
       ∧ (transactionType = "withdraw" → b < amount →
          out.1 = Err (errorString
                         ("insufficient funds: current balance " +:+ fmt_2f b
                            +:+ ", requested " +:+ fmt_2f amount)))
       ∧ (transactionType = "withdraw" → amount ≤ b →
          out.1 = Ok (b, b - amount)
          ∧ balance_of accountID out.2 = Some (b - amount))
       ∧ (transactionType ≠ "deposit" → transactionType ≠ "withdraw" →
          out.1 = Err (errorString
                         ("invalid transaction type: " +:+ transactionType)))).
Proof.
  intros Hf out. subst out. split.
  - intros Hnone%balance_of_None.
    rewrite AtomicBalanceUpdate_unfold.
    by rewrite AtomicBalanceUpdate_tx_missing.
  - intros b (a & Ha & <-)%balance_of_Some.
    rewrite (AtomicBalanceUpdate_healthy _ _ _ a) by done.
    repeat split.
    + subst. by rewrite calculate_deposit.
    + subst. rewrite calculate_deposit. apply balance_of_pg_committed.
    + intros -> Hlt. by rewrite calculate_withdraw_short.
    + subst. by rewrite calculate_withdraw_enough.
    + subst. rewrite calculate_withdraw_enough by done.
      apply balance_of_pg_committed.
    + intros Hd Hw. by rewrite calculate_other.
Qed.

(** C2.  A withdrawal whose amount exceeds the current balance returns the
    insufficient-funds error and leaves the account table, hence the
    balance, exactly as it was. *)
Theorem withdraw_insufficient_funds_no_mutation accountID amount b w :
  nth_fault 0 (pg_faults w) = None →
  balance_of accountID w = Some b →
  b < amount →
  let out := storage.AtomicBalanceUpdate accountID "withdraw" amount w in
  out.1 = Err (errorString
                 ("insufficient funds: current balance " +:+ fmt_2f b
                    +:+ ", requested " +:+ fmt_2f amount))
  ∧ accounts out.2 = accounts w
  ∧ balance_of accountID out.2 = Some b.
Proof.
  intros Hf Hb Hlt out. subst out.
  destruct (proj1 (balance_of_Some _ _ _) Hb) as (a & Ha & <-).
  rewrite (AtomicBalanceUpdate_healthy _ _ _ a) by done.
  rewrite calculate_withdraw_short by done. simpl.
  by rewrite balance_of_pg_entered.
Qed.

(** ** Equations of the storage calls *)

#[local] Arguments set_accounts _ _ /.
#[local] Arguments set_ledger _ _ /.
#[local] Arguments set_published _ _ /.
#[local] Arguments set_clock _ _ /.
#[local] Arguments set_uuids _ _ /.
#[local] Arguments set_pg_faults _ _ /.
#[local] Arguments set_mongo_faults _ _ /.
#[local] Arguments set_amqp_faults _ _ /.
#[local] Arguments set_calls _ _ /.
#[local] Arguments log_call _ _ /.
#[local] Arguments pg_entered _ _ /.
#[local] Arguments mongo_entered _ _ /.
#[local] Arguments pg_committed _ _ _ _ /.
#[local] Arguments time_Now _ /.
#[local] Arguments uuid_New_String _ /.
#[local] Arguments NewTransactionID _ /.

Ltac world_simpl :=
  repeat progress
    cbn [accounts ledger published clock uuids pg_faults mongo_faults
         amqp_faults calls set_accounts set_ledger set_published set_clock
         set_uuids set_pg_faults set_mongo_faults set_amqp_faults log_call
         pg_entered mongo_entered pg_committed time_Now uuid_New_String
         set_calls NewTransactionID fst snd] in *.

Lemma CreateTransaction_eq t w :
  storage.CreateTransaction t w
  = let w1 := mongo_entered (CallCreateTransaction t) w in
    match nth_fault 0 (mongo_faults w) with
    | Some e => (Err (wrapError "failed to insert transaction: " e), w1)
    | None => (Ok tt, set_ledger w1 (ledger w ++ [t]))
    end.
Proof. unfold storage.CreateTransaction. by rewrite pop_mongo_fault_eq. Qed.

Lemma UpdateTransaction_eq t w :
  storage.UpdateTransaction t w
  = let w1 := mongo_entered (CallUpdateTransaction t) w in
    match nth_fault 0 (mongo_faults w) with
    | Some e => (Err (wrapError "failed to update transaction: " e), w1)
    | None =>
        match storage.update_one (txn_TransactionID t)
                (storage.set_result (txn_PreviousBalance t) (txn_NewBalance t)
                   (txn_Status t) (txn_ErrorMessage t)) (ledger w) with
        | None => (Err (errorString "transaction not found for update"), w1)
        | Some l => (Ok tt, set_ledger w1 l)
        end
    end.
Proof. unfold storage.UpdateTransaction. by rewrite pop_mongo_fault_eq. Qed.

Lemma GetTransactionByID_eq transactionID w :
  storage.GetTransactionByID transactionID w
  = let w1 := mongo_entered (CallGetTransactionByID transactionID) w in
    match nth_fault 0 (mongo_faults w) with
    | Some e => (Err (wrapError "failed to find transaction: " e), w1)
    | None =>
        match storage.find_one transactionID (ledger w) with
        | None => (Err (errorString "transaction not found"), w1)
        | Some t => (Ok t, w1)
        end
    end.
Proof. unfold storage.GetTransactionByID. by rewrite pop_mongo_fault_eq. Qed.

Lemma UpdateTransactionStatusWithError_eq transactionID status errorMessage w :
  storage.UpdateTransactionStatusWithError transactionID status errorMessage w
  = let w1 :=
      mongo_entered
        (CallUpdateTransactionStatusWithError transactionID status errorMessage)
        w in
    match nth_fault 0 (mongo_faults w) with
    | Some e =>
        (Err (wrapError "failed to update transaction status with error: " e),
         w1)
    | None =>
        match storage.update_one transactionID
                (storage.set_status status errorMessage) (ledger w) with
        | None =>
            (Err (errorString
                    "transaction not found for status update with error"), w1)
        | Some l => (Ok tt, set_ledger w1 l)
        end
    end.
Proof.
  unfold storage.UpdateTransactionStatusWithError.
  by rewrite pop_mongo_fault_eq.
Qed.

Lemma GetAccountByID_eq accountID w :
  storage.GetAccountByID accountID w
  = let w1 := pg_entered (CallGetAccountByID accountID) w in
    match nth_fault 0 (pg_faults w) with
    | Some flt => (Err (wrapError "failed to get account: " (fault_err flt)), w1)
    | None =>
        match accounts w !! accountID with
        | None => (Err (errorString "account not found"), w1)
        | Some a => (Ok a, w1)
        end
    end.
Proof. unfold storage.GetAccountByID. by rewrite pop_pg_fault_eq. Qed.

(** What a balance update leaves alone, whatever its outcome: it makes one
    call, takes one entry of the Postgres script, and touches neither the
    collection nor the queue. *)
Lemma AtomicBalanceUpdate_frame accountID transactionType amount w :
  let out := storage.AtomicBalanceUpdate accountID transactionType amount w in
  calls out.2
  = calls w ++ [CallAtomicBalanceUpdate accountID transactionType amount]
  ∧ ledger out.2 = ledger w
  ∧ published out.2 = published w
  ∧ uuids out.2 = uuids w
  ∧ pg_faults out.2 = tl (pg_faults w)
  ∧ mongo_faults out.2 = mongo_faults w
  ∧ amqp_faults out.2 = amqp_faults w.
Proof.
  intros out. subst out. rewrite AtomicBalanceUpdate_unfold.
  unfold storage.AtomicBalanceUpdate_tx.
  cbn [time_Now]. repeat case_match; by world_simpl.
Qed.

(** A successful balance update returns what the switch calculated. *)
Lemma AtomicBalanceUpdate_Ok accountID transactionType amount w p n w1 :
  storage.AtomicBalanceUpdate accountID transactionType amount w
  = (Ok (p, n), w1) →
  storage.calculate_new_balance transactionType p amount = Ok n
  ∧ balance_of accountID w = Some p
  ∧ balance_of accountID w1 = Some n.
Proof.
  rewrite AtomicBalanceUpdate_unfold. unfold storage.AtomicBalanceUpdate_tx.
  set (w0 := pg_entered _ w).
  assert (Hacc : accounts w0 = accounts w) by done.
  rewrite Hacc. unfold balance_of.
  destruct (nth_fault 0 (pg_faults w)) as [[[] e]|]; try done;
    (destruct (accounts w !! accountID) as [a|] eqn:Ha; [|done]);
    (destruct (storage.calculate_new_balance transactionType (acc_Balance a)
                 amount) as [nb|] eqn:Hc; [|done]);
    try done.
  intros [= <- <- <-]. world_simpl. by rewrite lookup_insert_eq.
Qed.

(** ** Validation *)

Lemma validate_None req :
  services.validateTransactionRequest req = None ↔
  (req_Type req = "deposit" ∨ req_Type req = "withdraw") ∧ 0 < req_Amount req.
Proof.
  unfold services.validateTransactionRequest.
  destruct (String.eqb_spec (req_Type req) "deposit") as [Hd|Hd];
    destruct (String.eqb_spec (req_Type req) "withdraw") as [Hw|Hw];
    destruct (Z.leb_spec (req_Amount req) 0); simpl;
    split; try done; try (intros [[|] ?]; done || lia); try (split; [auto|lia]).
Qed.

Lemma validate_Some req :
  (req_Type req ≠ "deposit" ∧ req_Type req ≠ "withdraw") ∨ req_Amount req ≤ 0 →
  services.validateTransactionRequest req
    = Some (errorString
              "transaction type must be either 'deposit' or 'withdraw'")
  ∨ services.validateTransactionRequest req
    = Some (errorString "amount must be greater than 0").
Proof.
  unfold services.validateTransactionRequest.
  destruct (String.eqb_spec (req_Type req) "deposit") as [Hd|Hd];
    destruct (String.eqb_spec (req_Type req) "withdraw") as [Hw|Hw];
    destruct (Z.leb_spec (req_Amount req) 0); simpl; auto;
    intros [[? ?]|?]; done || lia.
Qed.

(** ** The synchronous path *)

Lemma rollbackType_inverse req :
  services.validateTransactionRequest req = None →
  services.rollbackType (req_Type req) = inverse_kind (req_Type req).
Proof.
  intros [[Hk|Hk] _]%validate_None; by rewrite Hk.
Qed.

(** C7.  A request whose kind is neither "deposit" nor "withdraw", or whose
    amount is not greater than 0, makes [ProcessTransaction] fail with the
    validation error and leaves the world as it was: no storage call is
    made, nothing is read and nothing is written. *)
Theorem ProcessTransaction_invalid_request accountID req w :
  (req_Type req ≠ "deposit" ∧ req_Type req ≠ "withdraw") ∨ req_Amount req ≤ 0 →
  ∃ err,
    services.ProcessTransaction accountID req w = (Err err, w)
    ∧ (err = errorString
               "transaction type must be either 'deposit' or 'withdraw'"
       ∨ err = errorString "amount must be greater than 0").
Proof.
  intros Hbad. unfold services.ProcessTransaction.
  destruct (validate_Some req Hbad) as [-> | ->]; eauto.
Qed.

(** C8, as amended.  When the atomic balance update fails with [err],
    [ProcessTransaction] returns [err] wrapped under the prefix
    "failed to process transaction: " (so [err] is its cause and the text
    of [err] is a suffix of its text), the world is the one the failed
    update left, and no ledger write is attempted: the update is the only
    call made. *)
Theorem ProcessTransaction_balance_failure accountID req w err w1 :
  services.validateTransactionRequest req = None →
  storage.AtomicBalanceUpdate accountID (req_Type req) (req_Amount req) w
  = (Err err, w1) →
  services.ProcessTransaction accountID req w
  = (Err (wrapError "failed to process transaction: " err), w1)
  ∧ ledger w1 = ledger w
  ∧ calls w1
    = calls w
        ++ [CallAtomicBalanceUpdate accountID (req_Type req) (req_Amount req)].
Proof.
  intros Hval Habu. unfold services.ProcessTransaction.
  rewrite Hval, Habu. split; [done|].
  pose proof (AtomicBalanceUpdate_frame accountID (req_Type req)
                (req_Amount req) w) as Hframe.
  rewrite Habu in Hframe. simpl in Hframe.
  by destruct Hframe as (-> & -> & _).
Qed.

(** C3.  In [ProcessTransaction], when the balance update succeeds and the
    ledger write then fails, the engine calls the balance update once more
    with the inverse kind and the same amount, and returns an error.  The
    run is followed through its three storage calls: the first call is the
    balance update of the request on the world of the caller, it returns
    [(b, n)] with [n = b + amount] or [n = b - amount] and leaves the
    account at [n]; two identifiers and the time are drawn; the write of
    the completed record with these two balances fails and leaves the
    account at [n]; the world the run returns
    is the world the balance update with the inverse kind and the same
    amount leaves when called there.  When that compensating call is not
    itself hit by a failure it returns [(n, b)] and the balance of the
    account is again what it was before the call.  (The balance of an
    account is never negative.) *)
Theorem ProcessTransaction_ledger_failure_compensates accountID req b e w :
  services.validateTransactionRequest req = None →
  balance_of accountID w = Some b →
  0 ≤ b →
  (req_Type req = "withdraw" → req_Amount req ≤ b) →
  nth_fault 0 (pg_faults w) = None →
  nth_fault 0 (mongo_faults w) = Some e →
  let out := services.ProcessTransaction accountID req w in
  ∃ n t w1 w1' w2 r3,
    (* the balance update *)
    storage.AtomicBalanceUpdate accountID (req_Type req) (req_Amount req) w
    = (Ok (b, n), w1)
    ∧ (req_Type req = "deposit" → n = b + req_Amount req)
    ∧ (req_Type req = "withdraw" → n = b - req_Amount req)
    ∧ n ≠ b
    ∧ balance_of accountID w1 = Some n
    (* two identifiers and the time are drawn, nothing else changes *)
    ∧ w1' = set_clock (set_uuids w1 (S (S (uuids w1)))) (clock w1 + 1)
    (* the ledger write *)
    ∧ t = mkTransaction ("txn_" +:+ pretty (uuids w1))
            ("txn_" +:+ pretty (S (uuids w1))) accountID (req_Type req)
            (req_Amount req) b n (req_Description req) (clock w1)
            "completed" EmptyString
    ∧ storage.CreateTransaction t w1'
      = (Err (wrapError "failed to insert transaction: " e), w2)
    ∧ balance_of accountID w2 = Some n
    (* the compensating balance update *)
    ∧ storage.AtomicBalanceUpdate accountID (inverse_kind (req_Type req))
        (req_Amount req) w2
      = (r3, out.2)
    ∧ out.1 = Err (wrapError "failed to save transaction: "
                     (wrapError "failed to insert transaction: " e))
    ∧ calls out.2
      = calls w
          ++ [CallAtomicBalanceUpdate accountID (req_Type req) (req_Amount req);
              CallCreateTransaction t;
              CallAtomicBalanceUpdate accountID (inverse_kind (req_Type req))
                (req_Amount req)]
    ∧ ledger out.2 = ledger w
    ∧ pg_faults out.2 = tl (tl (pg_faults w))
    ∧ (nth_fault 1 (pg_faults w) = None →
         r3 = Ok (n, b) ∧ balance_of accountID out.2 = Some b).
Proof.
  intros Hval (a & Ha & <-)%balance_of_Some Hpos Henough Hpg Hmongo out.
  subst out. unfold services.ProcessTransaction.
  rewrite (rollbackType_inverse _ Hval), Hval.
  rewrite (AtomicBalanceUpdate_healthy _ _ _ a) by done.
  cbv zeta.
  assert (∃ nb,
    storage.calculate_new_balance (req_Type req) (acc_Balance a) (req_Amount req)
    = Ok nb
    ∧ (req_Type req = "deposit" → nb = acc_Balance a + req_Amount req)
    ∧ (req_Type req = "withdraw" → nb = acc_Balance a - req_Amount req)
    ∧ nb ≠ acc_Balance a
    ∧ storage.calculate_new_balance (inverse_kind (req_Type req)) nb
        (req_Amount req) = Ok (acc_Balance a)) as (nb & -> & Hd & Hw & Hne & Hback).
  { destruct (proj1 (validate_None req) Hval) as [[Hk|Hk] Hamt]; rewrite Hk.
    - exists (acc_Balance a + req_Amount req).
      split; [done|]. split; [done|]. split; [done|]. split; [lia|].
      change (inverse_kind "deposit") with "withdraw".
      rewrite calculate_withdraw_enough by lia. f_equal. lia.
    - exists (acc_Balance a - req_Amount req). split.
      + apply calculate_withdraw_enough; auto.
      + split; [done|]. split; [done|]. split; [lia|].
        change (inverse_kind "withdraw") with "deposit".
        rewrite calculate_deposit. f_equal. lia. }
  cbn [NewTransactionID uuid_New_String time_Now].
  rewrite CreateTransaction_eq. cbv zeta. world_simpl. rewrite Hmongo.
  match goal with
  | |- context [storage.AtomicBalanceUpdate ?i ?k ?m ?w0] =>
      pose proof (AtomicBalanceUpdate_frame i k m w0) as Hframe;
      destruct (storage.AtomicBalanceUpdate i k m w0) as [r2 w2] eqn:Hsecond
  end.
  cbv zeta in Hframe. world_simpl.
  destruct Hframe as (Hcalls & Hledger & _ & _ & Hscript & _).
  set (t := mkTransaction ("txn_" +:+ pretty (uuids w))
              ("txn_" +:+ pretty (S (uuids w))) accountID (req_Type req)
              (req_Amount req) (acc_Balance a) nb (req_Description req)
              (clock w + 1) "completed" EmptyString) in *.
  exists nb, t. eexists.
  exists (mkWorld
            (<[accountID := storage.update_row a nb (clock w)]> (accounts w))
            (ledger w) (published w) (clock w + 1 + 1) (S (S (uuids w)))
            (tail (pg_faults w)) (mongo_faults w) (amqp_faults w)
            (calls w
               ++ [CallAtomicBalanceUpdate accountID (req_Type req)
                     (req_Amount req)])).
  eexists. exists r2.
  split; [reflexivity|]. split; [exact Hd|]. split; [exact Hw|].
  split; [exact Hne|].
  split; [unfold balance_of; world_simpl; by rewrite lookup_insert_eq|].
  do 2 (split; [reflexivity|]).
  split.
  { rewrite CreateTransaction_eq. cbv zeta. world_simpl.
    rewrite Hmongo. reflexivity. }
  split; [unfold balance_of; world_simpl; by rewrite lookup_insert_eq|].
  split; [exact Hsecond|]. split; [reflexivity|].
  split; [rewrite Hcalls, <- !app_assoc; reflexivity|].
  split; [by rewrite Hledger|].
  split; [by rewrite Hscript|].
  intros Hpg1.
  rewrite (AtomicBalanceUpdate_healthy _ _ _
             (storage.update_row a nb (clock w))) in Hsecond;
    [| world_simpl; by rewrite nth_fault_tl
     | world_simpl; by rewrite lookup_insert_eq].
  cbv zeta in Hsecond. cbn [storage.update_row acc_Balance] in Hsecond.
  rewrite Hback in Hsecond. injection Hsecond as <- <-.
  split; [reflexivity|].
  unfold balance_of. world_simpl. by rewrite lookup_insert_eq.
Qed.

(** ** The asynchronous path *)

Lemma service_GetTransactionByID_found transactionID t w :
  transactionID ≠ EmptyString →
  nth_fault 0 (mongo_faults w) = None →
  storage.find_one transactionID (ledger w) = Some t →
  services.GetTransactionByID transactionID w
  = (Ok t, mongo_entered (CallGetTransactionByID transactionID) w).
Proof.
  intros Hid Hf Hfind. unfold services.GetTransactionByID.
  rewrite (proj2 (String.eqb_neq _ _) Hid), GetTransactionByID_eq.
  cbv zeta. by rewrite Hf, Hfind.
Qed.

(** C4.  A transaction whose stored status is not "pending" makes
    [ProcessTransactionAsync] return the not-in-pending-state error, and
    nothing is mutated: the account table and the collection are as they
    were, and the only call made is the read of the transaction. *)
Theorem ProcessTransactionAsync_not_pending transactionID req t w :
  transactionID ≠ EmptyString →
  nth_fault 0 (mongo_faults w) = None →
  storage.find_one transactionID (ledger w) = Some t →
  txn_Status t ≠ "pending" →
  let out := services.ProcessTransactionAsync transactionID req w in
  out.1 = Err (errorString ("transaction is not in pending state: "
                              +:+ txn_Status t))
  ∧ accounts out.2 = accounts w
  ∧ ledger out.2 = ledger w
  ∧ calls out.2 = calls w ++ [CallGetTransactionByID transactionID].
Proof.
  intros Hid Hf Hfind Hstatus out. subst out.
  unfold services.ProcessTransactionAsync.
  rewrite (service_GetTransactionByID_found _ t) by done.
  by rewrite (proj2 (String.eqb_neq _ _) Hstatus).
Qed.

(** ** Records written by the engine *)

Lemma calculate_Ok_invariant kind p amount n :
  storage.calculate_new_balance kind p amount = Ok n →
  (kind = "deposit" → n = p + amount) ∧ (kind = "withdraw" → n = p - amount).
Proof.
  unfold storage.calculate_new_balance.
  destruct (String.eqb_spec kind "deposit") as [->|Hd].
  - intros [= <-]. split; [done|]. intros [=].
  - destruct (String.eqb_spec kind "withdraw") as [->|Hw]; [|done].
    destruct (p <? amount); [done|]. intros [= <-]. by split.
Qed.

Lemma update_one_find transactionID upd l l' t :
  (∀ x, txn_TransactionID (upd x) = txn_TransactionID x) →
  storage.find_one transactionID l = Some t →
  storage.update_one transactionID upd l = Some l' →
  storage.find_one transactionID l' = Some (upd t).
Proof.
  intros Hupd. revert l'.
  induction l as [|x l IH]; intros l'; simpl; [done|].
  destruct (String.eqb_spec (txn_TransactionID x) transactionID) as [Hx|Hx].
  - intros [= <-] [= <-]. simpl.
    by rewrite Hupd, (proj2 (String.eqb_eq _ _) Hx).
  - intros Hfind.
    destruct (storage.update_one transactionID upd l) as [l0|]; [|done].
    intros [= <-]. simpl.
    rewrite (proj2 (String.eqb_neq _ _) Hx). by apply IH.
Qed.

Lemma update_one_found transactionID upd l t :
  storage.find_one transactionID l = Some t →
  ∃ l', storage.update_one transactionID upd l = Some l'.
Proof.
  induction l as [|x l IH]; simpl; [done|].
  destruct (String.eqb (txn_TransactionID x) transactionID); [eauto|].
  intros [l' ->]%IH. simpl. eauto.
Qed.

Ltac calls_ok :=
  repeat first [apply Forall_nil_2 | apply Forall_cons_2]; simpl; try done.

Lemma ProcessTransaction_writes accountID req w :
  let out := services.ProcessTransaction accountID req w in
  (∃ cs, calls out.2 = calls w ++ cs ∧ Forall call_respects_invariant cs)
  ∧ (∀ t, out.1 = Ok t →
       txn_Status t = "completed"
       ∧ completed_invariant t
       ∧ ledger out.2 = ledger w ++ [t]).
Proof.
  intros out. subst out. unfold services.ProcessTransaction.
  destruct (services.validateTransactionRequest req) as [verr|].
  { split; [|done]. exists []. by rewrite app_nil_r. }
  pose proof (AtomicBalanceUpdate_frame accountID (req_Type req)
                (req_Amount req) w) as Hframe.
  pose proof (AtomicBalanceUpdate_Ok accountID (req_Type req)
                (req_Amount req) w) as Hok.
  destruct (storage.AtomicBalanceUpdate accountID (req_Type req)
              (req_Amount req) w) as [[[p n]|err] w1];
    cbv zeta in Hframe; world_simpl;
    destruct Hframe as (Hcalls & Hledger & _).
  2:{ split; [|done]. rewrite Hcalls. eexists. split; [done|].
      calls_ok. }
  destruct (Hok p n w1 eq_refl) as (Hcalc%calculate_Ok_invariant & _).
  assert (∀ id tid now,
            completed_invariant
              (mkTransaction id tid accountID (req_Type req) (req_Amount req)
                 p n (req_Description req) now "completed" EmptyString))
    as Hinv by (by intros ? ? ? _).
  rewrite CreateTransaction_eq. cbv zeta. world_simpl.
  destruct (nth_fault 0 (mongo_faults w1)) as [e|].
  - match goal with
    | |- context [storage.AtomicBalanceUpdate ?i ?k ?m ?w0] =>
        pose proof (AtomicBalanceUpdate_frame i k m w0) as Hframe2;
        destruct (storage.AtomicBalanceUpdate i k m w0) as [r2 w2]
    end.
    cbv zeta in Hframe2. world_simpl. destruct Hframe2 as (-> & _).
    split; [|done]. rewrite Hcalls, <- !app_assoc. eexists. split; [done|].
    calls_ok.
  - world_simpl. split.
    + rewrite Hcalls, <- !app_assoc. eexists. split; [done|].
      calls_ok.
    + intros t [= <-]. simpl. by rewrite Hledger.
Qed.

Lemma ProcessTransactionAsync_writes transactionID req w :
  (∀ t0, storage.find_one transactionID (ledger w) = Some t0 → restates req t0) →
  let out := services.ProcessTransactionAsync transactionID req w in
  (∃ cs, calls out.2 = calls w ++ cs ∧ Forall call_respects_invariant cs)
  ∧ (∀ t, out.1 = Ok t →
       txn_Status t = "completed"
       ∧ completed_invariant t
       ∧ storage.find_one transactionID (ledger out.2) = Some t).
Proof.
  intros Hrestates out. subst out.
  unfold services.ProcessTransactionAsync, services.GetTransactionByID.
  destruct (String.eqb transactionID EmptyString).
  { split; [|done]. exists []. by rewrite app_nil_r. }
  rewrite GetTransactionByID_eq. cbv zeta.
  destruct (nth_fault 0 (mongo_faults w)) as [e|].
  { split; [|done]. eexists. split; [done|]. calls_ok. }
  destruct (storage.find_one transactionID (ledger w)) as [t0|] eqn:Hfind.
  2:{ split; [|done]. eexists. split; [done|]. calls_ok. }
  destruct (Hrestates t0 eq_refl) as [Hkind Hamount].
  destruct (negb (String.eqb (txn_Status t0) "pending")).
  { split; [|done]. eexists. split; [done|]. calls_ok. }
  unfold services.UpdateTransactionStatusWithError.
  destruct (services.validateTransactionRequest req) as [verr|].
  { rewrite UpdateTransactionStatusWithError_eq. cbv zeta.
    split; [|by repeat case_match].
    eexists. split.
    - repeat case_match; simplify_eq; world_simpl;
        by rewrite <- !app_assoc.
    - calls_ok. }
  match goal with
  | |- context [storage.AtomicBalanceUpdate ?i ?k ?m ?w0] =>
      pose proof (AtomicBalanceUpdate_frame i k m w0) as Hframe;
      pose proof (AtomicBalanceUpdate_Ok i k m w0) as Hok;
      destruct (storage.AtomicBalanceUpdate i k m w0) as [[[p n]|err] w1]
  end; cbv zeta in Hframe; world_simpl;
    destruct Hframe as (Hcalls & Hledger & _).
  2:{ rewrite UpdateTransactionStatusWithError_eq. cbv zeta.
      split; [|by repeat case_match].
      eexists. split.
      - repeat case_match; simplify_eq; world_simpl;
          by rewrite Hcalls, <- !app_assoc.
      - calls_ok. }
  destruct (Hok p n w1 eq_refl) as (Hcalc%calculate_Ok_invariant & _).
  assert (completed_invariant
            (mkTransaction (txn_ID t0) (txn_TransactionID t0)
               (txn_AccountID t0) (txn_Type t0) (txn_Amount t0) p n
               (txn_Description t0) (txn_Timestamp t0) "completed" EmptyString))
    as Hinv.
  { intros _. simpl. rewrite <- Hkind, <- Hamount. tauto. }
  rewrite UpdateTransaction_eq. cbv zeta. world_simpl.
  cbn [txn_TransactionID txn_PreviousBalance txn_NewBalance txn_Status
       txn_ErrorMessage].
  destruct (nth_fault 0 (mongo_faults w1)) as [e|].
  - match goal with
    | |- context [storage.AtomicBalanceUpdate ?i ?k ?m ?w0] =>
        pose proof (AtomicBalanceUpdate_frame i k m w0) as Hframe2;
        destruct (storage.AtomicBalanceUpdate i k m w0) as [r2 w2]
    end.
    cbv zeta in Hframe2. world_simpl. destruct Hframe2 as (Hcalls2 & _).
    rewrite UpdateTransactionStatusWithError_eq. cbv zeta.
    split; [|by repeat case_match].
    eexists. split.
    + repeat case_match; simplify_eq; world_simpl;
        by rewrite Hcalls2, Hcalls, <- !app_assoc.
    + calls_ok.
  - rewrite Hledger.
    destruct (update_one_found transactionID
                (storage.set_result p n "completed" EmptyString) _ _ Hfind)
      as [l' Hupd].
    assert (txn_TransactionID t0 = transactionID) as Hid.
    { clear -Hfind. induction (ledger w) as [|x l IH]; [done|].
      simpl in Hfind.
      destruct (String.eqb_spec (txn_TransactionID x) transactionID);
        [by simplify_eq|auto]. }
    rewrite Hid, Hupd. world_simpl. split.
    + rewrite Hcalls, <- !app_assoc. eexists. split; [done|].
      calls_ok.
    + intros t [= <-]. split; [done|]. split.
      * intros _. simpl. rewrite <- Hkind, <- Hamount. tauto.
      * rewrite (update_one_find _
                   (storage.set_result p n "completed" EmptyString) _ _ _
                   (λ x, eq_refl) Hfind Hupd).
        unfold storage.set_result. by rewrite Hid.
Qed.

(** The record of the initial deposit obeys the invariant too. *)
Lemma CreateInitialTransaction_writes accountID initialBalance w :
  ∃ cs,
    calls (services.CreateInitialTransaction accountID initialBalance w).2
    = calls w ++ cs
    ∧ Forall call_respects_invariant cs.
Proof.
  unfold services.CreateInitialTransaction.
  destruct (initialBalance <=? 0).
  { exists []. by rewrite app_nil_r. }
  world_simpl. rewrite CreateTransaction_eq. cbv zeta. world_simpl.
  eexists. split.
  - by destruct (nth_fault 0 (mongo_faults w)).
  - calls_ok.
Qed.

(** C6, as amended.  Every record the engine hands to the collection by a
    write or an update obeys the invariant of completed records:
    newBalance = previousBalance + amount for a deposit and
    newBalance = previousBalance - amount for a withdrawal; a bare status
    update never sets "completed".  A transaction returned is completed,
    obeys the invariant and is the record the collection then holds.  This
    holds on the synchronous path always, and on the asynchronous path
    when the request has the kind and the amount of the stored record, as
    the message queued for that record has. *)
Theorem completed_records_obey_invariant accountID transactionID req w :
  (let out := services.ProcessTransaction accountID req w in
   (∃ cs, calls out.2 = calls w ++ cs ∧ Forall call_respects_invariant cs)
   ∧ (∀ t, out.1 = Ok t →
        txn_Status t = "completed"
        ∧ completed_invariant t
        ∧ ledger out.2 = ledger w ++ [t]))
  ∧ ((∀ t0,
        storage.find_one transactionID (ledger w) = Some t0 → restates req t0) →
     let out := services.ProcessTransactionAsync transactionID req w in
     (∃ cs, calls out.2 = calls w ++ cs ∧ Forall call_respects_invariant cs)
     ∧ (∀ t, out.1 = Ok t →
          txn_Status t = "completed"
          ∧ completed_invariant t
          ∧ storage.find_one transactionID (ledger out.2) = Some t)).
Proof.
  split.
  - apply ProcessTransaction_writes.
  - intros Hrestates. by apply ProcessTransactionAsync_writes.
Qed.

(** ** The asynchronous submission path of the handler *)

(** C10.  A withdrawal whose amount exceeds the current balance of the
    account is answered 400 "Insufficient funds" by the asynchronous
    submission path before anything is created or published: the
    collection and the queue are as they were, and the only call made is
    the read of the account. *)
Theorem processTransactionAsync_insufficient_funds accountID req b w :
  nth_fault 0 (pg_faults w) = None →
  balance_of accountID w = Some b →
  req_Type req = "withdraw" →
  b < req_Amount req →
  let out := handlers.processTransactionAsync accountID req w in
  out.1 = handlers.mkResponse handlers.StatusBadRequest
            [("error", handlers.JString "Insufficient funds");
             ("details",
              handlers.JString
                "Current balance is insufficient for this withdrawal")]
  ∧ ledger out.2 = ledger w
  ∧ published out.2 = published w
  ∧ accounts out.2 = accounts w
  ∧ calls out.2 = calls w ++ [CallGetAccountByID accountID].
Proof.
  intros Hpg (a & Ha & <-)%balance_of_Some Hkind Hlt out. subst out.
  unfold handlers.processTransactionAsync, services.GetAccountByID.
  rewrite GetAccountByID_eq. cbv zeta. rewrite Hpg, Ha, Hkind.
  by rewrite (proj2 (Z.ltb_lt _ _) Hlt).
Qed.

Lemma update_one_fresh transactionID upd l t :
  storage.find_one transactionID l = None →
  txn_TransactionID t = transactionID →
  storage.update_one transactionID upd (l ++ [t]) = Some (l ++ [upd t]).
Proof.
  intros Hfresh Hid. induction l as [|x l IH]; simpl in *.
  - by rewrite (proj2 (String.eqb_eq _ _) Hid).
  - destruct (String.eqb (txn_TransactionID x) transactionID); [done|].
    by rewrite IH.
Qed.

(** C9, as amended.  When the publish fails after the pending record has
    been persisted, the handler updates that record to status "failed"
    with the error message "Queue system unavailable" (capital Q), and the
    same request is then processed by the synchronous path, from the world
    this leaves.  The identifier drawn for the record is fresh and the
    status update is healthy. *)
Theorem processTransactionAsync_publish_failure accountID req a e w :
  let transactionID := "txn_" +:+ pretty (uuids w) in
  let pending :=
    mkTransaction transactionID transactionID accountID (req_Type req)
      (req_Amount req) (acc_Balance a) 0 (req_Description req) (clock w)
      "pending" EmptyString in
  let message :=
    mkTransactionMessage transactionID accountID (req_Type req)
      (req_Amount req) (req_Description req) (clock w + 1) in
  nth_fault 0 (pg_faults w) = None →
  accounts w !! accountID = Some a →
  ¬ (req_Type req = "withdraw" ∧ acc_Balance a < req_Amount req) →
  storage.find_one transactionID (ledger w) = None →
  nth_fault 0 (mongo_faults w) = None →
  nth_fault 0 (amqp_faults w) = Some e →
  nth_fault 1 (mongo_faults w) = None →
  ∃ w1,
    handlers.processTransactionAsync accountID req w
    = handlers.processTransactionSync accountID req w1
    ∧ ledger w1
      = ledger w
          ++ [storage.set_status "failed" "Queue system unavailable" pending]
    ∧ accounts w1 = accounts w
    ∧ published w1 = published w
    ∧ calls w1
      = calls w
          ++ [CallGetAccountByID accountID;
              CallCreateTransaction pending;
              CallPublishTransaction message;
              CallUpdateTransactionStatusWithError transactionID "failed"
                "Queue system unavailable"].
Proof.
  intros transactionID pending message Hpg Ha Hfunds Hfresh Hm0 Hq Hm1.
  unfold handlers.processTransactionAsync, services.GetAccountByID,
    services.CreatePendingTransaction,
    services.UpdateTransactionStatusWithError.
  rewrite GetAccountByID_eq. cbv zeta. rewrite Hpg, Ha.
  assert ((String.eqb (req_Type req) "withdraw"
           && (acc_Balance a <? req_Amount req))%bool = false) as ->.
  { apply andb_false_iff.
    destruct (String.eqb_spec (req_Type req) "withdraw") as [Hk|Hk]; [|by left].
    right. apply Z.ltb_ge.
    destruct (Z.le_gt_cases (req_Amount req) (acc_Balance a)); [done|].
    exfalso. apply Hfunds. split; [done|lia]. }
  world_simpl. rewrite CreateTransaction_eq. cbv zeta. world_simpl.
  rewrite Hm0. unfold queue.PublishTransaction. world_simpl.
  rewrite pop_amqp_fault_eq. world_simpl. rewrite Hq.
  rewrite UpdateTransactionStatusWithError_eq. cbv zeta. world_simpl.
  rewrite nth_fault_tl, Hm1.
  erewrite update_one_fresh; [|exact Hfresh|reflexivity].
  eexists. split; [reflexivity|]. world_simpl.
  by rewrite <- !app_assoc.
Qed.

(** ** The classifier of the worker *)

Lemma ToLower_app s t : ToLower (s +:+ t) = ToLower s +:+ ToLower t.
Proof. induction s as [|c s IH]; simpl; [done|by rewrite IH]. Qed.

Lemma HasPrefix_app s t p : HasPrefix s p = true → HasPrefix (s +:+ t) p = true.
Proof.
  revert s. induction p as [|a p IH]; intros [|b s]; simpl; try done.
  intros [-> Hp]%andb_true_iff. by rewrite (IH _ Hp).
Qed.

Lemma Contains_app_l s t p : Contains s p = true → Contains (s +:+ t) p = true.
Proof.
  induction s as [|b s IH].
  - simpl. rewrite orb_false_r. intros Hp.
    destruct p; [by destruct t|done].
  - intros Hc. cbn [Contains] in Hc. apply orb_true_iff in Hc as [Hp|Hc].
    + change (String b s +:+ t) with (String b (s +:+ t)). cbn [Contains].
      apply orb_true_iff. left. exact (HasPrefix_app (String b s) t p Hp).
    + change (String b s +:+ t) with (String b (s +:+ t)). cbn [Contains].
      apply orb_true_iff. right. by apply IH.
Qed.

Lemma Contains_app_r s t p : Contains t p = true → Contains (s +:+ t) p = true.
Proof.
  intros Hc. induction s as [|b s IH]; [done|].
  change (String b s +:+ t) with (String b (s +:+ t)). cbn [Contains].
  apply orb_true_iff. by right.
Qed.

(** Four of the five classes of errors [ProcessTransactionAsync] returns
    are matched by the list of the classifier. *)
Lemma isBusinessError_not_pending status :
  worker.isBusinessError
    (errorString ("transaction is not in pending state: " +:+ status)) = true.
Proof.
  unfold worker.isBusinessError.
  cbn [Error existsb worker.businessErrors]. rewrite ToLower_app.
  rewrite (Contains_app_l _ _ "transaction is not in pending state") by done.
  by rewrite !orb_true_r.
Qed.

Lemma isBusinessError_insufficient_funds b amount :
  worker.isBusinessError
    (wrapError "failed to update balance: "
       (errorString ("insufficient funds: current balance " +:+ fmt_2f b
                       +:+ ", requested " +:+ fmt_2f amount))) = true.
Proof.
  unfold worker.isBusinessError.
  cbn [Error existsb worker.businessErrors]. rewrite !ToLower_app.
  rewrite (Contains_app_r _ _ "insufficient funds"); [done|].
  by apply Contains_app_l.
Qed.

Lemma isBusinessError_account_not_found :
  worker.isBusinessError
    (wrapError "failed to update balance: " (errorString "account not found"))
  = true.
Proof. reflexivity. Qed.

Lemma isBusinessError_amount :
  worker.isBusinessError (errorString "amount must be greater than 0") = true.
Proof. reflexivity. Qed.

(** The fifth is not: the text the validation gives an invalid kind contains
    none of the five patterns. *)
Lemma isBusinessError_invalid_type :
  worker.isBusinessError
    (errorString "transaction type must be either 'deposit' or 'withdraw'")
  = false.
Proof. reflexivity. Qed.

(** The validation precedes the balance update, so the message
    "invalid transaction type: ..." of the storage never leaves
    [ProcessTransactionAsync]: an invalid kind always surfaces with the
    text of the validation. *)
Lemma ProcessTransactionAsync_invalid_type transactionID req t w :
  transactionID ≠ EmptyString →
  nth_fault 0 (mongo_faults w) = None →
  storage.find_one transactionID (ledger w) = Some t →
  txn_Status t = "pending" →
  req_Type req ≠ "deposit" →
  req_Type req ≠ "withdraw" →
  (services.ProcessTransactionAsync transactionID req w).1
  = Err (errorString
           "transaction type must be either 'deposit' or 'withdraw'").
Proof.
  intros Hid Hf Hfind Hstatus Hd Hw.
  unfold services.ProcessTransactionAsync.
  rewrite (service_GetTransactionByID_found _ t) by done.
  rewrite Hstatus. cbn [String.eqb Ascii.eqb Bool.eqb negb].
  unfold services.validateTransactionRequest.
  rewrite (proj2 (String.eqb_neq _ _) Hd), (proj2 (String.eqb_neq _ _) Hw).
  cbn [negb andb].
  by destruct (services.UpdateTransactionStatusWithError _ _ _ _).
Qed.

(** C5.  The message [transfer_message] reaches a worker while its record
    is pending: [ProcessTransactionAsync] fails with the invalid-type
    validation error and marks the record failed, the classifier answers
    false on that error, and the worker rejects the delivery with
    requeue instead of acknowledging it. *)
Theorem invalid_type_error_is_requeued :
  (services.ProcessTransactionAsync "txn_1" transfer_150 bank_pending).1
  = Err (errorString
           "transaction type must be either 'deposit' or 'withdraw'")
  ∧ txn_Status
      <$> storage.find_one "txn_1"
            (ledger
               (services.ProcessTransactionAsync "txn_1" transfer_150
                  bank_pending).2)
    = Some "failed"
  ∧ worker.isBusinessError
      (errorString "transaction type must be either 'deposit' or 'withdraw'")
    = false
  ∧ (worker.processMessage (Ok transfer_message) bank_pending).1
    = worker.Nack false true.
Proof. by vm_compute. Qed.

(** ** The theorems at the scenarios *)

Lemma AtomicBalanceUpdate_contract_witness :
  nth_fault 0 (pg_faults bank) = None
  ∧ balance_of "acc_1" bank = Some 50000
  ∧ (storage.AtomicBalanceUpdate "acc_1" "deposit" 25000 bank).1
    = Ok (50000, 75000).
Proof.
  assert (H0 : nth_fault 0 (pg_faults bank) = None) by reflexivity.
  assert (Hb : balance_of "acc_1" bank = Some 50000) by (vm_compute; reflexivity).
  split; [exact H0|]. split; [exact Hb|].
  exact (proj1 (proj1 (proj2 (AtomicBalanceUpdate_contract "acc_1" "deposit"
                                25000 bank H0) 50000 Hb) eq_refl)).
Defined.

Lemma withdraw_insufficient_funds_no_mutation_witness :
  nth_fault 0 (pg_faults bank) = None
  ∧ balance_of "acc_1" bank = Some 50000
  ∧ 50000 < 60000
  ∧ (storage.AtomicBalanceUpdate "acc_1" "withdraw" 60000 bank).1
    = Err insufficient_500_600
  ∧ balance_of "acc_1"
      (storage.AtomicBalanceUpdate "acc_1" "withdraw" 60000 bank).2
    = Some 50000.
Proof.
  assert (H0 : nth_fault 0 (pg_faults bank) = None) by reflexivity.
  assert (Hb : balance_of "acc_1" bank = Some 50000) by (vm_compute; reflexivity).
  assert (Hlt : 50000 < 60000) by lia.
  pose proof (withdraw_insufficient_funds_no_mutation "acc_1" 60000 50000 bank
                H0 Hb Hlt) as (Herr & _ & Hbal).
  split; [exact H0|]. split; [exact Hb|]. split; [exact Hlt|].
  split; [exact Herr|exact Hbal].
Defined.

Lemma ProcessTransaction_ledger_failure_compensates_witness :
  services.validateTransactionRequest deposit_100 = None
  ∧ balance_of "acc_1" bank_ledger_down = Some 50000
  ∧ nth_fault 0 (mongo_faults bank_ledger_down)
    = Some (errorString "database error")
  ∧ (∃ w2,
       balance_of "acc_1" w2 = Some (50000 + 10000)
       ∧ storage.AtomicBalanceUpdate "acc_1" "withdraw" 10000 w2
         = (Ok (50000 + 10000, 50000),
            (services.ProcessTransaction "acc_1" deposit_100
               bank_ledger_down).2))
  ∧ (services.ProcessTransaction "acc_1" deposit_100 bank_ledger_down).1
    = Err (wrapError "failed to save transaction: "
             (wrapError "failed to insert transaction: "
                (errorString "database error")))
  ∧ balance_of "acc_1"
      (services.ProcessTransaction "acc_1" deposit_100 bank_ledger_down).2
    = Some 50000.
Proof.
  assert (Hval : services.validateTransactionRequest deposit_100 = None)
    by reflexivity.
  assert (Hb : balance_of "acc_1" bank_ledger_down = Some 50000)
    by (vm_compute; reflexivity).
  assert (Hpos : 0 ≤ 50000) by lia.
  assert (Henough : req_Type deposit_100 = "withdraw" →
                    req_Amount deposit_100 ≤ 50000)
    by (intros Hk; discriminate Hk).
  assert (Hpg : nth_fault 0 (pg_faults bank_ledger_down) = None) by reflexivity.
  assert (Hmongo : nth_fault 0 (mongo_faults bank_ledger_down)
                   = Some (errorString "database error")) by reflexivity.
  destruct (ProcessTransaction_ledger_failure_compensates "acc_1" deposit_100
              50000 (errorString "database error") bank_ledger_down
              Hval Hb Hpos Henough Hpg Hmongo)
    as (n & t & w1 & w1' & w2 & r3 & _ & Hd & _ & _ & _ & _ & _ & _ & Hbal2
        & Hcomp & Herr & _ & _ & _ & Hback).
  destruct (Hback eq_refl) as [Hr3 Hbal].
  assert (Hn : n = 50000 + 10000) by exact (Hd eq_refl).
  split; [exact Hval|]. split; [exact Hb|]. split; [exact Hmongo|].
  split.
  { exists w2. rewrite <- Hn. split; [exact Hbal2|].
    rewrite Hr3 in Hcomp. exact Hcomp. }
  split; [exact Herr|exact Hbal].
Defined.

Lemma ProcessTransactionAsync_not_pending_witness :
  storage.find_one "txn_1" (ledger bank_completed) = Some completed_deposit
  ∧ txn_Status completed_deposit ≠ "pending"
  ∧ (services.ProcessTransactionAsync "txn_1" deposit_150 bank_completed).1
    = Err (errorString "transaction is not in pending state: completed")
  ∧ ledger (services.ProcessTransactionAsync "txn_1" deposit_150
              bank_completed).2
    = ledger bank_completed.
Proof.
  assert (Hid : "txn_1" ≠ EmptyString) by (intros Hid; discriminate Hid).
  assert (Hf : nth_fault 0 (mongo_faults bank_completed) = None) by reflexivity.
  assert (Hfind : storage.find_one "txn_1" (ledger bank_completed)
                  = Some completed_deposit) by reflexivity.
  assert (Hstatus : txn_Status completed_deposit ≠ "pending")
    by (intros Hs; discriminate Hs).
  pose proof (ProcessTransactionAsync_not_pending "txn_1" deposit_150
                completed_deposit bank_completed Hid Hf Hfind Hstatus)
    as (Herr & _ & Hledger & _).
  split; [exact Hfind|]. split; [exact Hstatus|].
  split; [exact Herr|exact Hledger].
Defined.

Lemma completed_records_obey_invariant_witness :
  (∀ t0, storage.find_one "txn_1" (ledger bank_pending) = Some t0 →
         restates deposit_150 t0)
  ∧ ∃ t,
      (services.ProcessTransactionAsync "txn_1" deposit_150 bank_pending).1
      = Ok t
      ∧ txn_Status t = "completed"
      ∧ completed_invariant t
      ∧ txn_NewBalance t = 65000.
Proof.
  assert (Hrestates : ∀ t0,
            storage.find_one "txn_1" (ledger bank_pending) = Some t0 →
            restates deposit_150 t0).
  { intros t0 Hfind. injection Hfind as <-. split; reflexivity. }
  split; [exact Hrestates|].
  pose proof (proj2 (completed_records_obey_invariant "acc_1" "txn_1"
                       deposit_150 bank_pending) Hrestates) as (_ & Hret).
  exists (storage.set_result 50000 65000 "completed" EmptyString pending_deposit).
  assert (Hrun :
    (services.ProcessTransactionAsync "txn_1" deposit_150 bank_pending).1
    = Ok (storage.set_result 50000 65000 "completed" EmptyString
            pending_deposit)) by (vm_compute; reflexivity).
  destruct (Hret _ Hrun) as (Hstatus & Hinv & _).
  split; [exact Hrun|]. split; [exact Hstatus|]. split; [exact Hinv|reflexivity].
Defined.

Lemma ProcessTransaction_invalid_request_witness :
  (req_Type transfer_150 ≠ "deposit" ∧ req_Type transfer_150 ≠ "withdraw")
  ∧ ∃ err,
      services.ProcessTransaction "acc_1" transfer_150 bank = (Err err, bank).
Proof.
  assert (Hkind : req_Type transfer_150 ≠ "deposit"
                  ∧ req_Type transfer_150 ≠ "withdraw")
    by (split; intros Hk; discriminate Hk).
  split; [exact Hkind|].
  destruct (ProcessTransaction_invalid_request "acc_1" transfer_150 bank
              (or_introl Hkind)) as (err & Hrun & _).
  exists err. exact Hrun.
Defined.

Lemma ProcessTransaction_balance_failure_witness :
  services.validateTransactionRequest withdraw_600 = None
  ∧ storage.AtomicBalanceUpdate "acc_1" "withdraw" 60000 bank
    = (Err insufficient_500_600,
       (storage.AtomicBalanceUpdate "acc_1" "withdraw" 60000 bank).2)
  ∧ services.ProcessTransaction "acc_1" withdraw_600 bank
    = (Err (wrapError "failed to process transaction: " insufficient_500_600),
       (storage.AtomicBalanceUpdate "acc_1" "withdraw" 60000 bank).2).
Proof.
  assert (Hval : services.validateTransactionRequest withdraw_600 = None)
    by reflexivity.
  assert (Habu : storage.AtomicBalanceUpdate "acc_1" "withdraw" 60000 bank
                 = (Err insufficient_500_600,
                    (storage.AtomicBalanceUpdate "acc_1" "withdraw" 60000
                       bank).2))
    by (vm_compute; reflexivity).
  split; [exact Hval|]. split; [exact Habu|].
  exact (proj1 (ProcessTransaction_balance_failure "acc_1" withdraw_600 bank
                  insufficient_500_600 _ Hval Habu)).
Defined.

(** C8, as stated, fails: the error [ProcessTransaction] returns when the
    balance update fails is not the error of the balance update. *)
Lemma ProcessTransaction_error_is_wrapped :
  (storage.AtomicBalanceUpdate "acc_1" "withdraw" 60000 bank).1
  = Err insufficient_500_600
  ∧ (services.ProcessTransaction "acc_1" withdraw_600 bank).1
    = Err (wrapError "failed to process transaction: " insufficient_500_600)
  ∧ (services.ProcessTransaction "acc_1" withdraw_600 bank).1
    ≠ Err insufficient_500_600.
Proof.
  split; [by vm_compute|]. split; [by vm_compute|].
  vm_compute. intros Heq. discriminate Heq.
Qed.

Lemma processTransactionAsync_insufficient_funds_witness :
  nth_fault 0 (pg_faults bank) = None
  ∧ balance_of "acc_1" bank = Some 50000
  ∧ req_Type withdraw_600 = "withdraw"
  ∧ 50000 < req_Amount withdraw_600
  ∧ handlers.code (handlers.processTransactionAsync "acc_1" withdraw_600 bank).1
    = 400
  ∧ ledger (handlers.processTransactionAsync "acc_1" withdraw_600 bank).2 = []
  ∧ published (handlers.processTransactionAsync "acc_1" withdraw_600 bank).2
    = [].
Proof.
  assert (H0 : nth_fault 0 (pg_faults bank) = None) by reflexivity.
  assert (Hb : balance_of "acc_1" bank = Some 50000) by (vm_compute; reflexivity).
  assert (Hk : req_Type withdraw_600 = "withdraw") by reflexivity.
  assert (Hlt : 50000 < req_Amount withdraw_600) by (simpl; lia).
  pose proof (processTransactionAsync_insufficient_funds "acc_1" withdraw_600
                50000 bank H0 Hb Hk Hlt) as (Hresp & Hledger & Hpub & _).
  split; [exact H0|]. split; [exact Hb|]. split; [exact Hk|].
  split; [exact Hlt|]. split; [by rewrite Hresp|].
  split; [exact Hledger|exact Hpub].
Defined.

Lemma processTransactionAsync_publish_failure_witness :
  accounts bank_queue_down !! "acc_1" = Some ann
  ∧ storage.find_one "txn_0" (ledger bank_queue_down) = None
  ∧ nth_fault 0 (amqp_faults bank_queue_down)
    = Some (errorString "connection closed")
  ∧ ∃ w1,
      handlers.processTransactionAsync "acc_1" deposit_100 bank_queue_down
      = handlers.processTransactionSync "acc_1" deposit_100 w1
      ∧ ledger w1
        = [mkTransaction "txn_0" "txn_0" "acc_1" "deposit" 10000 50000 0 "gift"
             100 "failed" "Queue system unavailable"].
Proof.
  assert (Hpg : nth_fault 0 (pg_faults bank_queue_down) = None) by reflexivity.
  assert (Ha : accounts bank_queue_down !! "acc_1" = Some ann)
    by (vm_compute; reflexivity).
  assert (Hfunds : ¬ (req_Type deposit_100 = "withdraw"
                      ∧ acc_Balance ann < req_Amount deposit_100))
    by (intros [Hk _]; discriminate Hk).
  assert (Hfresh : storage.find_one ("txn_" +:+ pretty (uuids bank_queue_down))
                     (ledger bank_queue_down) = None) by reflexivity.
  assert (Hm0 : nth_fault 0 (mongo_faults bank_queue_down) = None)
    by reflexivity.
  assert (Hq : nth_fault 0 (amqp_faults bank_queue_down)
               = Some (errorString "connection closed")) by reflexivity.
  assert (Hm1 : nth_fault 1 (mongo_faults bank_queue_down) = None)
    by reflexivity.
  destruct (processTransactionAsync_publish_failure "acc_1" deposit_100 ann
              (errorString "connection closed") bank_queue_down
              Hpg Ha Hfunds Hfresh Hm0 Hq Hm1)
    as (w1 & Hrun & Hledger & _).
  split; [exact Ha|]. split; [exact Hfresh|]. split; [exact Hq|].
  exists w1. split; [exact Hrun|exact Hledger].
Defined.

(** C6, as stated, fails on the asynchronous path: the balance is
    calculated from the request while the record keeps its stored kind and
    amount.  A valid withdrawal of 100.00 handed in for the pending deposit
    of 150.00 on the account holding 500.00 completes that record as a
    deposit of 150.00 with the balances 500.00 and 400.00, and this is the
    record the collection then holds. *)
Lemma completed_record_breaks_invariant :
  services.validateTransactionRequest withdraw_100 = None
  ∧ storage.find_one "txn_1" (ledger bank_pending) = Some pending_deposit
  ∧ ∃ t,
      (services.ProcessTransactionAsync "txn_1" withdraw_100 bank_pending).1
      = Ok t
      ∧ storage.find_one "txn_1"
          (ledger
             (services.ProcessTransactionAsync "txn_1" withdraw_100
                bank_pending).2)
        = Some t
      ∧ In (CallUpdateTransaction t)
          (calls
             (services.ProcessTransactionAsync "txn_1" withdraw_100
                bank_pending).2)
      ∧ txn_Status t = "completed"
      ∧ txn_Type t = "deposit"
      ∧ txn_Amount t = 15000
      ∧ txn_PreviousBalance t = 50000
      ∧ txn_NewBalance t = 40000
      ∧ ¬ completed_invariant t.
Proof.
  split; [reflexivity|]. split; [reflexivity|].
  exists (storage.set_result 50000 40000 "completed" EmptyString
            pending_deposit).
  split; [by vm_compute|]. split; [by vm_compute|].
  split; [vm_compute; auto|].
  do 5 (split; [reflexivity|]).
  intros Hinv. destruct (Hinv eq_refl) as [Hdeposit _].
  specialize (Hdeposit eq_refl). simpl in Hdeposit. lia.
Qed.

(** C9, as stated, fails: the error message the record receives is not
    "queue system unavailable". *)
Lemma publish_failure_message_is_capitalised :
  txn_ErrorMessage
    <$> storage.find_one "txn_0"
          (ledger
             (handlers.processTransactionAsync "acc_1" deposit_100
                bank_queue_down).2)
  = Some "Queue system unavailable"
  ∧ txn_ErrorMessage
      <$> storage.find_one "txn_0"
            (ledger
               (handlers.processTransactionAsync "acc_1" deposit_100
                  bank_queue_down).2)
    ≠ Some "queue system unavailable".
Proof.
  split; [by vm_compute|]. vm_compute. intros Heq. discriminate Heq.
Qed.

(** ** Where the premises of C3 and C6 come from *)

(** With a non-negative amount a successful update of a non-negative
    balance leaves a non-negative balance. *)
Lemma AtomicBalanceUpdate_nonnegative accountID transactionType amount w p n w1 :
  storage.AtomicBalanceUpdate accountID transactionType amount w
  = (Ok (p, n), w1) →
  0 ≤ p → 0 ≤ amount → 0 ≤ n.
Proof.
  intros (Hcalc & _)%AtomicBalanceUpdate_Ok Hp Ha.
  unfold storage.calculate_new_balance in Hcalc.
  destruct (String.eqb transactionType "deposit"); [injection Hcalc; lia|].
  destruct (String.eqb transactionType "withdraw"); [|done].
  destruct (Z.ltb_spec p amount); [done|]. injection Hcalc. lia.
Qed.

(** A submission answered 202 has persisted one pending record and
    published one message, and the request the worker builds from that
    message restates the record. *)
Lemma processTransactionAsync_queued accountID req w :
  handlers.code (handlers.processTransactionAsync accountID req w).1
  = handlers.StatusAccepted →
  ∃ p m,
    ledger (handlers.processTransactionAsync accountID req w).2
    = ledger w ++ [p]
    ∧ published (handlers.processTransactionAsync accountID req w).2
      = published w ++ [m]
    ∧ txn_Status p = "pending"
    ∧ msg_ID m = txn_TransactionID p
    ∧ restates
        (mkTransactionRequest (msg_Type m) (msg_Amount m) (msg_Reference m)) p.
Proof.
  unfold handlers.processTransactionAsync, services.GetAccountByID,
    services.CreatePendingTransaction,
    services.UpdateTransactionStatusWithError.
  rewrite GetAccountByID_eq. cbv zeta.
  destruct (nth_fault 0 (pg_faults w)) as [flt|]; [done|].
  destruct (accounts w !! accountID) as [a|]; [|done].
  destruct (String.eqb (req_Type req) "withdraw"
            && (acc_Balance a <? req_Amount req))%bool; [done|].
  world_simpl. rewrite CreateTransaction_eq. cbv zeta. world_simpl.
  destruct (nth_fault 0 (mongo_faults w)) as [e|]; [done|].
  unfold queue.PublishTransaction. world_simpl.
  rewrite pop_amqp_fault_eq. world_simpl.
  destruct (nth_fault 0 (amqp_faults w)) as [e|].
  - destruct (storage.UpdateTransactionStatusWithError _ _ _ _) as [r w1].
    unfold handlers.processTransactionSync.
    destruct (services.ProcessTransaction accountID req w1) as [[t|err] w2];
      [done|].
    by repeat case_match.
  - intros _. world_simpl. eexists _, _. repeat split.
Qed.

(** The compensation is best effort: when the compensating call fails too,
    the deposit of 100.00 stays on the account although no record of it
    exists. *)
Example compensation_is_best_effort :
  balance_of "acc_1"
    (services.ProcessTransaction "acc_1" deposit_100
       (set_pg_faults bank_ledger_down
          [None; Some (mkPgFault AtBegin (errorString "connection refused"))])).2
  = Some 60000.
Proof. by vm_compute. Qed.

(** The premise of C6 on the asynchronous path is needed: the balance is
    calculated from the request while the record keeps its stored kind and
    amount. *)
Example request_must_restate_record :
  (services.ProcessTransactionAsync "txn_1"
     (mkTransactionRequest "withdraw" 10000 "salary") bank_pending).1
  = Ok (storage.set_result 50000 40000 "completed" EmptyString pending_deposit).
Proof. by vm_compute. Qed.

(** * Further properties *)

(** ** The account table *)

Lemma AtomicBalanceUpdate_cases accountID transactionType amount w :
  match storage.AtomicBalanceUpdate accountID transactionType amount w with
  | (Err _, w1) => accounts w1 = accounts w
  | (Ok (p, n), w1) =>
      ∃ a,
        accounts w !! accountID = Some a
        ∧ acc_Balance a = p
        ∧ storage.calculate_new_balance transactionType p amount = Ok n
        ∧ accounts w1
          = <[accountID :=
                mkAccount (acc_ID a) (acc_OwnerName a) n (acc_CreatedAt a)
                  (clock w)]> (accounts w)
  end.
Proof.
  rewrite AtomicBalanceUpdate_unfold. unfold storage.AtomicBalanceUpdate_tx.
  cbn [time_Now].
  destruct (nth_fault 0 (pg_faults w)) as [[[] e]|]; try done;
    change (accounts (pg_entered _ w)) with (accounts w);
    (destruct (accounts w !! accountID) as [a|] eqn:Ha; [|done]);
    (destruct (storage.calculate_new_balance transactionType (acc_Balance a)
                 amount) as [nb|] eqn:Hc; [|done]);
    try done.
  exists a. by world_simpl.
Qed.

Lemma AtomicBalanceUpdate_keeps_nonnegative accountID transactionType amount w :
  0 ≤ amount →
  balances_nonnegative w →
  balances_nonnegative
    (storage.AtomicBalanceUpdate accountID transactionType amount w).2.
Proof.
  intros Hamount Hinv.
  pose proof (AtomicBalanceUpdate_cases accountID transactionType amount w)
    as Heff.
  pose proof (AtomicBalanceUpdate_nonnegative accountID transactionType amount w)
    as Hnn.
  destruct (storage.AtomicBalanceUpdate accountID transactionType amount w)
    as [[[p n]|err] w1]; simpl.
  - destruct Heff as (a & Ha & Hp & _ & Hacc).
    intros id a'. rewrite Hacc.
    destruct (decide (accountID = id)) as [->|Hne].
    + rewrite lookup_insert_eq. intros [= <-]. simpl.
      apply (Hnn p n w1 eq_refl); [|done]. subst p. by apply (Hinv id a).
    + rewrite lookup_insert_ne by done. apply Hinv.
  - intros id a'. rewrite Heff. apply Hinv.
Qed.

(** X1.  An update of a balance is all or nothing and touches one row: whatever
    the kind, the amount and the failures of the database, every other row
    is as it was; when the call fails the whole table is as it was; when it
    succeeds the row keeps its identifier, its owner and its creation time
    and holds the new balance returned, the balance returned as previous
    being the one it held.  The collection and the queue are not touched. *)
Theorem AtomicBalanceUpdate_touches_one_row accountID transactionType amount w :
  let out := storage.AtomicBalanceUpdate accountID transactionType amount w in
  (∀ other, other ≠ accountID → accounts out.2 !! other = accounts w !! other)
  ∧ (∀ err, out.1 = Err err → accounts out.2 = accounts w)
  ∧ (∀ p n,
       out.1 = Ok (p, n) →
       ∃ a,
         accounts w !! accountID = Some a
         ∧ acc_Balance a = p
         ∧ accounts out.2 !! accountID
           = Some (mkAccount (acc_ID a) (acc_OwnerName a) n (acc_CreatedAt a)
                     (clock w)))
  ∧ ledger out.2 = ledger w
  ∧ published out.2 = published w.
Proof.
  intros out. subst out.
  pose proof (AtomicBalanceUpdate_cases accountID transactionType amount w)
    as Hcases.
  pose proof (AtomicBalanceUpdate_frame accountID transactionType amount w)
    as Hframe.
  cbv zeta in Hframe. destruct Hframe as (_ & Hledger & Hpub & _).
  destruct (storage.AtomicBalanceUpdate accountID transactionType amount w)
    as [[[p n]|err] w1]; cbn [fst snd] in *.
  - destruct Hcases as (a & Ha & Hp & _ & Hacc).
    split; [intros other Hne; by rewrite Hacc, lookup_insert_ne|].
    split; [done|]. split; [|done].
    intros ? ? [= <- <-]. exists a. by rewrite Hacc, lookup_insert_eq.
  - split; [by rewrite Hcases|]. split; [done|]. split; [done|done].
Qed.

(** X2.  [UpdateBalance] on a missing row fails with "account not found" and
    leaves the table as it was; on an existing row it stores the balance it
    is given, which a following read returns, the owner kept. *)
Theorem UpdateBalance_then_read accountID newBalance w :
  nth_fault 0 (pg_faults w) = None →
  nth_fault 1 (pg_faults w) = None →
  match accounts w !! accountID with
  | None =>
      (storage.UpdateBalance accountID newBalance w).1
      = Err (errorString "account not found")
      ∧ accounts (storage.UpdateBalance accountID newBalance w).2 = accounts w
  | Some a =>
      (storage.UpdateBalance accountID newBalance w).1 = Ok tt
      ∧ (storage.GetAccountByID accountID
           (storage.UpdateBalance accountID newBalance w).2).1
        = Ok (mkAccount (acc_ID a) (acc_OwnerName a) newBalance
                (acc_CreatedAt a) (clock w))
  end.
Proof.
  intros H0 H1. unfold storage.UpdateBalance. cbn [time_Now].
  rewrite pop_pg_fault_eq. world_simpl. rewrite H0.
  destruct (accounts w !! accountID) as [a|] eqn:Ha; [|done].
  split; [done|]. rewrite GetAccountByID_eq. cbv zeta. world_simpl.
  by rewrite nth_fault_tl, H1, lookup_insert_eq.
Qed.

(** ** AccountService *)

(** An empty owner name or a negative initial balance is refused before
    anything is drawn or stored: the world is returned as it was. *)
Theorem CreateAccount_rejects req w :
  car_OwnerName req = EmptyString ∨ car_InitialBalance req < 0 →
  ∃ err,
    services.AccountService.CreateAccount req w = (Err err, w)
    ∧ (err = errorString "owner name is required"
       ∨ err = errorString "initial balance cannot be negative").
Proof.
  intros Hbad. unfold services.AccountService.CreateAccount.
  destruct (String.eqb_spec (car_OwnerName req) EmptyString) as [Ho|Ho];
    [eauto|].
  destruct Hbad as [Hbad|Hbad]; [done|].
  rewrite (proj2 (Z.ltb_lt _ _) Hbad). eauto.
Qed.

(** X3.  A valid request on a healthy database creates the account under a
    generated identifier "acc_...", with the owner and the initial balance
    asked for; the balance read back is that initial balance; the other
    rows are untouched and no transaction is recorded for the initial
    balance. *)
Theorem CreateAccount_then_balance req w :
  car_OwnerName req ≠ EmptyString →
  0 ≤ car_InitialBalance req →
  nth_fault 0 (pg_faults w) = None →
  nth_fault 1 (pg_faults w) = None →
  accounts w !! ("acc_" +:+ pretty (uuids w)) = None →
  ∃ a,
    (services.AccountService.CreateAccount req w).1 = Ok a
    ∧ acc_ID a = "acc_" +:+ pretty (uuids w)
    ∧ acc_OwnerName a = car_OwnerName req
    ∧ acc_Balance a = car_InitialBalance req
    ∧ (services.AccountService.GetAccountBalance (acc_ID a)
         (services.AccountService.CreateAccount req w).2).1
      = Ok (car_InitialBalance req)
    ∧ (∀ id, id ≠ acc_ID a →
         accounts (services.AccountService.CreateAccount req w).2 !! id
         = accounts w !! id)
    ∧ ledger (services.AccountService.CreateAccount req w).2 = ledger w.
Proof.
  intros Ho Hb H0 H1 Hfresh.
  unfold services.AccountService.CreateAccount.
  rewrite (proj2 (String.eqb_neq _ _) Ho), (proj2 (Z.ltb_ge _ _) Hb).
  unfold NewAccountID, storage.CreateAccount.
  cbn [uuid_New_String time_Now]. rewrite pop_pg_fault_eq. world_simpl.
  cbn [acc_ID]. rewrite H0, Hfresh. world_simpl.
  eexists. split; [reflexivity|]. cbn [acc_ID acc_OwnerName acc_Balance].
  repeat split.
  - unfold services.AccountService.GetAccountBalance,
      services.AccountService.GetAccountByID.
    cbn [String.eqb Ascii.eqb Bool.eqb append].
    rewrite GetAccountByID_eq. cbv zeta. world_simpl.
    by rewrite nth_fault_tl, H1, lookup_insert_eq.
  - intros id Hid. by rewrite lookup_insert_ne.
Qed.

(** ** The collection *)

Lemma find_one_app transactionID l t :
  storage.find_one transactionID (l ++ [t])
  = match storage.find_one transactionID l with
    | Some x => Some x
    | None =>
        if String.eqb (txn_TransactionID t) transactionID then Some t else None
    end.
Proof.
  induction l as [|x l IH]; simpl; [done|].
  by destruct (String.eqb (txn_TransactionID x) transactionID).
Qed.

Lemma find_one_id transactionID l t :
  storage.find_one transactionID l = Some t → txn_TransactionID t = transactionID.
Proof.
  induction l as [|x l IH]; simpl; [done|].
  destruct (String.eqb_spec (txn_TransactionID x) transactionID); [|done].
  by intros [= <-].
Qed.

Lemma update_one_None transactionID upd l :
  storage.find_one transactionID l = None →
  storage.update_one transactionID upd l = None.
Proof.
  induction l as [|x l IH]; simpl; [done|].
  destruct (String.eqb (txn_TransactionID x) transactionID); [done|].
  intros Hnone. by rewrite IH.
Qed.

Lemma update_one_length transactionID upd l l' :
  storage.update_one transactionID upd l = Some l' → length l' = length l.
Proof.
  revert l'. induction l as [|x l IH]; intros l'; simpl; [done|].
  destruct (String.eqb (txn_TransactionID x) transactionID).
  - by intros [= <-].
  - destruct (storage.update_one transactionID upd l) as [l0|]; [|done].
    intros [= <-]. simpl. by rewrite (IH l0).
Qed.

Lemma update_one_other transactionID other upd l l' :
  (∀ x, txn_TransactionID (upd x) = txn_TransactionID x) →
  other ≠ transactionID →
  storage.update_one transactionID upd l = Some l' →
  storage.find_one other l' = storage.find_one other l.
Proof.
  intros Hupd Hne. revert l'.
  induction l as [|x l IH]; intros l'; simpl; [done|].
  destruct (String.eqb_spec (txn_TransactionID x) transactionID) as [Hx|Hx].
  - intros [= <-]. simpl. rewrite Hupd.
    destruct (String.eqb_spec (txn_TransactionID x) other); [congruence|done].
  - destruct (storage.update_one transactionID upd l) as [l0|]; [|done].
    intros [= <-]. simpl. by rewrite (IH l0).
Qed.

(** Only the first record of the identifier is touched: a record in another
    state than the one found stays where it is. *)
Lemma update_one_elsewhere transactionID upd l l' t0 (P : Transaction → Prop) :
  storage.find_one transactionID l = Some t0 →
  ¬ P t0 →
  storage.update_one transactionID upd l = Some l' →
  ∀ i t, l !! i = Some t → P t → l' !! i = Some t.
Proof.
  intros Hfind Hnot. revert l' Hfind.
  induction l as [|x l IH]; intros l'; simpl; [done|].
  destruct (String.eqb (txn_TransactionID x) transactionID).
  - intros [= ->] [= <-] [|i] t; simpl; [|done].
    intros [= ->] Ht. by destruct Hnot.
  - intros Hfind.
    destruct (storage.update_one transactionID upd l) as [l0|]; [|done].
    intros [= <-] [|i] t; simpl; [done|]. by apply IH.
Qed.

(** X4.  A record written under an identifier the collection does not hold yet
    is the record a following read by that identifier returns, and every
    record found before is still found. *)
Theorem CreateTransaction_then_read t w :
  txn_TransactionID t ≠ EmptyString →
  storage.find_one (txn_TransactionID t) (ledger w) = None →
  nth_fault 0 (mongo_faults w) = None →
  nth_fault 1 (mongo_faults w) = None →
  (storage.CreateTransaction t w).1 = Ok tt
  ∧ (services.GetTransactionByID (txn_TransactionID t)
       (storage.CreateTransaction t w).2).1 = Ok t
  ∧ (∀ other t',
       storage.find_one other (ledger w) = Some t' →
       storage.find_one other (ledger (storage.CreateTransaction t w).2)
       = Some t').
Proof.
  intros Hid Hfresh H0 H1. rewrite CreateTransaction_eq. cbv zeta.
  rewrite H0. world_simpl. split; [done|]. split.
  - unfold services.GetTransactionByID.
    rewrite (proj2 (String.eqb_neq _ _) Hid), GetTransactionByID_eq.
    cbv zeta. world_simpl.
    by rewrite nth_fault_tl, H1, find_one_app, Hfresh, String.eqb_refl.
  - intros other t' Hfind. by rewrite find_one_app, Hfind.
Qed.

(** X5.  A status update with an error message fails on an identifier the
    collection does not hold and changes nothing; otherwise it sets the
    status and the message of the first record of that identifier and keeps
    its identifiers, account, kind, amount, balances, description and
    timestamp, the number of records and every record of another
    identifier. *)
Theorem UpdateTransactionStatusWithError_effect transactionID status msg w :
  nth_fault 0 (mongo_faults w) = None →
  match storage.find_one transactionID (ledger w) with
  | None =>
      (storage.UpdateTransactionStatusWithError transactionID status msg w).1
      = Err (errorString "transaction not found for status update with error")
      ∧ ledger
          (storage.UpdateTransactionStatusWithError transactionID status msg w).2
        = ledger w
  | Some t =>
      (storage.UpdateTransactionStatusWithError transactionID status msg w).1
      = Ok tt
      ∧ storage.find_one transactionID
          (ledger
             (storage.UpdateTransactionStatusWithError transactionID status
                msg w).2)
        = Some (mkTransaction (txn_ID t) (txn_TransactionID t)
                  (txn_AccountID t) (txn_Type t) (txn_Amount t)
                  (txn_PreviousBalance t) (txn_NewBalance t)
                  (txn_Description t) (txn_Timestamp t) status msg)
      ∧ length
          (ledger
             (storage.UpdateTransactionStatusWithError transactionID status
                msg w).2)
        = length (ledger w)
      ∧ (∀ other, other ≠ transactionID →
           storage.find_one other
             (ledger
                (storage.UpdateTransactionStatusWithError transactionID status
                   msg w).2)
           = storage.find_one other (ledger w))
  end.
Proof.
  intros H0. rewrite UpdateTransactionStatusWithError_eq. cbv zeta. rewrite H0.
  destruct (storage.find_one transactionID (ledger w)) as [t|] eqn:Hfind.
  - destruct (update_one_found transactionID
                (storage.set_status status msg) _ _ Hfind) as [l' Hupd].
    rewrite Hupd. world_simpl. split; [done|]. split; [|split].
    + by rewrite (update_one_find _ (storage.set_status status msg) _ _ _
                    (λ x, eq_refl) Hfind Hupd).
    + by apply update_one_length in Hupd.
    + intros other Hne.
      by apply (update_one_other _ _ (storage.set_status status msg) _ _
                  (λ x, eq_refl) Hne Hupd).
  - by rewrite update_one_None.
Qed.

(** ** What the calls on the collection and the queue leave alone *)

Ltac frame_cases :=
  cbv zeta; repeat case_match; simplify_eq; by world_simpl.

Lemma CreateTransaction_frame t w :
  accounts (storage.CreateTransaction t w).2 = accounts w
  ∧ published (storage.CreateTransaction t w).2 = published w
  ∧ pg_faults (storage.CreateTransaction t w).2 = pg_faults w
  ∧ mongo_faults (storage.CreateTransaction t w).2 = tl (mongo_faults w).
Proof. rewrite CreateTransaction_eq. frame_cases. Qed.

Lemma UpdateTransaction_frame t w :
  accounts (storage.UpdateTransaction t w).2 = accounts w
  ∧ published (storage.UpdateTransaction t w).2 = published w
  ∧ pg_faults (storage.UpdateTransaction t w).2 = pg_faults w
  ∧ mongo_faults (storage.UpdateTransaction t w).2 = tl (mongo_faults w).
Proof. rewrite UpdateTransaction_eq. frame_cases. Qed.

Lemma UpdateTransactionStatusWithError_frame transactionID status msg w :
  accounts
    (storage.UpdateTransactionStatusWithError transactionID status msg w).2
  = accounts w
  ∧ published
      (storage.UpdateTransactionStatusWithError transactionID status msg w).2
    = published w
  ∧ pg_faults
      (storage.UpdateTransactionStatusWithError transactionID status msg w).2
    = pg_faults w
  ∧ mongo_faults
      (storage.UpdateTransactionStatusWithError transactionID status msg w).2
    = tl (mongo_faults w).
Proof. rewrite UpdateTransactionStatusWithError_eq. frame_cases. Qed.

(** A status update changes the collection by one [update_one], or not at
    all. *)
Lemma UpdateTransactionStatusWithError_ledger transactionID status msg w :
  ledger (storage.UpdateTransactionStatusWithError transactionID status msg w).2
  = ledger w
  ∨ storage.update_one transactionID (storage.set_status status msg) (ledger w)
    = Some
        (ledger
           (storage.UpdateTransactionStatusWithError transactionID status msg
              w).2).
Proof.
  rewrite UpdateTransactionStatusWithError_eq. cbv zeta.
  destruct (nth_fault 0 (mongo_faults w)); [by left|].
  destruct (storage.update_one _ _ _) eqn:Hupd; [by right|by left].
Qed.

Lemma service_GetTransactionByID_frame transactionID w :
  accounts (services.GetTransactionByID transactionID w).2 = accounts w
  ∧ ledger (services.GetTransactionByID transactionID w).2 = ledger w
  ∧ published (services.GetTransactionByID transactionID w).2 = published w
  ∧ pg_faults (services.GetTransactionByID transactionID w).2 = pg_faults w.
Proof.
  unfold services.GetTransactionByID.
  destruct (String.eqb transactionID EmptyString); [done|].
  rewrite GetTransactionByID_eq. frame_cases.
Qed.

(** What the read returns is the first record of the identifier. *)
Lemma service_GetTransactionByID_Ok transactionID w t :
  (services.GetTransactionByID transactionID w).1 = Ok t →
  storage.find_one transactionID (ledger w) = Some t.
Proof.
  unfold services.GetTransactionByID.
  destruct (String.eqb transactionID EmptyString); [done|].
  rewrite GetTransactionByID_eq. cbv zeta.
  destruct (nth_fault 0 (mongo_faults w)); [done|].
  destruct (storage.find_one transactionID (ledger w)); [|done].
  by intros [= ->].
Qed.

(** ** The synchronous path, further *)

(** X6.  On healthy stores a valid request that the balance covers is carried
    out: the transaction returned is completed, carries the balance before
    and the balance after, the account holds the balance after, and the
    transaction is the one record appended to the collection. *)
Theorem ProcessTransaction_success accountID req b w :
  services.validateTransactionRequest req = None →
  balance_of accountID w = Some b →
  (req_Type req = "withdraw" → req_Amount req ≤ b) →
  nth_fault 0 (pg_faults w) = None →
  nth_fault 0 (mongo_faults w) = None →
  ∃ t,
    (services.ProcessTransaction accountID req w).1 = Ok t
    ∧ txn_AccountID t = accountID
    ∧ txn_Type t = req_Type req
    ∧ txn_Amount t = req_Amount req
    ∧ txn_PreviousBalance t = b
    ∧ (req_Type req = "deposit" → txn_NewBalance t = b + req_Amount req)
    ∧ (req_Type req = "withdraw" → txn_NewBalance t = b - req_Amount req)
    ∧ txn_Status t = "completed"
    ∧ balance_of accountID (services.ProcessTransaction accountID req w).2
      = Some (txn_NewBalance t)
    ∧ ledger (services.ProcessTransaction accountID req w).2 = ledger w ++ [t]
    ∧ published (services.ProcessTransaction accountID req w).2 = published w.
Proof.
  intros Hval (a & Ha & <-)%balance_of_Some Henough Hpg Hmongo.
  unfold services.ProcessTransaction. rewrite Hval.
  rewrite (AtomicBalanceUpdate_healthy _ _ _ a) by done. cbv zeta.
  assert (∃ nb,
    storage.calculate_new_balance (req_Type req) (acc_Balance a) (req_Amount req)
    = Ok nb) as (nb & Hcalc).
  { destruct (proj1 (validate_None req) Hval) as [[Hk|Hk] _]; rewrite Hk.
    - eauto using calculate_deposit.
    - eauto using calculate_withdraw_enough. }
  rewrite Hcalc. world_simpl. rewrite CreateTransaction_eq. cbv zeta.
  world_simpl. rewrite Hmongo. world_simpl.
  destruct (calculate_Ok_invariant _ _ _ _ Hcalc) as [Hd Hw].
  eexists. split; [reflexivity|].
  cbn [txn_AccountID txn_Type txn_Amount txn_PreviousBalance txn_NewBalance
       txn_Status].
  repeat split; try done.
  unfold balance_of. world_simpl. by rewrite lookup_insert_eq.
Qed.

(** X7.  Whatever the request and whatever fails, the synchronous path leaves
    every record of the collection as it is: the collection is unchanged,
    or it has grown by the one transaction that is returned.  Nothing is
    published. *)
Theorem ProcessTransaction_append_only accountID req w :
  (ledger (services.ProcessTransaction accountID req w).2 = ledger w
   ∨ ∃ t,
       (services.ProcessTransaction accountID req w).1 = Ok t
       ∧ ledger (services.ProcessTransaction accountID req w).2
         = ledger w ++ [t])
  ∧ published (services.ProcessTransaction accountID req w).2 = published w.
Proof.
  unfold services.ProcessTransaction.
  destruct (services.validateTransactionRequest req) as [verr|]; [by split; [left|]|].
  pose proof (AtomicBalanceUpdate_frame accountID (req_Type req)
                (req_Amount req) w) as Hframe.
  destruct (storage.AtomicBalanceUpdate accountID (req_Type req)
              (req_Amount req) w) as [[[p n]|err] w1];
    cbv zeta in Hframe; world_simpl;
    destruct Hframe as (_ & Hledger & Hpub & _).
  2:{ by split; [left|]. }
  rewrite CreateTransaction_eq. cbv zeta. world_simpl.
  destruct (nth_fault 0 (mongo_faults w1)) as [e|].
  - match goal with
    | |- context [storage.AtomicBalanceUpdate ?i ?k ?m ?w0] =>
        pose proof (AtomicBalanceUpdate_frame i k m w0) as Hframe2;
        destruct (storage.AtomicBalanceUpdate i k m w0) as [r2 w2]
    end.
    cbv zeta in Hframe2. world_simpl.
    destruct Hframe2 as (_ & -> & -> & _). by split; [left|].
  - world_simpl. rewrite Hledger, Hpub. split; [right; eauto|done].
Qed.

(** ** The asynchronous path, further *)

(** The successful run, with everything it leaves behind. *)
Lemma ProcessTransactionAsync_completes transactionID req t0 a w :
  transactionID ≠ EmptyString →
  storage.find_one transactionID (ledger w) = Some t0 →
  txn_Status t0 = "pending" →
  services.validateTransactionRequest req = None →
  accounts w !! txn_AccountID t0 = Some a →
  (req_Type req = "withdraw" → req_Amount req ≤ acc_Balance a) →
  nth_fault 0 (pg_faults w) = None →
  nth_fault 0 (mongo_faults w) = None →
  nth_fault 1 (mongo_faults w) = None →
  ∃ n,
    storage.calculate_new_balance (req_Type req) (acc_Balance a) (req_Amount req)
    = Ok n
    ∧ (services.ProcessTransactionAsync transactionID req w).1
      = Ok (storage.set_result (acc_Balance a) n "completed" EmptyString t0)
    ∧ storage.update_one transactionID
        (storage.set_result (acc_Balance a) n "completed" EmptyString)
        (ledger w)
      = Some (ledger (services.ProcessTransactionAsync transactionID req w).2)
    ∧ accounts (services.ProcessTransactionAsync transactionID req w).2
      = <[txn_AccountID t0 := storage.update_row a n (clock w)]> (accounts w)
    ∧ published (services.ProcessTransactionAsync transactionID req w).2
      = published w
    ∧ pg_faults (services.ProcessTransactionAsync transactionID req w).2
      = tl (pg_faults w)
    ∧ mongo_faults (services.ProcessTransactionAsync transactionID req w).2
      = tl (tl (mongo_faults w))
    ∧ amqp_faults (services.ProcessTransactionAsync transactionID req w).2
      = amqp_faults w.
Proof.
  intros Hid Hfind Hpending Hval Ha Henough Hpg Hm0 Hm1.
  unfold services.ProcessTransactionAsync.
  rewrite (service_GetTransactionByID_found _ t0) by done.
  rewrite Hpending, Hval. cbn [String.eqb Ascii.eqb Bool.eqb negb].
  rewrite (AtomicBalanceUpdate_healthy _ _ _ a) by (world_simpl; done).
  cbv zeta.
  assert (∃ nb,
    storage.calculate_new_balance (req_Type req) (acc_Balance a) (req_Amount req)
    = Ok nb) as (nb & Hcalc).
  { destruct (proj1 (validate_None req) Hval) as [[Hk|Hk] _]; rewrite Hk.
    - eauto using calculate_deposit.
    - eauto using calculate_withdraw_enough. }
  rewrite Hcalc. rewrite UpdateTransaction_eq. cbv zeta. world_simpl.
  cbn [txn_TransactionID txn_PreviousBalance txn_NewBalance txn_Status
       txn_ErrorMessage].
  rewrite nth_fault_tl, Hm1, (find_one_id _ _ _ Hfind).
  destruct (update_one_found transactionID
              (storage.set_result (acc_Balance a) nb "completed" EmptyString)
              _ _ Hfind) as [l' Hupd].
  rewrite Hupd. world_simpl.
  exists nb. split; [done|]. split; [|done].
  unfold storage.set_result. by rewrite (find_one_id _ _ _ Hfind).
Qed.

(** X8.  On healthy stores a pending record whose request is valid and covered
    by the balance is completed: the record returned is the stored record
    with the balance before, the balance after, status "completed" and no
    error message; it replaces the pending record in the collection, whose
    size is unchanged; the account holds the balance after. *)
Theorem ProcessTransactionAsync_success transactionID req t0 b w :
  transactionID ≠ EmptyString →
  storage.find_one transactionID (ledger w) = Some t0 →
  txn_Status t0 = "pending" →
  services.validateTransactionRequest req = None →
  balance_of (txn_AccountID t0) w = Some b →
  (req_Type req = "withdraw" → req_Amount req ≤ b) →
  nth_fault 0 (pg_faults w) = None →
  nth_fault 0 (mongo_faults w) = None →
  nth_fault 1 (mongo_faults w) = None →
  ∃ n,
    (req_Type req = "deposit" → n = b + req_Amount req)
    ∧ (req_Type req = "withdraw" → n = b - req_Amount req)
    ∧ (services.ProcessTransactionAsync transactionID req w).1
      = Ok (storage.set_result b n "completed" EmptyString t0)
    ∧ storage.find_one transactionID
        (ledger (services.ProcessTransactionAsync transactionID req w).2)
      = Some (storage.set_result b n "completed" EmptyString t0)
    ∧ length (ledger (services.ProcessTransactionAsync transactionID req w).2)
      = length (ledger w)
    ∧ balance_of (txn_AccountID t0)
        (services.ProcessTransactionAsync transactionID req w).2
      = Some n
    ∧ published (services.ProcessTransactionAsync transactionID req w).2
      = published w.
Proof.
  intros Hid Hfind Hpending Hval (a & Ha & <-)%balance_of_Some Henough Hpg
    Hm0 Hm1.
  destruct (ProcessTransactionAsync_completes transactionID req t0 a w)
    as (n & Hcalc & Hret & Hupd & Hacc & Hpub & _); try done.
  destruct (calculate_Ok_invariant _ _ _ _ Hcalc) as [Hd Hw].
  exists n. split; [done|]. split; [done|]. split; [done|]. split.
  { by rewrite (update_one_find _
                  (storage.set_result (acc_Balance a) n "completed" EmptyString)
                  _ _ _ (λ x, eq_refl) Hfind Hupd). }
  split; [by apply update_one_length in Hupd|]. split; [|done].
  unfold balance_of. by rewrite Hacc, lookup_insert_eq.
Qed.

(** The guard against reprocessing, as a step: a record that is not pending
    stops [ProcessTransactionAsync] after the read. *)
Lemma ProcessTransactionAsync_guard transactionID req t w :
  transactionID ≠ EmptyString →
  nth_fault 0 (mongo_faults w) = None →
  storage.find_one transactionID (ledger w) = Some t →
  txn_Status t ≠ "pending" →
  services.ProcessTransactionAsync transactionID req w
  = (Err (errorString ("transaction is not in pending state: "
                         +:+ txn_Status t)),
     mongo_entered (CallGetTransactionByID transactionID) w).
Proof.
  intros Hid Hf Hfind Hstatus. unfold services.ProcessTransactionAsync.
  rewrite (service_GetTransactionByID_found _ t) by done.
  by rewrite (proj2 (String.eqb_neq _ _) Hstatus).
Qed.

(** X9.  A message delivered again after its transaction was completed changes
    nothing: the second run, whatever request it carries, fails with the
    not-in-pending-state error and leaves the account table and the
    collection as the first run left them. *)
Theorem ProcessTransactionAsync_redelivery transactionID req req' t0 b w :
  transactionID ≠ EmptyString →
  storage.find_one transactionID (ledger w) = Some t0 →
  txn_Status t0 = "pending" →
  services.validateTransactionRequest req = None →
  balance_of (txn_AccountID t0) w = Some b →
  (req_Type req = "withdraw" → req_Amount req ≤ b) →
  nth_fault 0 (pg_faults w) = None →
  nth_fault 0 (mongo_faults w) = None →
  nth_fault 1 (mongo_faults w) = None →
  nth_fault 2 (mongo_faults w) = None →
  let w1 := (services.ProcessTransactionAsync transactionID req w).2 in
  (services.ProcessTransactionAsync transactionID req' w1).1
  = Err (errorString "transaction is not in pending state: completed")
  ∧ accounts (services.ProcessTransactionAsync transactionID req' w1).2
    = accounts w1
  ∧ ledger (services.ProcessTransactionAsync transactionID req' w1).2
    = ledger w1.
Proof.
  intros Hid Hfind Hpending Hval (a & Ha & <-)%balance_of_Some Henough Hpg
    Hm0 Hm1 Hm2 w1.
  destruct (ProcessTransactionAsync_completes transactionID req t0 a w)
    as (n & _ & _ & Hupd & _ & _ & _ & Hscript & _); try done.
  fold w1 in Hupd, Hscript.
  rewrite (ProcessTransactionAsync_guard _ _
             (storage.set_result (acc_Balance a) n "completed" EmptyString t0));
    try done.
  - by rewrite Hscript, !nth_fault_tl.
  - by rewrite (update_one_find _
                  (storage.set_result (acc_Balance a) n "completed" EmptyString)
                  _ _ _ (λ x, eq_refl) Hfind Hupd).
Qed.

Lemma UpdateTransaction_ledger t w :
  ledger (storage.UpdateTransaction t w).2 = ledger w
  ∨ storage.update_one (txn_TransactionID t)
      (storage.set_result (txn_PreviousBalance t) (txn_NewBalance t)
         (txn_Status t) (txn_ErrorMessage t)) (ledger w)
    = Some (ledger (storage.UpdateTransaction t w).2).
Proof.
  rewrite UpdateTransaction_eq. cbv zeta.
  destruct (nth_fault 0 (mongo_faults w)); [by left|].
  destruct (storage.update_one _ _ _) eqn:Hupd; [by right|by left].
Qed.

Lemma UpdateTransaction_Ok t w :
  (storage.UpdateTransaction t w).1 = Ok tt →
  storage.update_one (txn_TransactionID t)
    (storage.set_result (txn_PreviousBalance t) (txn_NewBalance t)
       (txn_Status t) (txn_ErrorMessage t)) (ledger w)
  = Some (ledger (storage.UpdateTransaction t w).2).
Proof.
  rewrite UpdateTransaction_eq. cbv zeta.
  destruct (nth_fault 0 (mongo_faults w)); [done|].
  by destruct (storage.update_one _ _ _) eqn:Hupd.
Qed.

Lemma UpdateTransaction_Err t w err :
  (storage.UpdateTransaction t w).1 = Err err →
  ledger (storage.UpdateTransaction t w).2 = ledger w.
Proof.
  rewrite UpdateTransaction_eq. cbv zeta.
  destruct (nth_fault 0 (mongo_faults w)); [done|].
  by destruct (storage.update_one _ _ _) eqn:Hupd.
Qed.

(** Whatever fails, [ProcessTransactionAsync] changes the collection by at
    most one update of the first record of the identifier, and only when
    that record is pending. *)
Lemma ProcessTransactionAsync_ledger transactionID req w :
  ledger (services.ProcessTransactionAsync transactionID req w).2 = ledger w
  ∨ ∃ upd t0,
      storage.find_one transactionID (ledger w) = Some t0
      ∧ txn_Status t0 = "pending"
      ∧ storage.update_one transactionID upd (ledger w)
        = Some (ledger (services.ProcessTransactionAsync transactionID req w).2).
Proof.
  unfold services.ProcessTransactionAsync.
  pose proof (service_GetTransactionByID_frame transactionID w)
    as (_ & Hl0 & _).
  pose proof (service_GetTransactionByID_Ok transactionID w) as Hread.
  destruct (services.GetTransactionByID transactionID w) as [[t0|err] w0];
    simpl in Hl0; [|by left].
  specialize (Hread t0 eq_refl).
  pose proof (find_one_id _ _ _ Hread) as Hid.
  destruct (String.eqb_spec (txn_Status t0) "pending") as [Hpending|];
    [|by left].
  cbn [negb]. unfold services.UpdateTransactionStatusWithError.
  destruct (services.validateTransactionRequest req) as [verr|].
  { destruct (UpdateTransactionStatusWithError_ledger transactionID "failed"
                (Error verr) w0) as [Hl|Hl];
      destruct (storage.UpdateTransactionStatusWithError _ _ _ w0) as [r w1];
      simpl in *; rewrite Hl0 in Hl; [by left|right; eauto]. }
  pose proof (AtomicBalanceUpdate_frame (txn_AccountID t0) (req_Type req)
                (req_Amount req) w0) as (_ & Hl1 & _).
  destruct (storage.AtomicBalanceUpdate _ _ _ w0) as [[[p n]|err] w1];
    simpl in Hl1; rewrite Hl0 in Hl1.
  2:{ destruct (UpdateTransactionStatusWithError_ledger transactionID "failed"
                  (Error err) w1) as [Hl|Hl];
        destruct (storage.UpdateTransactionStatusWithError _ _ _ w1) as [r w2];
        simpl in *; rewrite Hl1 in Hl; [by left|right; eauto]. }
  match goal with
  | |- context [storage.UpdateTransaction ?u w1] =>
      pose proof (UpdateTransaction_Ok u w1) as Hok;
      pose proof (UpdateTransaction_Err u w1) as Herr;
      destruct (storage.UpdateTransaction u w1) as [[[]|err] w2]
  end; simpl in *.
  - right. exists (storage.set_result p n "completed" EmptyString), t0.
    specialize (Hok eq_refl). rewrite Hl1, Hid in Hok. done.
  - specialize (Herr err eq_refl). rewrite Hl1 in Herr.
    match goal with
    | |- context [storage.AtomicBalanceUpdate ?i ?k ?m w2] =>
        pose proof (AtomicBalanceUpdate_frame i k m w2) as (_ & Hl3 & _);
        destruct (storage.AtomicBalanceUpdate i k m w2) as [r3 w3]
    end.
    simpl in Hl3. rewrite Herr in Hl3.
    destruct (UpdateTransactionStatusWithError_ledger transactionID "failed"
                "Failed to update transaction record" w3) as [Hl|Hl];
      destruct (storage.UpdateTransactionStatusWithError _ _ _ w3) as [r w4];
      simpl in *; rewrite Hl3 in Hl; [by left|right; eauto].
Qed.

(** X10.  A record that has reached a terminal status is never touched again by
    [ProcessTransactionAsync], whatever the request and whatever fails:
    every record that is not pending is afterwards the same record at the
    same place, and the collection has the same size. *)
Theorem ProcessTransactionAsync_keeps_terminal transactionID req w :
  length (ledger (services.ProcessTransactionAsync transactionID req w).2)
  = length (ledger w)
  ∧ ∀ i t,
      ledger w !! i = Some t →
      txn_Status t ≠ "pending" →
      ledger (services.ProcessTransactionAsync transactionID req w).2 !! i
      = Some t.
Proof.
  destruct (ProcessTransactionAsync_ledger transactionID req w)
    as [->|(upd & t0 & Hfind & Hpending & Hupd)]; [done|].
  split; [by apply update_one_length in Hupd|].
  apply (update_one_elsewhere transactionID upd _ _ t0
           (λ t, txn_Status t ≠ "pending") Hfind); [|done].
  by intros Hne.
Qed.

(** The run whose balance update fails, with everything it leaves behind. *)
Lemma ProcessTransactionAsync_refused transactionID req t0 err w2 w :
  transactionID ≠ EmptyString →
  storage.find_one transactionID (ledger w) = Some t0 →
  txn_Status t0 = "pending" →
  services.validateTransactionRequest req = None →
  nth_fault 0 (mongo_faults w) = None →
  nth_fault 1 (mongo_faults w) = None →
  storage.AtomicBalanceUpdate (txn_AccountID t0) (req_Type req) (req_Amount req)
    (mongo_entered (CallGetTransactionByID transactionID) w)
  = (Err err, w2) →
  (services.ProcessTransactionAsync transactionID req w).1
  = Err (wrapError "failed to update balance: " err)
  ∧ storage.find_one transactionID
      (ledger (services.ProcessTransactionAsync transactionID req w).2)
    = Some (storage.set_status "failed" (Error err) t0)
  ∧ length (ledger (services.ProcessTransactionAsync transactionID req w).2)
    = length (ledger w)
  ∧ accounts (services.ProcessTransactionAsync transactionID req w).2
    = accounts w.
Proof.
  intros Hid Hfind Hpending Hval Hm0 Hm1 Habu.
  unfold services.ProcessTransactionAsync,
    services.UpdateTransactionStatusWithError.
  rewrite (service_GetTransactionByID_found _ t0) by done.
  rewrite Hpending, Hval. cbn [String.eqb Ascii.eqb Bool.eqb negb].
  pose proof (AtomicBalanceUpdate_frame (txn_AccountID t0) (req_Type req)
                (req_Amount req)
                (mongo_entered (CallGetTransactionByID transactionID) w))
    as Hframe.
  pose proof (AtomicBalanceUpdate_cases (txn_AccountID t0) (req_Type req)
                (req_Amount req)
                (mongo_entered (CallGetTransactionByID transactionID) w))
    as Heff.
  rewrite Habu in *. cbv zeta in Hframe. world_simpl.
  destruct Hframe as (_ & Hledger & _ & _ & _ & Hmf & _).
  rewrite UpdateTransactionStatusWithError_eq. cbv zeta.
  rewrite Hmf, nth_fault_tl, Hm1, Hledger.
  destruct (update_one_found transactionID
              (storage.set_status "failed" (Error err)) _ _ Hfind)
    as [l' Hupd].
  rewrite Hupd. world_simpl. split; [done|]. split.
  { by rewrite (update_one_find _ (storage.set_status "failed" (Error err))
                  _ _ _ (λ x, eq_refl) Hfind Hupd). }
  split; [|done]. by apply update_one_length in Hupd.
Qed.

(** X11.  When the balance update fails for a pending record, whatever the cause,
    the run returns the error of the update under the prefix
    "failed to update balance: "; the record becomes "failed" with the text
    of that error as its message, no record is added, and the account table
    is unchanged. *)
Theorem ProcessTransactionAsync_balance_failure transactionID req t0 err w :
  transactionID ≠ EmptyString →
  storage.find_one transactionID (ledger w) = Some t0 →
  txn_Status t0 = "pending" →
  services.validateTransactionRequest req = None →
  nth_fault 0 (mongo_faults w) = None →
  nth_fault 1 (mongo_faults w) = None →
  (storage.AtomicBalanceUpdate (txn_AccountID t0) (req_Type req)
     (req_Amount req)
     (mongo_entered (CallGetTransactionByID transactionID) w)).1
  = Err err →
  (services.ProcessTransactionAsync transactionID req w).1
  = Err (wrapError "failed to update balance: " err)
  ∧ (∃ t,
       storage.find_one transactionID
         (ledger (services.ProcessTransactionAsync transactionID req w).2)
       = Some t
       ∧ txn_Status t = "failed"
       ∧ txn_ErrorMessage t = Error err
       ∧ txn_PreviousBalance t = txn_PreviousBalance t0
       ∧ txn_NewBalance t = txn_NewBalance t0)
  ∧ length (ledger (services.ProcessTransactionAsync transactionID req w).2)
    = length (ledger w)
  ∧ accounts (services.ProcessTransactionAsync transactionID req w).2
    = accounts w.
Proof.
  intros Hid Hfind Hpending Hval Hm0 Hm1 Habu.
  destruct (storage.AtomicBalanceUpdate _ _ _ _) as [r w2] eqn:Hrun.
  simpl in Habu. subst r.
  destruct (ProcessTransactionAsync_refused transactionID req t0 err w2 w)
    as (Hret & Hrec & Hlen & Hacc); try done.
  split; [done|]. split; [|done]. eexists. split; [exact Hrec|]. done.
Qed.

(** X12.  When the update of the record fails after the balance update, the
    run undoes the balance update and marks the record "failed" with the
    message "Failed to update transaction record".  The run is followed
    through its storage calls after the read: the balance update of the
    request returns [(b, n)] with [n = b + amount] or [n = b - amount] and
    leaves the account at [n]; the update of the record to "completed" with
    these two balances fails and leaves the account at [n]; the balance
    update with the inverse kind and the same amount, called there, returns
    [(n, b)] and leaves the account at [b]; the world the run returns is
    the world the status update leaves when called there.  The error
    returned carries the prefix "failed to update transaction: " twice,
    once from the engine and once from the store. *)
Theorem ProcessTransactionAsync_compensates transactionID req t0 b e w :
  transactionID ≠ EmptyString →
  storage.find_one transactionID (ledger w) = Some t0 →
  txn_Status t0 = "pending" →
  services.validateTransactionRequest req = None →
  balance_of (txn_AccountID t0) w = Some b →
  0 ≤ b →
  (req_Type req = "withdraw" → req_Amount req ≤ b) →
  nth_fault 0 (pg_faults w) = None →
  nth_fault 1 (pg_faults w) = None →
  nth_fault 0 (mongo_faults w) = None →
  nth_fault 1 (mongo_faults w) = Some e →
  nth_fault 2 (mongo_faults w) = None →
  let out := services.ProcessTransactionAsync transactionID req w in
  ∃ n w1 w2 w3,
    (* the balance update, on the world the read leaves *)
    storage.AtomicBalanceUpdate (txn_AccountID t0) (req_Type req)
      (req_Amount req) (services.GetTransactionByID transactionID w).2
    = (Ok (b, n), w1)
    ∧ (req_Type req = "deposit" → n = b + req_Amount req)
    ∧ (req_Type req = "withdraw" → n = b - req_Amount req)
    ∧ n ≠ b
    ∧ balance_of (txn_AccountID t0) w1 = Some n
    (* the update of the record *)
    ∧ storage.UpdateTransaction
        (storage.set_result b n "completed" EmptyString t0) w1
      = (Err (wrapError "failed to update transaction: " e), w2)
    ∧ balance_of (txn_AccountID t0) w2 = Some n
    ∧ ledger w2 = ledger w
    (* the compensating balance update *)
    ∧ storage.AtomicBalanceUpdate (txn_AccountID t0)
        (inverse_kind (req_Type req)) (req_Amount req) w2
      = (Ok (n, b), w3)
    ∧ balance_of (txn_AccountID t0) w3 = Some b
    (* the status update *)
    ∧ out.2
      = (services.UpdateTransactionStatusWithError transactionID "failed"
           "Failed to update transaction record" w3).2
    ∧ out.1
      = Err (wrapError "failed to update transaction: "
               (wrapError "failed to update transaction: " e))
    ∧ calls out.2
      = calls w
          ++ [CallGetTransactionByID transactionID;
              CallAtomicBalanceUpdate (txn_AccountID t0) (req_Type req)
                (req_Amount req);
              CallUpdateTransaction
                (storage.set_result b n "completed" EmptyString t0);
              CallAtomicBalanceUpdate (txn_AccountID t0)
                (inverse_kind (req_Type req)) (req_Amount req);
              CallUpdateTransactionStatusWithError transactionID "failed"
                "Failed to update transaction record"]
    ∧ pg_faults out.2 = tl (tl (pg_faults w))
    ∧ balance_of (txn_AccountID t0) out.2 = Some b
    ∧ storage.find_one transactionID (ledger out.2)
      = Some (storage.set_status "failed" "Failed to update transaction record"
                t0).
Proof.
  intros Hid Hfind Hpending Hval (a & Ha & <-)%balance_of_Some Hpos Henough
    Hp0 Hp1 Hm0 Hm1 Hm2 out. subst out.
  unfold services.ProcessTransactionAsync,
    services.UpdateTransactionStatusWithError.
  rewrite (service_GetTransactionByID_found _ t0) by done.
  rewrite (rollbackType_inverse _ Hval), Hpending, Hval.
  cbn [String.eqb Ascii.eqb Bool.eqb negb snd].
  rewrite (AtomicBalanceUpdate_healthy _ _ _ a) by (world_simpl; done).
  cbv zeta.
  assert (∃ nb,
    storage.calculate_new_balance (req_Type req) (acc_Balance a) (req_Amount req)
    = Ok nb
    ∧ (req_Type req = "deposit" → nb = acc_Balance a + req_Amount req)
    ∧ (req_Type req = "withdraw" → nb = acc_Balance a - req_Amount req)
    ∧ nb ≠ acc_Balance a
    ∧ storage.calculate_new_balance (inverse_kind (req_Type req)) nb
        (req_Amount req) = Ok (acc_Balance a))
    as (nb & -> & Hd & Hw & Hne & Hback).
  { destruct (proj1 (validate_None req) Hval) as [[Hk|Hk] Hamt]; rewrite Hk.
    - exists (acc_Balance a + req_Amount req).
      split; [done|]. split; [done|]. split; [done|]. split; [lia|].
      change (inverse_kind "deposit") with "withdraw".
      rewrite calculate_withdraw_enough by lia. f_equal. lia.
    - exists (acc_Balance a - req_Amount req). split.
      + apply calculate_withdraw_enough; auto.
      + split; [done|]. split; [done|]. split; [lia|].
        change (inverse_kind "withdraw") with "deposit".
        rewrite calculate_deposit. f_equal. lia. }
  change (mkTransaction (txn_ID t0) (txn_TransactionID t0) (txn_AccountID t0)
            (txn_Type t0) (txn_Amount t0) (acc_Balance a) nb
            (txn_Description t0) (txn_Timestamp t0) "completed" EmptyString)
    with (storage.set_result (acc_Balance a) nb "completed" EmptyString t0).
  rewrite UpdateTransaction_eq. cbv zeta. world_simpl.
  rewrite nth_fault_tl, Hm1.
  rewrite (AtomicBalanceUpdate_healthy _ _ _
             (storage.update_row a nb (clock w)));
    [| world_simpl; by rewrite nth_fault_tl
     | world_simpl; by rewrite lookup_insert_eq].
  cbv zeta. cbn [storage.update_row acc_Balance]. rewrite Hback.
  rewrite UpdateTransactionStatusWithError_eq. cbv zeta. world_simpl.
  rewrite !nth_fault_tl, Hm2.
  destruct (update_one_found transactionID
              (storage.set_status "failed" "Failed to update transaction record")
              _ _ Hfind) as [l' Hupd].
  rewrite Hupd. world_simpl.
  exists nb. eexists. eexists. eexists.
  split; [reflexivity|]. split; [exact Hd|]. split; [exact Hw|].
  split; [exact Hne|].
  split; [unfold balance_of; world_simpl; by rewrite lookup_insert_eq|].
  split.
  { rewrite UpdateTransaction_eq. cbv zeta. world_simpl.
    rewrite nth_fault_tl, Hm1. reflexivity. }
  split; [unfold balance_of; world_simpl; by rewrite lookup_insert_eq|].
  split; [reflexivity|].
  split.
  { rewrite (AtomicBalanceUpdate_healthy _ _ _
               (storage.update_row a nb (clock w)));
      [| world_simpl; by rewrite nth_fault_tl
       | world_simpl; by rewrite lookup_insert_eq].
    cbv zeta. cbn [storage.update_row acc_Balance]. rewrite Hback.
    reflexivity. }
  split; [unfold balance_of; world_simpl; by rewrite lookup_insert_eq|].
  split.
  { rewrite UpdateTransactionStatusWithError_eq. cbv zeta. world_simpl.
    rewrite !nth_fault_tl, Hm2, Hupd. reflexivity. }
  split; [reflexivity|].
  split; [by rewrite <- !app_assoc|].
  split; [reflexivity|].
  split; [unfold balance_of; world_simpl; by rewrite lookup_insert_eq|].
  by rewrite (update_one_find _
                (storage.set_status "failed"
                   "Failed to update transaction record")
                _ _ _ (λ x, eq_refl) Hfind Hupd).
Qed.

(** ** The worker *)

Lemma nth_fault_nil {A} n : nth_fault n (@nil (option A)) = None.
Proof. by destruct n. Qed.

Lemma healthy_nth w :
  healthy w →
  (∀ n, nth_fault n (pg_faults w) = None)
  ∧ (∀ n, nth_fault n (mongo_faults w) = None)
  ∧ (∀ n, nth_fault n (amqp_faults w) = None).
Proof.
  intros (-> & -> & ->). repeat split; intros n; apply nth_fault_nil.
Qed.

Lemma processMessage_eq m w :
  worker.processMessage (Ok m) w
  = let out :=
      services.ProcessTransactionAsync (msg_ID m) (request_of m)
        (set_clock w (clock w + 1)) in
    match out.1 with
    | Err processErr =>
        if worker.isBusinessError processErr then (worker.Ack false, out.2)
        else (worker.Nack false true, out.2)
    | Ok _ => (worker.Ack false, out.2)
    end.
Proof.
  unfold worker.processMessage, request_of. cbn [time_Now]. cbv zeta.
  by destruct (services.ProcessTransactionAsync _ _ _) as [[t|err] w1].
Qed.

(** X14.  Wrapping an error under any prefix keeps it a business error, so the
    prefixes the engine adds never turn a business error into one that is
    requeued. *)
Theorem isBusinessError_wrapped prefix err :
  worker.isBusinessError err = true →
  worker.isBusinessError (wrapError prefix err) = true.
Proof.
  unfold worker.isBusinessError. cbn [Error]. cbv zeta.
  rewrite !existsb_exists. intros (pattern & Hin & Hc).
  exists pattern. split; [done|].
  rewrite ToLower_app. by apply Contains_app_r.
Qed.

(** A message for a pending record, valid and covered by the balance, is
    acknowledged once processed; the record is then completed with the
    balance before and after, and the account holds the balance after. *)
Theorem processMessage_completes m t0 b w :
  msg_ID m ≠ EmptyString →
  storage.find_one (msg_ID m) (ledger w) = Some t0 →
  txn_Status t0 = "pending" →
  (msg_Type m = "deposit" ∨ msg_Type m = "withdraw") →
  0 < msg_Amount m →
  balance_of (txn_AccountID t0) w = Some b →
  (msg_Type m = "withdraw" → msg_Amount m ≤ b) →
  nth_fault 0 (pg_faults w) = None →
  nth_fault 0 (mongo_faults w) = None →
  nth_fault 1 (mongo_faults w) = None →
  ∃ n,
    (msg_Type m = "deposit" → n = b + msg_Amount m)
    ∧ (msg_Type m = "withdraw" → n = b - msg_Amount m)
    ∧ (worker.processMessage (Ok m) w).1 = worker.Ack false
    ∧ storage.find_one (msg_ID m) (ledger (worker.processMessage (Ok m) w).2)
      = Some (storage.set_result b n "completed" EmptyString t0)
    ∧ balance_of (txn_AccountID t0) (worker.processMessage (Ok m) w).2
      = Some n.
Proof.
  intros Hid Hfind Hpending Hkind Hamt (a & Ha & <-)%balance_of_Some Henough
    Hp0 Hm0 Hm1.
  assert (services.validateTransactionRequest (request_of m) = None) as Hval
    by (by apply validate_None).
  destruct (ProcessTransactionAsync_completes (msg_ID m) (request_of m) t0 a
              (set_clock w (clock w + 1)))
    as (n & Hcalc & Hret & Hupd & Hacc & _); try done.
  destruct (calculate_Ok_invariant _ _ _ _ Hcalc) as [Hd Hw].
  exists n. rewrite processMessage_eq. cbv zeta. rewrite Hret. cbn [fst snd].
  split; [done|]. split; [done|]. split; [done|]. split.
  - by rewrite (update_one_find _
                  (storage.set_result (acc_Balance a) n "completed" EmptyString)
                  _ _ _ (λ x, eq_refl) Hfind Hupd).
  - unfold balance_of. rewrite Hacc. world_simpl. by rewrite lookup_insert_eq.
Qed.

(** X15.  A withdrawal that the balance no longer covers when the worker runs it
    is acknowledged, not requeued; its record is then "failed" with the
    insufficient-funds text as message and the account table is
    unchanged. *)
Theorem processMessage_overdrawn m t0 b w :
  msg_ID m ≠ EmptyString →
  storage.find_one (msg_ID m) (ledger w) = Some t0 →
  txn_Status t0 = "pending" →
  msg_Type m = "withdraw" →
  0 < msg_Amount m →
  balance_of (txn_AccountID t0) w = Some b →
  b < msg_Amount m →
  nth_fault 0 (pg_faults w) = None →
  nth_fault 0 (mongo_faults w) = None →
  nth_fault 1 (mongo_faults w) = None →
  (worker.processMessage (Ok m) w).1 = worker.Ack false
  ∧ storage.find_one (msg_ID m) (ledger (worker.processMessage (Ok m) w).2)
    = Some (storage.set_status "failed"
              ("insufficient funds: current balance " +:+ fmt_2f b
                 +:+ ", requested " +:+ fmt_2f (msg_Amount m)) t0)
  ∧ accounts (worker.processMessage (Ok m) w).2 = accounts w.
Proof.
  intros Hid Hfind Hpending Hkind Hamt (a & Ha & <-)%balance_of_Some Hlt
    Hp0 Hm0 Hm1.
  assert (services.validateTransactionRequest (request_of m) = None) as Hval
    by (apply validate_None; auto).
  set (w0 := set_clock w (clock w + 1)).
  destruct (ProcessTransactionAsync_refused (msg_ID m) (request_of m)
              t0
              (errorString
                 ("insufficient funds: current balance "
                    +:+ fmt_2f (acc_Balance a)
                    +:+ ", requested " +:+ fmt_2f (msg_Amount m)))
              (pg_entered
                 (CallAtomicBalanceUpdate (txn_AccountID t0) (msg_Type m)
                    (msg_Amount m))
                 (mongo_entered (CallGetTransactionByID (msg_ID m)) w0))
              w0)
    as (Hret & Hrec & _ & Hacc); try done.
  { rewrite (AtomicBalanceUpdate_healthy _ _ _ a) by done. cbv zeta.
    cbn [request_of req_Type req_Amount]. rewrite Hkind.
    by rewrite calculate_withdraw_short. }
  rewrite processMessage_eq. cbv zeta. fold w0. rewrite Hret.
  rewrite isBusinessError_insufficient_funds. done.
Qed.

(** The run whose request fails the validation, with everything it leaves
    behind. *)
Lemma ProcessTransactionAsync_invalid transactionID req t0 verr w :
  transactionID ≠ EmptyString →
  storage.find_one transactionID (ledger w) = Some t0 →
  txn_Status t0 = "pending" →
  services.validateTransactionRequest req = Some verr →
  nth_fault 0 (mongo_faults w) = None →
  nth_fault 1 (mongo_faults w) = None →
  (services.ProcessTransactionAsync transactionID req w).1 = Err verr
  ∧ storage.find_one transactionID
      (ledger (services.ProcessTransactionAsync transactionID req w).2)
    = Some (storage.set_status "failed" (Error verr) t0)
  ∧ accounts (services.ProcessTransactionAsync transactionID req w).2
    = accounts w
  ∧ pg_faults (services.ProcessTransactionAsync transactionID req w).2
    = pg_faults w
  ∧ mongo_faults (services.ProcessTransactionAsync transactionID req w).2
    = tl (tl (mongo_faults w)).
Proof.
  intros Hid Hfind Hpending Hval Hm0 Hm1.
  unfold services.ProcessTransactionAsync,
    services.UpdateTransactionStatusWithError.
  rewrite (service_GetTransactionByID_found _ t0) by done.
  rewrite Hpending, Hval. cbn [String.eqb Ascii.eqb Bool.eqb negb].
  rewrite UpdateTransactionStatusWithError_eq. cbv zeta. world_simpl.
  rewrite nth_fault_tl, Hm1.
  destruct (update_one_found transactionID
              (storage.set_status "failed" (Error verr)) _ _ Hfind)
    as [l' Hupd].
  rewrite Hupd. world_simpl. split; [done|]. split; [|done].
  by rewrite (update_one_find _ (storage.set_status "failed" (Error verr))
                _ _ _ (λ x, eq_refl) Hfind Hupd).
Qed.

(** X13.  A pending record whose request fails the validation becomes "failed"
    with the text of the validation error as its message; that error is
    returned as it is, the account table is unchanged and the database of
    the accounts is not even called: its script is as it was. *)
Theorem ProcessTransactionAsync_invalid_request transactionID req t0 w :
  transactionID ≠ EmptyString →
  storage.find_one transactionID (ledger w) = Some t0 →
  txn_Status t0 = "pending" →
  ¬ (req_Type req = "deposit" ∨ req_Type req = "withdraw")
  ∨ req_Amount req ≤ 0 →
  nth_fault 0 (mongo_faults w) = None →
  nth_fault 1 (mongo_faults w) = None →
  ∃ verr,
    services.validateTransactionRequest req = Some verr
    ∧ (services.ProcessTransactionAsync transactionID req w).1 = Err verr
    ∧ (∃ t,
         storage.find_one transactionID
           (ledger (services.ProcessTransactionAsync transactionID req w).2)
         = Some t
         ∧ txn_Status t = "failed"
         ∧ txn_ErrorMessage t = Error verr)
    ∧ accounts (services.ProcessTransactionAsync transactionID req w).2
      = accounts w
    ∧ pg_faults (services.ProcessTransactionAsync transactionID req w).2
      = pg_faults w.
Proof.
  intros Hid Hfind Hpending Hbad Hm0 Hm1.
  destruct (services.validateTransactionRequest req) as [verr|] eqn:Hval.
  - destruct (ProcessTransactionAsync_invalid transactionID req t0 verr w)
      as (Hret & Hrec & Hacc & Hpg & _); try done.
    exists verr. split; [done|]. split; [done|]. split; [|done].
    eexists. split; [exact Hrec|]. done.
  - apply validate_None in Hval. destruct Hval as [Hk Ha].
    destruct Hbad as [Hbad|Hbad]; [done|lia].
Qed.

(** X16.  A message whose kind is not one of the two is rejected with requeue the
    first time, which marks its record "failed"; delivered again it is
    acknowledged, because the record is no longer pending.  The account
    table is never touched. *)
Theorem invalid_kind_requeued_once m t0 w :
  healthy w →
  msg_ID m ≠ EmptyString →
  storage.find_one (msg_ID m) (ledger w) = Some t0 →
  txn_Status t0 = "pending" →
  msg_Type m ≠ "deposit" →
  msg_Type m ≠ "withdraw" →
  (deliveries 2 (Ok m) w).1 = [worker.Nack false true; worker.Ack false]
  ∧ storage.find_one (msg_ID m) (ledger (deliveries 2 (Ok m) w).2)
    = Some (storage.set_status "failed"
              "transaction type must be either 'deposit' or 'withdraw'" t0)
  ∧ accounts (deliveries 2 (Ok m) w).2 = accounts w.
Proof.
  intros Hh Hid Hfind Hpending Hd Hw.
  destruct (healthy_nth w Hh) as (_ & Hm & _).
  assert (services.validateTransactionRequest (request_of m)
          = Some (errorString
                    "transaction type must be either 'deposit' or 'withdraw'"))
    as Hval.
  { unfold services.validateTransactionRequest. cbn [request_of req_Type].
    by rewrite (proj2 (String.eqb_neq _ _) Hd), (proj2 (String.eqb_neq _ _) Hw). }
  destruct (ProcessTransactionAsync_invalid (msg_ID m) (request_of m)
              t0 _ (set_clock w (clock w + 1)) Hid Hfind Hpending Hval
              (Hm 0%nat) (Hm 1%nat))
    as (Hret & Hrec & Hacc & _ & Hscript).
  cbn [deliveries]. rewrite (processMessage_eq m w). cbv zeta.
  rewrite Hret. change (worker.isBusinessError _) with false. cbv iota.
  set (w1 := (services.ProcessTransactionAsync _ _ _).2) in *.
  rewrite (processMessage_eq m w1). cbv zeta.
  rewrite (ProcessTransactionAsync_guard (msg_ID m) (request_of m)
             (storage.set_status "failed"
                "transaction type must be either 'deposit' or 'withdraw'" t0)
             (set_clock w1 (clock w1 + 1)) Hid);
    [| world_simpl; rewrite Hscript; destruct Hh as (_ & -> & _); done
     | done | done].
  cbn [fst snd storage.set_status storage.set_result txn_Status].
  rewrite isBusinessError_not_pending. cbn [fst snd].
  split; [done|]. world_simpl. done.
Qed.

(** X17.  A message whose record does not exist is rejected with requeue
    every time it is delivered, and nothing changes: on healthy stores [n]
    deliveries are answered by [n] requeues. *)
Theorem missing_record_requeued_forever n m w :
  healthy w →
  storage.find_one (msg_ID m) (ledger w) = None →
  (deliveries n (Ok m) w).1 = replicate n (worker.Nack false true)
  ∧ ledger (deliveries n (Ok m) w).2 = ledger w
  ∧ accounts (deliveries n (Ok m) w).2 = accounts w.
Proof.
  revert w. induction n as [|n IH]; intros w Hh Hnone; [done|].
  cbn [deliveries replicate].
  assert ((worker.processMessage (Ok m) w).1 = worker.Nack false true
          ∧ healthy (worker.processMessage (Ok m) w).2
          ∧ ledger (worker.processMessage (Ok m) w).2 = ledger w
          ∧ accounts (worker.processMessage (Ok m) w).2 = accounts w)
    as Hstep.
  { rewrite processMessage_eq. cbv zeta.
    unfold services.ProcessTransactionAsync, services.GetTransactionByID.
    destruct Hh as (Hp & Hm & Hq). unfold healthy.
    destruct (String.eqb (msg_ID m) EmptyString); [by world_simpl|].
    rewrite GetTransactionByID_eq. cbv zeta. world_simpl.
    rewrite Hm, Hnone, nth_fault_nil. by world_simpl. }
  destruct (worker.processMessage (Ok m) w) as [d w1]. simpl in Hstep.
  destruct Hstep as (-> & Hh1 & Hl1 & Ha1).
  rewrite <- Hl1 in Hnone. destruct (IH w1 Hh1 Hnone) as (Hd & Hl & Ha).
  destruct (deliveries n (Ok m) w1) as [ds w2]. simpl in *.
  by rewrite Hd, Hl, Ha, Hl1, Ha1.
Qed.

(** ** The handlers *)

(** What an accepted submission leaves behind. *)
Lemma processTransactionAsync_accepted accountID req a w :
  nth_fault 0 (pg_faults w) = None →
  accounts w !! accountID = Some a →
  ¬ (req_Type req = "withdraw" ∧ acc_Balance a < req_Amount req) →
  nth_fault 0 (mongo_faults w) = None →
  nth_fault 0 (amqp_faults w) = None →
  let transactionID := "txn_" +:+ pretty (uuids w) in
  let out := handlers.processTransactionAsync accountID req w in
  out.1
  = handlers.mkResponse handlers.StatusAccepted
      [("message", handlers.JString "Transaction queued for processing");
       ("transaction_id", handlers.JString transactionID);
       ("status", handlers.JString "pending");
       ("account_id", handlers.JString accountID);
       ("processing_mode", handlers.JString "async")]
  ∧ ledger out.2
    = ledger w
        ++ [mkTransaction transactionID transactionID accountID (req_Type req)
              (req_Amount req) (acc_Balance a) 0 (req_Description req)
              (clock w) "pending" EmptyString]
  ∧ published out.2
    = published w
        ++ [mkTransactionMessage transactionID accountID (req_Type req)
              (req_Amount req) (req_Description req) (clock w + 1)]
  ∧ accounts out.2 = accounts w
  ∧ pg_faults out.2 = tl (pg_faults w)
  ∧ mongo_faults out.2 = tl (mongo_faults w)
  ∧ amqp_faults out.2 = tl (amqp_faults w).
Proof.
  intros Hpg Ha Hfunds Hm0 Hq transactionID out. subst out transactionID.
  unfold handlers.processTransactionAsync, services.GetAccountByID,
    services.CreatePendingTransaction.
  rewrite GetAccountByID_eq. cbv zeta. rewrite Hpg, Ha.
  assert ((String.eqb (req_Type req) "withdraw"
           && (acc_Balance a <? req_Amount req))%bool = false) as ->.
  { apply andb_false_iff.
    destruct (String.eqb_spec (req_Type req) "withdraw") as [Hk|Hk]; [|by left].
    right. apply Z.ltb_ge.
    destruct (Z.le_gt_cases (req_Amount req) (acc_Balance a)); [done|].
    exfalso. apply Hfunds. split; [done|lia]. }
  world_simpl. rewrite CreateTransaction_eq. cbv zeta. world_simpl.
  rewrite Hm0. unfold queue.PublishTransaction. world_simpl.
  rewrite pop_amqp_fault_eq. world_simpl. by rewrite Hq.
Qed.

(** X18.  A submission on healthy systems that the balance covers is answered
    202 with the generated identifier; exactly one record is persisted,
    pending, with the current balance as previous balance and 0 as new
    balance; exactly one message is published, with the same identifier,
    kind and amount; the balance of the account is not changed yet. *)
Theorem processTransactionAsync_accepts accountID req a w :
  nth_fault 0 (pg_faults w) = None →
  accounts w !! accountID = Some a →
  ¬ (req_Type req = "withdraw" ∧ acc_Balance a < req_Amount req) →
  nth_fault 0 (mongo_faults w) = None →
  nth_fault 0 (amqp_faults w) = None →
  ∃ p m,
    handlers.code (handlers.processTransactionAsync accountID req w).1 = 202
    ∧ In ("transaction_id", handlers.JString (txn_TransactionID p))
        (handlers.body (handlers.processTransactionAsync accountID req w).1)
    ∧ ledger (handlers.processTransactionAsync accountID req w).2
      = ledger w ++ [p]
    ∧ published (handlers.processTransactionAsync accountID req w).2
      = published w ++ [m]
    ∧ txn_Status p = "pending"
    ∧ txn_AccountID p = accountID
    ∧ txn_PreviousBalance p = acc_Balance a
    ∧ txn_NewBalance p = 0
    ∧ msg_ID m = txn_TransactionID p
    ∧ msg_AccountID m = accountID
    ∧ restates (request_of m) p
    ∧ restates req p
    ∧ accounts (handlers.processTransactionAsync accountID req w).2
      = accounts w.
Proof.
  intros Hpg Ha Hfunds Hm0 Hq.
  destruct (processTransactionAsync_accepted accountID req a w)
    as (Hresp & Hl & Hp & Hacc & _); try done.
  eexists _, _. rewrite Hresp, Hl, Hp, Hacc.
  repeat split; try reflexivity. simpl. auto.
Qed.

(** X19.  Submitted and then processed: on healthy systems a valid request that
    the balance covers, submitted through the asynchronous path and then
    taken from the queue by a worker, is acknowledged; the account then
    holds the balance before plus or minus the amount, and the record is
    completed with exactly these two balances, the kind and the amount of
    the request. *)
Theorem submit_then_process accountID req a w :
  services.validateTransactionRequest req = None →
  accounts w !! accountID = Some a →
  (req_Type req = "withdraw" → req_Amount req ≤ acc_Balance a) →
  storage.find_one ("txn_" +:+ pretty (uuids w)) (ledger w) = None →
  healthy w →
  let w1 := (handlers.processTransactionAsync accountID req w).2 in
  ∃ m n t,
    published w1 = published w ++ [m]
    ∧ (req_Type req = "deposit" → n = acc_Balance a + req_Amount req)
    ∧ (req_Type req = "withdraw" → n = acc_Balance a - req_Amount req)
    ∧ (worker.processMessage (Ok m) w1).1 = worker.Ack false
    ∧ balance_of accountID (worker.processMessage (Ok m) w1).2 = Some n
    ∧ storage.find_one (msg_ID m) (ledger (worker.processMessage (Ok m) w1).2)
      = Some t
    ∧ txn_Status t = "completed"
    ∧ txn_AccountID t = accountID
    ∧ txn_Type t = req_Type req
    ∧ txn_Amount t = req_Amount req
    ∧ txn_PreviousBalance t = acc_Balance a
    ∧ txn_NewBalance t = n.
Proof.
  intros Hval Ha Henough Hfresh Hh w1.
  destruct (healthy_nth w Hh) as (Hp & Hm & Hq).
  destruct (processTransactionAsync_accepted accountID req a w)
    as (_ & Hl & Hpub & Hacc & Hpf & Hmf & _); try done.
  { intros [Hk Hlt]. specialize (Henough Hk). lia. }
  fold w1 in Hl, Hpub, Hacc, Hpf, Hmf.
  set (id := "txn_" +:+ pretty (uuids w)) in *.
  set (p := mkTransaction id id accountID (req_Type req) (req_Amount req)
              (acc_Balance a) 0 (req_Description req) (clock w) "pending"
              EmptyString) in *.
  set (m := mkTransactionMessage id accountID (req_Type req) (req_Amount req)
              (req_Description req) (clock w + 1)) in *.
  assert (storage.find_one id (ledger w1) = Some p) as Hfind.
  { rewrite Hl, find_one_app, Hfresh. subst p. cbn [txn_TransactionID].
    by rewrite String.eqb_refl. }
  assert (services.validateTransactionRequest (request_of m) = None) as Hval'.
  { apply validate_None. by apply validate_None in Hval. }
  assert (id ≠ EmptyString) as Hid by done.
  destruct (ProcessTransactionAsync_completes id (request_of m) p a
              (set_clock w1 (clock w1 + 1)))
    as (n & Hcalc & Hret & Hupd & Hacc2 & _); try done.
  { world_simpl. by rewrite Hacc. }
  { world_simpl. by rewrite Hpf, nth_fault_tl. }
  { world_simpl. by rewrite Hmf, nth_fault_tl. }
  { world_simpl. by rewrite Hmf, !nth_fault_tl. }
  destruct (calculate_Ok_invariant _ _ _ _ Hcalc) as [Hd Hw].
  exists m, n, (storage.set_result (acc_Balance a) n "completed" EmptyString p).
  rewrite (processMessage_eq m w1). cbv zeta.
  change (msg_ID m) with id. rewrite Hret. cbn [fst snd].
  split; [done|]. split; [done|]. split; [done|]. split; [done|]. split.
  { unfold balance_of. world_simpl. rewrite Hacc2. world_simpl.
    by rewrite lookup_insert_eq. }
  split; [|done].
  by rewrite (update_one_find _
                (storage.set_result (acc_Balance a) n "completed" EmptyString)
                _ _ _ (λ x, eq_refl) Hfind Hupd).
Qed.

(** ** The balances are never negative *)

Lemma balances_nonnegative_same w w' :
  accounts w' = accounts w → balances_nonnegative w → balances_nonnegative w'.
Proof. unfold balances_nonnegative. by intros ->. Qed.

Lemma ProcessTransaction_keeps_nonnegative accountID req w :
  balances_nonnegative w →
  balances_nonnegative (services.ProcessTransaction accountID req w).2.
Proof.
  intros Hinv. unfold services.ProcessTransaction.
  destruct (services.validateTransactionRequest req) as [verr|] eqn:Hval;
    [done|].
  apply validate_None in Hval. destruct Hval as [_ Hamt].
  pose proof (AtomicBalanceUpdate_keeps_nonnegative accountID (req_Type req)
                (req_Amount req) w ltac:(lia) Hinv) as Hstep.
  destruct (storage.AtomicBalanceUpdate accountID (req_Type req)
              (req_Amount req) w) as [[[p n]|err] w1]; [|done].
  cbn [snd] in Hstep. cbv zeta. world_simpl.
  match goal with
  | |- context [storage.CreateTransaction ?t ?w0] =>
      pose proof (CreateTransaction_frame t w0) as (Hacc & _);
      destruct (storage.CreateTransaction t w0) as [[u|e] w2]
  end; cbn [snd] in Hacc.
  - eapply balances_nonnegative_same; [exact Hacc|].
    eapply balances_nonnegative_same; [|exact Hstep]. done.
  - match goal with
    | |- context [storage.AtomicBalanceUpdate ?i ?k ?m ?w0] =>
        pose proof (AtomicBalanceUpdate_keeps_nonnegative i k m w0) as Hback;
        destruct (storage.AtomicBalanceUpdate i k m w0) as [r3 w3]
    end.
    apply Hback; [lia|].
    eapply balances_nonnegative_same; [exact Hacc|].
    eapply balances_nonnegative_same; [|exact Hstep]. done.
Qed.

Lemma service_UpdateTransactionStatusWithError_accounts transactionID status
    msg w :
  accounts
    (services.UpdateTransactionStatusWithError transactionID status msg w).2
  = accounts w.
Proof.
  unfold services.UpdateTransactionStatusWithError.
  pose proof (UpdateTransactionStatusWithError_frame transactionID status msg w)
    as (Hacc & _).
  by destruct (storage.UpdateTransactionStatusWithError _ _ _ _) as [[u|e] w1].
Qed.

Lemma ProcessTransactionAsync_keeps_nonnegative transactionID req w :
  balances_nonnegative w →
  balances_nonnegative (services.ProcessTransactionAsync transactionID req w).2.
Proof.
  intros Hinv. unfold services.ProcessTransactionAsync.
  pose proof (service_GetTransactionByID_frame transactionID w) as (Hacc0 & _).
  destruct (services.GetTransactionByID transactionID w) as [[t|err] w0];
    cbn [snd] in Hacc0;
    [|by eapply balances_nonnegative_same].
  apply (balances_nonnegative_same w w0 Hacc0) in Hinv.
  destruct (negb (String.eqb (txn_Status t) "pending")); [done|].
  destruct (services.validateTransactionRequest req) as [verr|] eqn:Hval.
  { pose proof (service_UpdateTransactionStatusWithError_accounts transactionID
                  "failed" (Error verr) w0) as Hacc.
    destruct (services.UpdateTransactionStatusWithError _ _ _ _) as [r w1].
    by eapply balances_nonnegative_same. }
  apply validate_None in Hval. destruct Hval as [_ Hamt].
  pose proof (AtomicBalanceUpdate_keeps_nonnegative (txn_AccountID t)
                (req_Type req) (req_Amount req) w0 ltac:(lia) Hinv) as Hstep.
  destruct (storage.AtomicBalanceUpdate (txn_AccountID t) (req_Type req)
              (req_Amount req) w0) as [[[p n]|err] w1]; cbn [snd] in Hstep.
  2:{ pose proof (service_UpdateTransactionStatusWithError_accounts
                    transactionID "failed" (Error err) w1) as Hacc.
      destruct (services.UpdateTransactionStatusWithError _ _ _ _) as [r w2].
      by eapply balances_nonnegative_same. }
  cbv zeta.
  match goal with
  | |- context [storage.UpdateTransaction ?t ?w0] =>
      pose proof (UpdateTransaction_frame t w0) as (Hacc & _);
      destruct (storage.UpdateTransaction t w0) as [[u|e] w2]
  end; cbn [snd] in Hacc.
  { by eapply balances_nonnegative_same. }
  match goal with
  | |- context [storage.AtomicBalanceUpdate ?i ?k ?m ?w0] =>
      pose proof (AtomicBalanceUpdate_keeps_nonnegative i k m w0) as Hback;
      destruct (storage.AtomicBalanceUpdate i k m w0) as [r3 w3]
  end.
  cbn [snd] in Hback.
  match goal with
  | |- context [services.UpdateTransactionStatusWithError ?i ?s ?m ?w0] =>
      pose proof (service_UpdateTransactionStatusWithError_accounts i s m w0)
        as Hacc3;
      destruct (services.UpdateTransactionStatusWithError i s m w0) as [r4 w4]
  end.
  cbn [snd] in *. eapply balances_nonnegative_same; [exact Hacc3|].
  apply Hback; [lia|]. by eapply balances_nonnegative_same.
Qed.

Lemma CreateAccount_keeps_nonnegative req w :
  balances_nonnegative w →
  balances_nonnegative (services.AccountService.CreateAccount req w).2.
Proof.
  intros Hinv. unfold services.AccountService.CreateAccount.
  destruct (String.eqb (car_OwnerName req) EmptyString); [done|].
  destruct (Z.ltb_spec (car_InitialBalance req) 0) as [|Hb]; [done|].
  unfold NewAccountID, storage.CreateAccount.
  cbn [uuid_New_String time_Now]. rewrite pop_pg_fault_eq. world_simpl.
  cbn [acc_ID].
  destruct (nth_fault 0 (pg_faults w)); [done|].
  destruct (accounts w !! _) eqn:Hrow; [done|].
  intros id a. world_simpl.
  destruct (decide (id = "acc_" +:+ pretty (uuids w))) as [->|Hne].
  - rewrite lookup_insert_eq. by intros [= <-].
  - rewrite lookup_insert_ne by done. apply Hinv.
Qed.

Lemma processMessage_keeps_nonnegative decoded w :
  balances_nonnegative w →
  balances_nonnegative (worker.processMessage decoded w).2.
Proof.
  intros Hinv. destruct decoded as [m|e]; [|done].
  rewrite processMessage_eq. cbv zeta.
  pose proof (ProcessTransactionAsync_keeps_nonnegative (msg_ID m)
                (request_of m) (set_clock w (clock w + 1))) as Hstep.
  destruct (services.ProcessTransactionAsync _ _ _) as [[t|err] w1];
    cbn [fst snd] in *; [by apply Hstep|].
  destruct (worker.isBusinessError err); by apply Hstep.
Qed.

Lemma processTransactionSync_keeps_nonnegative accountID req w :
  balances_nonnegative w →
  balances_nonnegative (handlers.processTransactionSync accountID req w).2.
Proof.
  intros Hinv. unfold handlers.processTransactionSync.
  pose proof (ProcessTransaction_keeps_nonnegative accountID req w Hinv)
    as Hstep.
  destruct (services.ProcessTransaction accountID req w) as [[t|err] w1];
    [done|].
  by repeat case_match.
Qed.

Lemma processTransactionAsync_keeps_nonnegative accountID req w :
  balances_nonnegative w →
  balances_nonnegative (handlers.processTransactionAsync accountID req w).2.
Proof.
  intros Hinv. unfold handlers.processTransactionAsync, services.GetAccountByID,
    services.CreatePendingTransaction.
  rewrite GetAccountByID_eq. cbv zeta.
  destruct (nth_fault 0 (pg_faults w)) as [f|]; [done|].
  destruct (accounts w !! accountID) as [a|]; [|done].
  destruct (_ && _)%bool; [done|]. world_simpl.
  rewrite CreateTransaction_eq. cbv zeta. world_simpl.
  destruct (nth_fault 0 (mongo_faults w)) as [e|]; [done|].
  unfold queue.PublishTransaction. world_simpl.
  rewrite pop_amqp_fault_eq. world_simpl.
  destruct (nth_fault 0 (amqp_faults w)) as [e|]; [|done].
  match goal with
  | |- context [services.UpdateTransactionStatusWithError ?i ?s ?m ?w0] =>
      pose proof (service_UpdateTransactionStatusWithError_accounts i s m w0)
        as Hacc;
      destruct (services.UpdateTransactionStatusWithError i s m w0) as [r1 w1]
  end.
  cbn [snd] in Hacc. apply processTransactionSync_keeps_nonnegative.
  eapply balances_nonnegative_same; [exact Hacc|]. done.
Qed.

(** X20.  No balance ever becomes negative: whatever sequence of account
    creations, synchronous and asynchronous submissions and deliveries to a
    worker is carried out, with whatever requests and messages and whatever
    failures of the external systems, a table without a negative balance
    stays without one. *)
Theorem balances_never_negative ops w :
  balances_nonnegative w →
  balances_nonnegative (perform_all ops w).
Proof.
  unfold perform_all. revert w.
  induction ops as [|op ops IH]; intros w Hinv; [done|].
  cbn [foldl]. apply IH. destruct op; cbn [perform].
  - by apply CreateAccount_keeps_nonnegative.
  - by apply processTransactionSync_keeps_nonnegative.
  - by apply processTransactionAsync_keeps_nonnegative.
  - by apply processMessage_keeps_nonnegative.
Qed.

(** ** The answers of the handlers *)

(** X21.  The answers of the synchronous path.  A request that the engine's
    validation refuses is answered 500 and nothing is done.  A valid one,
    when the two stores are not hit by a failure, is answered 404 for a
    missing account, 400 "Insufficient funds" for a withdrawal above the
    balance, in both cases with the account table and the collection
    unchanged, and otherwise 200 with the completed transaction, which is
    the one record appended. *)
Theorem processTransactionSync_answers accountID req w :
  nth_fault 0 (pg_faults w) = None →
  nth_fault 0 (mongo_faults w) = None →
  let out := handlers.processTransactionSync accountID req w in
  match services.validateTransactionRequest req with
  | Some verr =>
      out
      = (handlers.mkResponse 500
           [("error", handlers.JString "Transaction processing failed");
            ("details", handlers.JString (Error verr))], w)
  | None =>
      match accounts w !! accountID with
      | None =>
          handlers.code out.1 = 404
          ∧ accounts out.2 = accounts w ∧ ledger out.2 = ledger w
      | Some a =>
          if decide (req_Type req = "withdraw" ∧ acc_Balance a < req_Amount req)
          then
            handlers.code out.1 = 400
            ∧ In ("error", handlers.JString "Insufficient funds")
                (handlers.body out.1)
            ∧ accounts out.2 = accounts w ∧ ledger out.2 = ledger w
          else
            ∃ t,
              out.1
              = handlers.mkResponse 200
                  [("message",
                    handlers.JString "Transaction processed successfully");
                   ("transaction", handlers.JTransaction t);
                   ("processing_mode", handlers.JString "sync")]
              ∧ txn_Status t = "completed"
              ∧ txn_PreviousBalance t = acc_Balance a
              ∧ ledger out.2 = ledger w ++ [t]
              ∧ balance_of accountID out.2 = Some (txn_NewBalance t)
      end
  end.
Proof.
  intros Hpg Hmongo out. subst out.
  unfold handlers.processTransactionSync, services.ProcessTransaction.
  destruct (services.validateTransactionRequest req) as [verr|] eqn:Hval.
  { assert (verr
            = errorString
                "transaction type must be either 'deposit' or 'withdraw'"
            ∨ verr = errorString "amount must be greater than 0") as [->| ->];
      [|done|done].
    revert Hval. unfold services.validateTransactionRequest.
    repeat case_match; intros [= <-]; auto. }
  destruct (accounts w !! accountID) as [a|] eqn:Ha.
  - rewrite (AtomicBalanceUpdate_healthy _ _ _ a) by done. cbv zeta.
    destruct (decide _) as [[Hk Hlt]|Hok].
    + rewrite Hk, (calculate_withdraw_short _ _ Hlt). cbn [Error].
      rewrite (Contains_app_r _ _ "insufficient funds");
        [|by apply Contains_app_l].
      simpl. auto.
    + assert (∃ nb,
        storage.calculate_new_balance (req_Type req) (acc_Balance a)
          (req_Amount req) = Ok nb) as (nb & ->).
      { destruct (proj1 (validate_None req) Hval) as [[Hk|Hk] _]; rewrite Hk.
        - eauto using calculate_deposit.
        - eexists. apply calculate_withdraw_enough.
          destruct (Z.le_gt_cases (req_Amount req) (acc_Balance a)); [done|].
          exfalso. apply Hok. split; [done|lia]. }
      world_simpl. rewrite CreateTransaction_eq. cbv zeta. world_simpl.
      rewrite Hmongo. world_simpl. eexists. split; [reflexivity|].
      cbn [txn_Status txn_PreviousBalance txn_NewBalance].
      repeat split. unfold balance_of. world_simpl.
      by rewrite lookup_insert_eq.
  - rewrite AtomicBalanceUpdate_unfold, AtomicBalanceUpdate_tx_missing by done.
    done.
Qed.

(** X22.  On the asynchronous path any failure of the account read, a missing
    row and a failure of the database alike, is answered 404
    "Account not found"; nothing is persisted, nothing is published and no
    identifier is drawn. *)
Theorem processTransactionAsync_account_unreadable accountID req w :
  nth_fault 0 (pg_faults w) ≠ None ∨ accounts w !! accountID = None →
  let out := handlers.processTransactionAsync accountID req w in
  out.1
  = handlers.mkResponse 404
      [("error", handlers.JString "Account not found")]
  ∧ accounts out.2 = accounts w
  ∧ ledger out.2 = ledger w
  ∧ published out.2 = published w
  ∧ uuids out.2 = uuids w.
Proof.
  intros Hbad out. subst out.
  unfold handlers.processTransactionAsync, services.GetAccountByID.
  rewrite GetAccountByID_eq. cbv zeta.
  destruct (nth_fault 0 (pg_faults w)) as [f|]; [done|].
  destruct Hbad as [Hbad|Hbad]; [done|]. by rewrite Hbad.
Qed.

(** X23.  GET /transactions/:id answers 200 or 404 and changes nothing.  It
    answers 200 exactly when the identifier is not empty, the read is not
    hit by a failure and the collection holds a record of the identifier;
    the body is then that record, the first of its identifier.  Every
    failure, a failure of the database included, is answered 404. *)
Theorem GetTransaction_answers transactionID w :
  let out := handlers.GetTransaction transactionID w in
  accounts out.2 = accounts w
  ∧ ledger out.2 = ledger w
  ∧ published out.2 = published w
  ∧ (handlers.code out.1 = 200 ∨ handlers.code out.1 = 404)
  ∧ (handlers.code out.1 = 200 ↔
       transactionID ≠ EmptyString
       ∧ nth_fault 0 (mongo_faults w) = None
       ∧ is_Some (storage.find_one transactionID (ledger w)))
  ∧ (handlers.code out.1 = 200 →
       ∃ t,
         handlers.body out.1 = [("transaction", handlers.JTransaction t)]
         ∧ storage.find_one transactionID (ledger w) = Some t
         ∧ txn_TransactionID t = transactionID).
Proof.
  intros out. subst out.
  unfold handlers.GetTransaction, services.GetTransactionByID.
  destruct (String.eqb_spec transactionID EmptyString) as [Hid|Hid].
  { simpl. repeat split; auto; try done. by intros (? & _). }
  rewrite GetTransactionByID_eq. cbv zeta.
  destruct (nth_fault 0 (mongo_faults w)) as [e|].
  { simpl. repeat split; auto; try done. by intros (_ & ? & _). }
  destruct (storage.find_one transactionID (ledger w)) as [t|] eqn:Hfind.
  - simpl. repeat split; auto; try done.
    intros _. exists t. repeat split. by apply find_one_id in Hfind.
  - simpl. repeat split; auto; try done. intros (_ & _ & [? ?]). done.
Qed.

(** The two probes: a failure of the database never reads like the
    expected "not found" of a working one, so a probe is healthy exactly
    when its read is not hit by a failure. *)
Lemma checkPostgresConnection_healthy w :
  handlers.hs_Healthy (handlers.checkPostgresConnection w).1
  = bool_decide (nth_fault 0 (pg_faults w) = None)
  ∧ (handlers.checkPostgresConnection w).2
    = pg_entered (CallGetAccountByID "health_check_non_existent") w.
Proof.
  unfold handlers.checkPostgresConnection,
    services.AccountService.GetAccountByID.
  cbn [String.eqb Ascii.eqb Bool.eqb].
  rewrite GetAccountByID_eq. cbv zeta.
  destruct (nth_fault 0 (pg_faults w)) as [f|]; [done|].
  by destruct (accounts w !! _).
Qed.

Lemma checkMongoConnection_healthy w :
  handlers.hs_Healthy (handlers.checkMongoConnection w).1
  = bool_decide (nth_fault 0 (mongo_faults w) = None)
  ∧ (handlers.checkMongoConnection w).2
    = mongo_entered (CallGetTransactionByID "health_check_non_existent") w.
Proof.
  unfold handlers.checkMongoConnection, services.GetTransactionByID.
  cbn [String.eqb Ascii.eqb Bool.eqb].
  rewrite GetTransactionByID_eq. cbv zeta.
  destruct (nth_fault 0 (mongo_faults w)) as [e|]; [done|].
  by destruct (storage.find_one _ (ledger w)).
Qed.

(** X24.  GET /ready answers 200 exactly when neither the read of the account
    table nor the read of the collection is hit by a failure, whatever the
    two hold and whatever the state of the queue connection: a lost or
    missing queue connection never makes the service not ready.  In every
    other case it answers 503.  The check changes no data. *)
Theorem ReadyCheck_status rabbitMQ w :
  let out := handlers.ReadyCheck rabbitMQ w in
  (handlers.reply_code out.1 = 200 ↔
     nth_fault 0 (pg_faults w) = None ∧ nth_fault 0 (mongo_faults w) = None)
  ∧ (handlers.reply_code out.1 = 200 ∨ handlers.reply_code out.1 = 503)
  ∧ accounts out.2 = accounts w
  ∧ ledger out.2 = ledger w
  ∧ published out.2 = published w.
Proof.
  intros out. subst out. unfold handlers.ReadyCheck.
  destruct (checkPostgresConnection_healthy w) as [Hp Hw1].
  destruct (handlers.checkPostgresConnection w) as [postgresStatus w1].
  cbn [fst snd] in Hp, Hw1.
  destruct (checkMongoConnection_healthy w1) as [Hm Hw2].
  destruct (handlers.checkMongoConnection w1) as [mongoStatus w2].
  cbn [fst snd] in Hm, Hw2. rewrite Hp, Hm. subst w2 w1. world_simpl.
  destruct (nth_fault 0 (pg_faults w)) as [f|],
    (nth_fault 0 (mongo_faults w)) as [e|];
    cbn [bool_decide decide_rel handlers.reply_code fst snd];
    repeat split; auto; try done; try (by intros [? ?]).
Qed.

(** ** The history of an account *)

Lemma wrap_int_small z : - 2 ^ 63 ≤ z < 2 ^ 63 → storage.wrap_int z = z.
Proof. intros Hz. unfold storage.wrap_int. rewrite Z.mod_small; lia. Qed.

#[local] Instance newest_first_total : Total storage.newest_first.
Proof. intros a b. unfold storage.newest_first. lia. Qed.

#[local] Instance newest_first_transitive : Transitive storage.newest_first.
Proof. intros a b c. unfold storage.newest_first. lia. Qed.

(** The history holds exactly the records of the account, each as often as
    the collection does, and is sorted by timestamp, newest first. *)
Lemma history_of_spec accountID w :
  history_of accountID w
  ≡ₚ filter (λ t, txn_AccountID t = accountID) (ledger w)
  ∧ StronglySorted storage.newest_first (history_of accountID w).
Proof.
  split; [apply merge_sort_Permutation|apply StronglySorted_merge_sort; apply _].
Qed.

Lemma StronglySorted_window {A} (R : relation A) n k (l : list A) :
  StronglySorted R l → StronglySorted R (take n (drop k l)).
Proof.
  intros Hs.
  rewrite <- (take_drop k l) in Hs. apply StronglySorted_app_1_r in Hs.
  rewrite <- (take_drop n (drop k l)) in Hs.
  by apply StronglySorted_app_1_l in Hs.
Qed.

Lemma StronglySorted_lookup_lt {A} (R : relation A) (l : list A) i j x y :
  StronglySorted R l →
  l !! i = Some x → l !! j = Some y → (i < j)%nat → R x y.
Proof.
  intros Hs. revert i j. induction Hs as [|z l Hs IH Hall]; intros i j; [done|].
  destruct i as [|i], j as [|j]; simpl; try lia.
  - intros [= <-] Hy _. rewrite Forall_forall in Hall. apply Hall.
    by eapply list_elem_of_lookup_2.
  - intros Hx Hy Hlt. apply (IH i j); [done|done|lia].
Qed.

Lemma applied_limit_range limit : 1 ≤ applied_limit limit ≤ 100.
Proof. unfold applied_limit. repeat case_match; lia. Qed.

Section history_properties.

Variable skip_refused : error.

(** A healthy read of a page: the window of the history it returns. *)
Lemma GetTransactionsByAccountID_window accountID page limit w :
  nth_fault 0 (mongo_faults w) = None →
  nth_fault 1 (mongo_faults w) = None →
  nth_fault 2 (mongo_faults w) = None →
  1 ≤ page < 2 ^ 56 →
  1 ≤ limit ≤ 100 →
  storage.GetTransactionsByAccountID skip_refused accountID page limit w
  = (Ok (take (Z.to_nat limit)
           (drop (Z.to_nat ((page - 1) * limit)) (history_of accountID w)),
         Z.of_nat
           (length (filter (λ t, txn_AccountID t = accountID) (ledger w)))),
     set_mongo_faults w (tl (tl (tl (mongo_faults w))))).
Proof.
  intros H0 H1 H2 Hpage Hlimit. unfold storage.GetTransactionsByAccountID.
  cbv zeta. rewrite pop_mongo_fault_eq, H0. rewrite pop_mongo_fault_eq.
  world_simpl. rewrite nth_fault_tl, H1.
  rewrite (wrap_int_small (page - 1)) by lia.
  rewrite (wrap_int_small ((page - 1) * limit)) by nia.
  destruct (Z.ltb_spec ((page - 1) * limit) 0) as [Hneg|_]; [nia|].
  rewrite pop_mongo_fault_eq. world_simpl. rewrite !nth_fault_tl, H2.
  destruct (Z.eqb_spec limit 0) as [|_]; [lia|].
  rewrite Z.abs_eq by lia. done.
Qed.

Lemma GetTransactionHistory_window accountID page limit a w :
  accountID ≠ EmptyString →
  accounts w !! accountID = Some a →
  nth_fault 0 (pg_faults w) = None →
  nth_fault 0 (mongo_faults w) = None →
  nth_fault 1 (mongo_faults w) = None →
  nth_fault 2 (mongo_faults w) = None →
  page < 2 ^ 56 →
  let page' := if page <=? 0 then 1 else page in
  let out := services.GetTransactionHistory skip_refused accountID page limit w in
  out.1
  = Ok (take (Z.to_nat (applied_limit limit))
          (drop (Z.to_nat ((page' - 1) * applied_limit limit))
             (history_of accountID w)),
        Z.of_nat
          (length (filter (λ t, txn_AccountID t = accountID) (ledger w))))
  ∧ accounts out.2 = accounts w
  ∧ ledger out.2 = ledger w
  ∧ published out.2 = published w.
Proof.
  intros Hid Ha Hp H0 H1 H2 Hpage page' out. subst out.
  unfold services.GetTransactionHistory.
  rewrite (proj2 (String.eqb_neq _ _) Hid).
  rewrite GetAccountByID_eq. cbv zeta. rewrite Hp, Ha.
  pose proof (applied_limit_range limit) as Hrange.
  change (if 100 <? (if limit <=? 0 then 10 else limit) then 100
          else if limit <=? 0 then 10 else limit)
    with (if 100 <? (if limit <=? 0 then 10 else limit) then 100
          else (if limit <=? 0 then 10 else limit)).
  assert ((if 100 <? (if limit <=? 0 then 10 else limit) then 100
           else (if limit <=? 0 then 10 else limit)) = applied_limit limit)
    as ->.
  { unfold applied_limit. repeat case_match; lia. }
  fold page'.
  rewrite GetTransactionsByAccountID_window;
    [done|done|done|done|subst page'; case_match; lia|done].
Qed.

(** X25.  GET /accounts/:id/transactions on an existing account and healthy
    stores answers 200.  The page holds at most 100 records, however many
    are asked for, and at most 10 when no limit is asked for; all are
    records of the account held by the collection, sorted by timestamp,
    newest first.  The pagination object gives the page and the limit as
    asked for (after the defaults of the handler, not the limit applied)
    and, as total, the number of records of the account.  Nothing is
    changed. *)
Theorem GetTransactions_page accountID page limit a w :
  accountID ≠ EmptyString →
  accounts w !! accountID = Some a →
  nth_fault 0 (pg_faults w) = None →
  nth_fault 0 (mongo_faults w) = None →
  nth_fault 1 (mongo_faults w) = None →
  nth_fault 2 (mongo_faults w) = None →
  page < 2 ^ 56 →
  let out := handlers.GetTransactions skip_refused accountID page limit w in
  ∃ l,
    out.1
    = handlers.mkReply 200
        [("transactions", handlers.VTransactions l);
         ("pagination",
          handlers.VObject
            [("page", handlers.VInt (if page =? 0 then 1 else page));
             ("limit", handlers.VInt (if limit =? 0 then 10 else limit));
             ("total",
              handlers.VInt
                (Z.of_nat
                   (length
                      (filter (λ t, txn_AccountID t = accountID)
                         (ledger w)))))])]
    ∧ Z.of_nat (length l) ≤ applied_limit limit
    ∧ (∀ t, t ∈ l → t ∈ ledger w ∧ txn_AccountID t = accountID)
    ∧ StronglySorted storage.newest_first l
    ∧ accounts out.2 = accounts w
    ∧ ledger out.2 = ledger w
    ∧ published out.2 = published w.
Proof.
  intros Hid Ha Hp H0 H1 H2 Hpage out. subst out.
  unfold handlers.GetTransactions.
  destruct (GetTransactionHistory_window accountID
              (if page =? 0 then 1 else page)
              (if limit =? 0 then 10 else limit) a w)
    as (Hret & Hacc & Hledger & Hpub); try done.
  { case_match; lia. }
  destruct (services.GetTransactionHistory _ _ _ _ _) as [r w1].
  cbn [fst snd] in *. subst r.
  assert (applied_limit (if limit =? 0 then 10 else limit)
          = applied_limit limit) as Hsame.
  { unfold applied_limit. repeat case_match; lia. }
  rewrite Hsame. eexists. split; [reflexivity|].
  pose proof (applied_limit_range limit) as Hrange.
  destruct (history_of_spec accountID w) as [Hperm Hsorted].
  split; [rewrite length_take; lia|]. split.
  { intros t Ht. apply subseteq_take, subseteq_drop in Ht.
    rewrite Hperm in Ht. apply list_elem_of_filter in Ht. tauto. }
  split; [by apply StronglySorted_window|done].
Qed.

(** X26.  When the account of the history cannot be read, because it does not
    exist or because the database fails, the answer is 404
    "Account not found" and nothing is changed. *)
Theorem GetTransactions_account_unreadable accountID page limit w :
  accountID ≠ EmptyString →
  nth_fault 0 (pg_faults w) ≠ None ∨ accounts w !! accountID = None →
  let out := handlers.GetTransactions skip_refused accountID page limit w in
  handlers.reply_code out.1 = 404
  ∧ In ("error", handlers.VString "Account not found")
      (handlers.reply_body out.1)
  ∧ accounts out.2 = accounts w
  ∧ ledger out.2 = ledger w
  ∧ published out.2 = published w.
Proof.
  intros Hid Hbad out. subst out.
  unfold handlers.GetTransactions, services.GetTransactionHistory.
  rewrite (proj2 (String.eqb_neq _ _) Hid).
  rewrite GetAccountByID_eq. cbv zeta.
  destruct (nth_fault 0 (pg_faults w)) as [f|].
  - cbn [Error]. rewrite Contains_app_l by done. simpl. auto.
  - destruct Hbad as [Hbad|Hbad]; [done|]. rewrite Hbad. simpl. auto.
Qed.

(** X27.  Pages follow each other in time: with the same limit, every record of
    a later page is no newer than every record of an earlier page. *)
Theorem GetTransactionHistory_pages_ordered accountID page page' limit a w :
  accountID ≠ EmptyString →
  accounts w !! accountID = Some a →
  nth_fault 0 (pg_faults w) = None →
  nth_fault 0 (mongo_faults w) = None →
  nth_fault 1 (mongo_faults w) = None →
  nth_fault 2 (mongo_faults w) = None →
  1 ≤ page < page' →
  page' < 2 ^ 56 →
  ∃ l l' total,
    (services.GetTransactionHistory skip_refused accountID page limit w).1
    = Ok (l, total)
    ∧ (services.GetTransactionHistory skip_refused accountID page' limit w).1
      = Ok (l', total)
    ∧ ∀ t t', t ∈ l → t' ∈ l' → txn_Timestamp t' ≤ txn_Timestamp t.
Proof.
  intros Hid Ha Hp H0 H1 H2 Hpage Hpage'.
  destruct (GetTransactionHistory_window accountID page limit a w)
    as (Hret & _); try done; [lia|].
  destruct (GetTransactionHistory_window accountID page' limit a w)
    as (Hret' & _); try done.
  rewrite Hret, Hret'. eexists _, _, _. split; [reflexivity|].
  split; [reflexivity|].
  pose proof (applied_limit_range limit) as Hrange.
  destruct (history_of_spec accountID w) as [_ Hsorted].
  destruct (Z.leb_spec page 0) as [|_]; [lia|].
  destruct (Z.leb_spec page' 0) as [|_]; [lia|].
  intros t t' (i & Hi & Hlt)%elem_of_take (j & Hj & _)%elem_of_take.
  rewrite lookup_drop in Hi, Hj.
  eapply (StronglySorted_lookup_lt _ _ _ _ _ _ Hsorted Hi Hj).
  assert (Z.of_nat (Z.to_nat ((page - 1) * applied_limit limit) + i)
          < Z.of_nat (Z.to_nat ((page' - 1) * applied_limit limit) + j)); [|lia].
  rewrite !Nat2Z.inj_add, !Z2Nat.id by nia. nia.
Qed.

End history_properties.

(** ** Package config: reading integers *)

Lemma parseInt_digit (d : N) :
  (d < 10)%N →
  (("0" <=? pretty_N_char d)%char && (pretty_N_char d <=? "9")%char)%bool = true
  ∧ Z.of_N (N_of_ascii (pretty_N_char d)) - Z.of_N (N_of_ascii "0") = Z.of_N d.
Proof.
  intros Hd.
  assert (d = 0 ∨ d = 1 ∨ d = 2 ∨ d = 3 ∨ d = 4 ∨ d = 5 ∨ d = 6 ∨ d = 7
          ∨ d = 8 ∨ d = 9)%N as Hcases by lia.
  by repeat destruct Hcases as [->|Hcases]; [..|subst d].
Qed.

(** Reading the digits of [x] first multiplies what was read before. *)
Lemma parseInt_from_pretty (x : N) (s : string) :
  Z.of_N x < 2 ^ 63 →
  config.parseInt_from 0 (pretty_N_go x s) = config.parseInt_from (Z.of_N x) s.
Proof.
  revert s. induction (N.lt_wf_0 x) as [x _ IH]; intros s Hx.
  destruct (decide (x = 0%N)) as [->|Hpos]; [by rewrite pretty_N_go_0|].
  rewrite pretty_N_go_step by lia.
  assert (x `div` 10 < x)%N as Hlt by (apply N.div_lt; lia).
  rewrite IH by (done || lia).
  destruct (parseInt_digit (x `mod` 10)%N) as [Hdigit Hval];
    [apply N.mod_lt; lia|].
  cbn [config.parseInt_from]. rewrite Hdigit, Hval.
  pose proof (N.div_mod x 10 ltac:(lia)) as Hdm.
  pose proof (N.mod_lt x 10 ltac:(lia)) as Hm.
  apply (f_equal Z.of_N) in Hdm. rewrite N2Z.inj_add, N2Z.inj_mul in Hdm.
  apply N2Z.inj_lt in Hm.
  pose proof (N2Z.is_nonneg (x `div` 10)) as Hq0.
  pose proof (N2Z.is_nonneg (x `mod` 10)) as Hr0.
  revert Hdm Hm Hq0 Hr0.
  generalize (Z.of_N (x `div` 10)) (Z.of_N (x `mod` 10)). intros q r Hdm Hm Hq0 Hr0.
  change (Z.of_N 10) with 10 in *.
  assert (2 ^ 63 = 9223372036854775808) as Hpow by done.
  rewrite (wrap_int_small (q * 10)) by lia.
  rewrite wrap_int_small by lia. f_equal. lia.
Qed.

(** X28.  The decimal text of an integer of the range of Go's int that is not
    negative is read back as that integer. *)
Theorem parseInt_reads_decimal (n : N) :
  Z.of_N n < 2 ^ 63 →
  config.parseInt (pretty n) = Z.of_N n.
Proof.
  intros Hn. unfold config.parseInt, pretty, pretty_N.
  destruct (decide (n = 0%N)) as [->|Hpos]; [done|].
  by rewrite parseInt_from_pretty.
Qed.

Lemma parseInt_from_not_digit acc s c :
  c ∈ String.list_ascii_of_string s →
  (("0" <=? c)%char && (c <=? "9")%char)%bool = false →
  config.parseInt_from acc s = 0.
Proof.
  revert acc. induction s as [|b s IH]; intros acc Hin Hc;
    cbn [String.list_ascii_of_string] in Hin.
  - by apply elem_of_nil in Hin.
  - cbn [config.parseInt_from].
    destruct ((("0" <=? b)%char && (b <=? "9")%char)%bool) eqn:Hb; [|done].
    apply elem_of_cons in Hin as [->|Hin]; [congruence|]. by apply IH.
Qed.

(** X29.  An integer setting is its default unless the variable is set to a text
    of digits only whose value is positive: a text with any other
    character, a sign or a blank included, gives the default, and so does a
    variable that is not set.  The value of a setting is never zero or
    negative unless the default is. *)
Theorem getEnvInt_default env key defaultVal :
  (env !! key = None → config.getEnvInt env key defaultVal = defaultVal)
  ∧ (∀ value c,
       env !! key = Some value →
       c ∈ String.list_ascii_of_string value →
       (("0" <=? c)%char && (c <=? "9")%char)%bool = false →
       config.getEnvInt env key defaultVal = defaultVal)
  ∧ (config.getEnvInt env key defaultVal = defaultVal
     ∨ 0 < config.getEnvInt env key defaultVal).
Proof.
  unfold config.getEnvInt. split; [by intros ->|]. split.
  - intros value c -> Hin Hc. cbv zeta. unfold config.parseInt.
    by rewrite (parseInt_from_not_digit 0 value c).
  - destruct (env !! key) as [value|]; [|by left]. cbv zeta.
    destruct (Z.ltb_spec 0 (config.parseInt value)); auto.
Qed.

(** ** Package middleware: the identifiers let through *)

Lemma HasPrefix_spec s p : HasPrefix s p = true ↔ ∃ rest, s = p +:+ rest.
Proof.
  revert s. induction p as [|a p IH]; intros s; cbn [HasPrefix].
  - split; [by exists s|done].
  - destruct s as [|b s].
    + split; [done|]. by intros [rest Hrest].
    + rewrite andb_true_iff, IH. split.
      * intros [Hab [rest ->]]. apply Ascii.eqb_eq in Hab as ->. by exists rest.
      * intros [rest Hrest]. injection Hrest as -> ->.
        split; [apply Ascii.eqb_refl|by exists rest].
Qed.

(** X30.  The two checks of identifiers let through exactly the texts that start
    with "acc_" and with "txn_"; the test for an empty identifier changes
    only the message.  So the identifiers the service generates are let
    through, each by the check of its own kind and by that one only. *)
Theorem generated_identifiers_pass accountID transactionID w :
  (middleware.ValidateAccountID accountID = None ↔
     ∃ rest, accountID = "acc_" +:+ rest)
  ∧ (middleware.ValidateTransactionID transactionID = None ↔
       ∃ rest, transactionID = "txn_" +:+ rest)
  ∧ middleware.ValidateAccountID (NewAccountID w).1 = None
  ∧ middleware.ValidateTransactionID (NewTransactionID w).1 = None
  ∧ middleware.ValidateAccountID (NewTransactionID w).1 ≠ None
  ∧ middleware.ValidateTransactionID (NewAccountID w).1 ≠ None.
Proof.
  assert (∀ id, middleware.ValidateAccountID id = None
                ↔ HasPrefix id "acc_" = true) as Hacc.
  { intros id. unfold middleware.ValidateAccountID.
    destruct id as [|b id]; [done|]. cbn [String.eqb].
    by destruct (HasPrefix _ _). }
  assert (∀ id, middleware.ValidateTransactionID id = None
                ↔ HasPrefix id "txn_" = true) as Htxn.
  { intros id. unfold middleware.ValidateTransactionID.
    destruct id as [|b id]; [done|]. cbn [String.eqb].
    by destruct (HasPrefix _ _). }
  split; [by rewrite Hacc, HasPrefix_spec|].
  split; [by rewrite Htxn, HasPrefix_spec|].
  rewrite !Hacc, !Htxn. done.
Qed.

(** ** The further properties at the scenarios *)

Lemma UpdateBalance_then_read_witness :
  nth_fault 0 (pg_faults bank) = None
  ∧ nth_fault 1 (pg_faults bank) = None
  ∧ (storage.UpdateBalance "acc_1" 12345 bank).1 = Ok tt
  ∧ (storage.GetAccountByID "acc_1"
       (storage.UpdateBalance "acc_1" 12345 bank).2).1
    = Ok (mkAccount "acc_1" "Ann" 12345 0 100).
Proof.
  assert (H0 : nth_fault 0 (pg_faults bank) = None) by reflexivity.
  assert (H1 : nth_fault 1 (pg_faults bank) = None) by reflexivity.
  split; [exact H0|]. split; [exact H1|].
  exact (UpdateBalance_then_read "acc_1" 12345 bank H0 H1).
Defined.

Lemma CreateAccount_rejects_witness :
  car_InitialBalance (mkCreateAccountRequest "Bob" (-1)) < 0
  ∧ (services.AccountService.CreateAccount (mkCreateAccountRequest "Bob" (-1))
       bank).2
    = bank.
Proof.
  assert (Hneg : car_InitialBalance (mkCreateAccountRequest "Bob" (-1)) < 0)
    by (simpl; lia).
  split; [exact Hneg|].
  destruct (CreateAccount_rejects (mkCreateAccountRequest "Bob" (-1)) bank
              (or_intror Hneg)) as (err & Hrun & _).
  exact (f_equal snd Hrun).
Defined.

Lemma CreateAccount_then_balance_witness :
  car_OwnerName (mkCreateAccountRequest "Bob" 2500) ≠ EmptyString
  ∧ 0 ≤ car_InitialBalance (mkCreateAccountRequest "Bob" 2500)
  ∧ accounts bank !! ("acc_" +:+ pretty (uuids bank)) = None
  ∧ ∃ a,
      (services.AccountService.CreateAccount (mkCreateAccountRequest "Bob" 2500)
         bank).1 = Ok a
      ∧ acc_ID a = "acc_0"
      ∧ (services.AccountService.GetAccountBalance (acc_ID a)
           (services.AccountService.CreateAccount
              (mkCreateAccountRequest "Bob" 2500) bank).2).1
        = Ok 2500.
Proof.
  assert (Ho : car_OwnerName (mkCreateAccountRequest "Bob" 2500) ≠ EmptyString)
    by discriminate.
  assert (Hb : 0 ≤ car_InitialBalance (mkCreateAccountRequest "Bob" 2500))
    by (simpl; lia).
  assert (H0 : nth_fault 0 (pg_faults bank) = None) by reflexivity.
  assert (H1 : nth_fault 1 (pg_faults bank) = None) by reflexivity.
  assert (Hfresh : accounts bank !! ("acc_" +:+ pretty (uuids bank)) = None)
    by (vm_compute; reflexivity).
  split; [exact Ho|]. split; [exact Hb|]. split; [exact Hfresh|].
  destruct (CreateAccount_then_balance (mkCreateAccountRequest "Bob" 2500) bank
              Ho Hb H0 H1 Hfresh) as (a & Hrun & Hid & _ & _ & Hread & _).
  exists a. split; [exact Hrun|]. split; [exact Hid|exact Hread].
Defined.

Lemma CreateTransaction_then_read_witness :
  txn_TransactionID pending_deposit ≠ EmptyString
  ∧ storage.find_one (txn_TransactionID pending_deposit) (ledger bank) = None
  ∧ (storage.CreateTransaction pending_deposit bank).1 = Ok tt
  ∧ (services.GetTransactionByID "txn_1"
       (storage.CreateTransaction pending_deposit bank).2).1
    = Ok pending_deposit.
Proof.
  assert (Hid : txn_TransactionID pending_deposit ≠ EmptyString)
    by discriminate.
  assert (Hfresh : storage.find_one (txn_TransactionID pending_deposit)
                     (ledger bank) = None) by reflexivity.
  assert (H0 : nth_fault 0 (mongo_faults bank) = None) by reflexivity.
  assert (H1 : nth_fault 1 (mongo_faults bank) = None) by reflexivity.
  split; [exact Hid|]. split; [exact Hfresh|].
  destruct (CreateTransaction_then_read pending_deposit bank Hid Hfresh H0 H1)
    as (Hrun & Hread & _).
  split; [exact Hrun|exact Hread].
Defined.

Lemma UpdateTransactionStatusWithError_effect_witness :
  nth_fault 0 (mongo_faults bank_pending) = None
  ∧ (storage.UpdateTransactionStatusWithError "txn_1" "failed"
       "Queue system unavailable" bank_pending).1
    = Ok tt
  ∧ storage.find_one "txn_1"
      (ledger
         (storage.UpdateTransactionStatusWithError "txn_1" "failed"
            "Queue system unavailable" bank_pending).2)
    = Some (mkTransaction "txn_1" "txn_1" "acc_1" "deposit" 15000 50000 0
              "salary" 90 "failed" "Queue system unavailable").
Proof.
  assert (H0 : nth_fault 0 (mongo_faults bank_pending) = None) by reflexivity.
  split; [exact H0|].
  pose proof (UpdateTransactionStatusWithError_effect "txn_1" "failed"
                "Queue system unavailable" bank_pending H0) as Heff.
  exact (conj (proj1 Heff) (proj1 (proj2 Heff))).
Defined.

Lemma ProcessTransaction_success_witness :
  services.validateTransactionRequest deposit_100 = None
  ∧ balance_of "acc_1" bank = Some 50000
  ∧ ∃ t,
      (services.ProcessTransaction "acc_1" deposit_100 bank).1 = Ok t
      ∧ txn_NewBalance t = 50000 + 10000
      ∧ ledger (services.ProcessTransaction "acc_1" deposit_100 bank).2 = [t].
Proof.
  assert (Hval : services.validateTransactionRequest deposit_100 = None)
    by reflexivity.
  assert (Hb : balance_of "acc_1" bank = Some 50000)
    by (vm_compute; reflexivity).
  assert (Henough : req_Type deposit_100 = "withdraw" →
                    req_Amount deposit_100 ≤ 50000)
    by (intros Hk; discriminate Hk).
  assert (Hpg : nth_fault 0 (pg_faults bank) = None) by reflexivity.
  assert (Hmongo : nth_fault 0 (mongo_faults bank) = None) by reflexivity.
  split; [exact Hval|]. split; [exact Hb|].
  destruct (ProcessTransaction_success "acc_1" deposit_100 50000 bank Hval Hb
              Henough Hpg Hmongo)
    as (t & Hrun & _ & _ & _ & _ & Hd & _ & _ & _ & Hledger & _).
  exists t. split; [exact Hrun|]. split; [exact (Hd eq_refl)|exact Hledger].
Defined.

Lemma ProcessTransactionAsync_success_witness :
  storage.find_one "txn_1" (ledger bank_pending) = Some pending_deposit
  ∧ services.validateTransactionRequest deposit_150 = None
  ∧ balance_of (txn_AccountID pending_deposit) bank_pending = Some 50000
  ∧ ∃ n,
      n = 50000 + 15000
      ∧ (services.ProcessTransactionAsync "txn_1" deposit_150 bank_pending).1
        = Ok (storage.set_result 50000 n "completed" EmptyString
                pending_deposit)
      ∧ balance_of "acc_1"
          (services.ProcessTransactionAsync "txn_1" deposit_150 bank_pending).2
        = Some n.
Proof.
  assert (Hid : "txn_1" ≠ EmptyString) by discriminate.
  assert (Hfind : storage.find_one "txn_1" (ledger bank_pending)
                  = Some pending_deposit) by reflexivity.
  assert (Hpending : txn_Status pending_deposit = "pending") by reflexivity.
  assert (Hval : services.validateTransactionRequest deposit_150 = None)
    by reflexivity.
  assert (Hb : balance_of (txn_AccountID pending_deposit) bank_pending
               = Some 50000) by (vm_compute; reflexivity).
  assert (Henough : req_Type deposit_150 = "withdraw" →
                    req_Amount deposit_150 ≤ 50000)
    by (intros Hk; discriminate Hk).
  assert (Hpg : nth_fault 0 (pg_faults bank_pending) = None) by reflexivity.
  assert (Hm0 : nth_fault 0 (mongo_faults bank_pending) = None) by reflexivity.
  assert (Hm1 : nth_fault 1 (mongo_faults bank_pending) = None) by reflexivity.
  split; [exact Hfind|]. split; [exact Hval|]. split; [exact Hb|].
  destruct (ProcessTransactionAsync_success "txn_1" deposit_150 pending_deposit
              50000 bank_pending Hid Hfind Hpending Hval Hb Henough Hpg Hm0
              Hm1)
    as (n & Hd & _ & Hrun & _ & _ & Hbal & _).
  exists n. split; [exact (Hd eq_refl)|]. split; [exact Hrun|exact Hbal].
Defined.

Lemma ProcessTransactionAsync_redelivery_witness :
  storage.find_one "txn_1" (ledger bank_pending) = Some pending_deposit
  ∧ services.validateTransactionRequest deposit_150 = None
  ∧ (services.ProcessTransactionAsync "txn_1" deposit_150
       (services.ProcessTransactionAsync "txn_1" deposit_150 bank_pending).2).1
    = Err (errorString "transaction is not in pending state: completed")
  ∧ accounts
      (services.ProcessTransactionAsync "txn_1" deposit_150
         (services.ProcessTransactionAsync "txn_1" deposit_150 bank_pending).2).2
    = accounts
        (services.ProcessTransactionAsync "txn_1" deposit_150 bank_pending).2.
Proof.
  assert (Hid : "txn_1" ≠ EmptyString) by discriminate.
  assert (Hfind : storage.find_one "txn_1" (ledger bank_pending)
                  = Some pending_deposit) by reflexivity.
  assert (Hpending : txn_Status pending_deposit = "pending") by reflexivity.
  assert (Hval : services.validateTransactionRequest deposit_150 = None)
    by reflexivity.
  assert (Hb : balance_of (txn_AccountID pending_deposit) bank_pending
               = Some 50000) by (vm_compute; reflexivity).
  assert (Henough : req_Type deposit_150 = "withdraw" →
                    req_Amount deposit_150 ≤ 50000)
    by (intros Hk; discriminate Hk).
  assert (Hpg : nth_fault 0 (pg_faults bank_pending) = None) by reflexivity.
  assert (Hm0 : nth_fault 0 (mongo_faults bank_pending) = None) by reflexivity.
  assert (Hm1 : nth_fault 1 (mongo_faults bank_pending) = None) by reflexivity.
  assert (Hm2 : nth_fault 2 (mongo_faults bank_pending) = None) by reflexivity.
  split; [exact Hfind|]. split; [exact Hval|].
  destruct (ProcessTransactionAsync_redelivery "txn_1" deposit_150 deposit_150
              pending_deposit 50000 bank_pending Hid Hfind Hpending Hval Hb
              Henough Hpg Hm0 Hm1 Hm2)
    as (Hrun & Hacc & _).
  split; [exact Hrun|exact Hacc].
Defined.

Lemma ProcessTransactionAsync_balance_failure_witness :
  storage.find_one "txn_2" (ledger bank_overdrawn) = Some pending_withdrawal
  ∧ services.validateTransactionRequest withdraw_600 = None
  ∧ (storage.AtomicBalanceUpdate (txn_AccountID pending_withdrawal)
       (req_Type withdraw_600) (req_Amount withdraw_600)
       (mongo_entered (CallGetTransactionByID "txn_2") bank_overdrawn)).1
    = Err insufficient_500_600
  ∧ (services.ProcessTransactionAsync "txn_2" withdraw_600 bank_overdrawn).1
    = Err (wrapError "failed to update balance: " insufficient_500_600)
  ∧ accounts
      (services.ProcessTransactionAsync "txn_2" withdraw_600 bank_overdrawn).2
    = accounts bank_overdrawn.
Proof.
  assert (Hid : "txn_2" ≠ EmptyString) by discriminate.
  assert (Hfind : storage.find_one "txn_2" (ledger bank_overdrawn)
                  = Some pending_withdrawal) by reflexivity.
  assert (Hpending : txn_Status pending_withdrawal = "pending") by reflexivity.
  assert (Hval : services.validateTransactionRequest withdraw_600 = None)
    by reflexivity.
  assert (Hm0 : nth_fault 0 (mongo_faults bank_overdrawn) = None)
    by reflexivity.
  assert (Hm1 : nth_fault 1 (mongo_faults bank_overdrawn) = None)
    by reflexivity.
  assert (Habu :
    (storage.AtomicBalanceUpdate (txn_AccountID pending_withdrawal)
       (req_Type withdraw_600) (req_Amount withdraw_600)
       (mongo_entered (CallGetTransactionByID "txn_2") bank_overdrawn)).1
    = Err insufficient_500_600) by (vm_compute; reflexivity).
  split; [exact Hfind|]. split; [exact Hval|]. split; [exact Habu|].
  destruct (ProcessTransactionAsync_balance_failure "txn_2" withdraw_600
              pending_withdrawal insufficient_500_600 bank_overdrawn Hid Hfind
              Hpending Hval Hm0 Hm1 Habu)
    as (Hrun & _ & _ & Hacc).
  split; [exact Hrun|exact Hacc].
Defined.

Lemma ProcessTransactionAsync_compensates_witness :
  storage.find_one "txn_1" (ledger bank_update_down) = Some pending_deposit
  ∧ services.validateTransactionRequest deposit_150 = None
  ∧ balance_of (txn_AccountID pending_deposit) bank_update_down = Some 50000
  ∧ nth_fault 1 (mongo_faults bank_update_down)
    = Some (errorString "database error")
  ∧ (∃ w2 w3,
       balance_of "acc_1" w2 = Some (50000 + 15000)
       ∧ storage.AtomicBalanceUpdate "acc_1" "withdraw" 15000 w2
         = (Ok (50000 + 15000, 50000), w3)
       ∧ (services.ProcessTransactionAsync "txn_1" deposit_150
            bank_update_down).2
         = (services.UpdateTransactionStatusWithError "txn_1" "failed"
              "Failed to update transaction record" w3).2)
  ∧ (services.ProcessTransactionAsync "txn_1" deposit_150 bank_update_down).1
    = Err (wrapError "failed to update transaction: "
             (wrapError "failed to update transaction: "
                (errorString "database error")))
  ∧ balance_of (txn_AccountID pending_deposit)
      (services.ProcessTransactionAsync "txn_1" deposit_150 bank_update_down).2
    = Some 50000.
Proof.
  assert (Hid : "txn_1" ≠ EmptyString) by discriminate.
  assert (Hfind : storage.find_one "txn_1" (ledger bank_update_down)
                  = Some pending_deposit) by reflexivity.
  assert (Hpending : txn_Status pending_deposit = "pending") by reflexivity.
  assert (Hval : services.validateTransactionRequest deposit_150 = None)
    by reflexivity.
  assert (Hb : balance_of (txn_AccountID pending_deposit) bank_update_down
               = Some 50000) by (vm_compute; reflexivity).
  assert (Hpos : 0 ≤ 50000) by lia.
  assert (Henough : req_Type deposit_150 = "withdraw" →
                    req_Amount deposit_150 ≤ 50000)
    by (intros Hk; discriminate Hk).
  assert (Hp0 : nth_fault 0 (pg_faults bank_update_down) = None)
    by reflexivity.
  assert (Hp1 : nth_fault 1 (pg_faults bank_update_down) = None)
    by reflexivity.
  assert (Hm0 : nth_fault 0 (mongo_faults bank_update_down) = None)
    by reflexivity.
  assert (Hm1 : nth_fault 1 (mongo_faults bank_update_down)
                = Some (errorString "database error")) by reflexivity.
  assert (Hm2 : nth_fault 2 (mongo_faults bank_update_down) = None)
    by reflexivity.
  split; [exact Hfind|]. split; [exact Hval|]. split; [exact Hb|].
  split; [exact Hm1|].
  destruct (ProcessTransactionAsync_compensates "txn_1" deposit_150
              pending_deposit 50000 (errorString "database error")
              bank_update_down Hid Hfind Hpending Hval Hb Hpos Henough Hp0 Hp1
              Hm0 Hm1 Hm2)
    as (n & w1 & w2 & w3 & _ & Hd & _ & _ & _ & _ & Hbal2 & _ & Hcomp & _
        & Hend & Hrun & _ & _ & Hbal & _).
  assert (Hn : n = 50000 + 15000) by exact (Hd eq_refl).
  split.
  { exists w2, w3. rewrite <- Hn. split; [exact Hbal2|].
    split; [exact Hcomp|exact Hend]. }
  split; [exact Hrun|exact Hbal].
Defined.

Lemma ProcessTransactionAsync_invalid_request_witness :
  storage.find_one "txn_1" (ledger bank_pending) = Some pending_deposit
  ∧ ¬ (req_Type transfer_150 = "deposit" ∨ req_Type transfer_150 = "withdraw")
  ∧ ∃ verr,
      (services.ProcessTransactionAsync "txn_1" transfer_150 bank_pending).1
      = Err verr
      ∧ accounts
          (services.ProcessTransactionAsync "txn_1" transfer_150 bank_pending).2
        = accounts bank_pending.
Proof.
  assert (Hid : "txn_1" ≠ EmptyString) by discriminate.
  assert (Hfind : storage.find_one "txn_1" (ledger bank_pending)
                  = Some pending_deposit) by reflexivity.
  assert (Hpending : txn_Status pending_deposit = "pending") by reflexivity.
  assert (Hkind : ¬ (req_Type transfer_150 = "deposit"
                     ∨ req_Type transfer_150 = "withdraw"))
    by (intros [Hk|Hk]; discriminate Hk).
  assert (Hm0 : nth_fault 0 (mongo_faults bank_pending) = None) by reflexivity.
  assert (Hm1 : nth_fault 1 (mongo_faults bank_pending) = None) by reflexivity.
  split; [exact Hfind|]. split; [exact Hkind|].
  destruct (ProcessTransactionAsync_invalid_request "txn_1" transfer_150
              pending_deposit bank_pending Hid Hfind Hpending (or_introl Hkind)
              Hm0 Hm1)
    as (verr & _ & Hrun & _ & Hacc & _).
  exists verr. split; [exact Hrun|exact Hacc].
Defined.

Lemma isBusinessError_wrapped_witness :
  worker.isBusinessError insufficient_500_600 = true
  ∧ worker.isBusinessError
      (wrapError "failed to update balance: " insufficient_500_600) = true.
Proof.
  assert (Hb : worker.isBusinessError insufficient_500_600 = true)
    by (vm_compute; reflexivity).
  split; [exact Hb|].
  exact (isBusinessError_wrapped "failed to update balance: "
           insufficient_500_600 Hb).
Defined.

Lemma processMessage_overdrawn_witness :
  storage.find_one (msg_ID withdrawal_message) (ledger bank_overdrawn)
  = Some pending_withdrawal
  ∧ balance_of (txn_AccountID pending_withdrawal) bank_overdrawn = Some 50000
  ∧ 50000 < msg_Amount withdrawal_message
  ∧ (worker.processMessage (Ok withdrawal_message) bank_overdrawn).1
    = worker.Ack false
  ∧ accounts (worker.processMessage (Ok withdrawal_message) bank_overdrawn).2
    = accounts bank_overdrawn.
Proof.
  assert (Hid : msg_ID withdrawal_message ≠ EmptyString) by discriminate.
  assert (Hfind : storage.find_one (msg_ID withdrawal_message)
                    (ledger bank_overdrawn) = Some pending_withdrawal)
    by reflexivity.
  assert (Hpending : txn_Status pending_withdrawal = "pending") by reflexivity.
  assert (Hkind : msg_Type withdrawal_message = "withdraw") by reflexivity.
  assert (Hamt : 0 < msg_Amount withdrawal_message) by (simpl; lia).
  assert (Hb : balance_of (txn_AccountID pending_withdrawal) bank_overdrawn
               = Some 50000) by (vm_compute; reflexivity).
  assert (Hlt : 50000 < msg_Amount withdrawal_message) by (simpl; lia).
  assert (Hp0 : nth_fault 0 (pg_faults bank_overdrawn) = None) by reflexivity.
  assert (Hm0 : nth_fault 0 (mongo_faults bank_overdrawn) = None)
    by reflexivity.
  assert (Hm1 : nth_fault 1 (mongo_faults bank_overdrawn) = None)
    by reflexivity.
  split; [exact Hfind|]. split; [exact Hb|]. split; [exact Hlt|].
  destruct (processMessage_overdrawn withdrawal_message pending_withdrawal
              50000 bank_overdrawn Hid Hfind Hpending Hkind Hamt Hb Hlt Hp0
              Hm0 Hm1)
    as (Hrun & _ & Hacc).
  split; [exact Hrun|exact Hacc].
Defined.

Lemma invalid_kind_requeued_once_witness :
  healthy bank_pending
  ∧ storage.find_one (msg_ID transfer_message) (ledger bank_pending)
    = Some pending_deposit
  ∧ msg_Type transfer_message ≠ "deposit"
  ∧ msg_Type transfer_message ≠ "withdraw"
  ∧ (deliveries 2 (Ok transfer_message) bank_pending).1
    = [worker.Nack false true; worker.Ack false].
Proof.
  assert (Hh : healthy bank_pending) by (repeat split).
  assert (Hid : msg_ID transfer_message ≠ EmptyString) by discriminate.
  assert (Hfind : storage.find_one (msg_ID transfer_message)
                    (ledger bank_pending) = Some pending_deposit)
    by reflexivity.
  assert (Hpending : txn_Status pending_deposit = "pending") by reflexivity.
  assert (Hd : msg_Type transfer_message ≠ "deposit") by discriminate.
  assert (Hw : msg_Type transfer_message ≠ "withdraw") by discriminate.
  split; [exact Hh|]. split; [exact Hfind|]. split; [exact Hd|].
  split; [exact Hw|].
  exact (proj1 (invalid_kind_requeued_once transfer_message pending_deposit
                  bank_pending Hh Hid Hfind Hpending Hd Hw)).
Defined.

Lemma missing_record_requeued_forever_witness :
  healthy bank
  ∧ storage.find_one (msg_ID deposit_message) (ledger bank) = None
  ∧ (deliveries 3 (Ok deposit_message) bank).1
    = [worker.Nack false true; worker.Nack false true; worker.Nack false true]
  ∧ accounts (deliveries 3 (Ok deposit_message) bank).2 = accounts bank.
Proof.
  assert (Hh : healthy bank) by (repeat split).
  assert (Hnone : storage.find_one (msg_ID deposit_message) (ledger bank)
                  = None) by reflexivity.
  split; [exact Hh|]. split; [exact Hnone|].
  destruct (missing_record_requeued_forever 3 deposit_message bank Hh Hnone)
    as (Hrun & _ & Hacc).
  split; [exact Hrun|exact Hacc].
Defined.

Lemma processTransactionAsync_accepts_witness :
  accounts bank !! "acc_1" = Some ann
  ∧ ¬ (req_Type deposit_100 = "withdraw"
       ∧ acc_Balance ann < req_Amount deposit_100)
  ∧ ∃ p m,
      handlers.code (handlers.processTransactionAsync "acc_1" deposit_100 bank).1
      = 202
      ∧ ledger (handlers.processTransactionAsync "acc_1" deposit_100 bank).2
        = ledger bank ++ [p]
      ∧ published (handlers.processTransactionAsync "acc_1" deposit_100 bank).2
        = published bank ++ [m]
      ∧ txn_Status p = "pending"
      ∧ msg_ID m = txn_TransactionID p.
Proof.
  assert (Hpg : nth_fault 0 (pg_faults bank) = None) by reflexivity.
  assert (Ha : accounts bank !! "acc_1" = Some ann)
    by (vm_compute; reflexivity).
  assert (Hfunds : ¬ (req_Type deposit_100 = "withdraw"
                      ∧ acc_Balance ann < req_Amount deposit_100))
    by (intros [Hk _]; discriminate Hk).
  assert (Hm0 : nth_fault 0 (mongo_faults bank) = None) by reflexivity.
  assert (Hq : nth_fault 0 (amqp_faults bank) = None) by reflexivity.
  split; [exact Ha|]. split; [exact Hfunds|].
  destruct (processTransactionAsync_accepts "acc_1" deposit_100 ann bank Hpg Ha
              Hfunds Hm0 Hq)
    as (p & m & Hcode & _ & Hledger & Hpub & Hstatus & _ & _ & _ & Hmid & _).
  exists p, m. split; [exact Hcode|]. split; [exact Hledger|].
  split; [exact Hpub|]. split; [exact Hstatus|exact Hmid].
Defined.

Lemma submit_then_process_witness :
  services.validateTransactionRequest deposit_100 = None
  ∧ accounts bank !! "acc_1" = Some ann
  ∧ healthy bank
  ∧ ∃ m n,
      published (handlers.processTransactionAsync "acc_1" deposit_100 bank).2
      = published bank ++ [m]
      ∧ n = acc_Balance ann + req_Amount deposit_100
      ∧ (worker.processMessage (Ok m)
           (handlers.processTransactionAsync "acc_1" deposit_100 bank).2).1
        = worker.Ack false
      ∧ balance_of "acc_1"
          (worker.processMessage (Ok m)
             (handlers.processTransactionAsync "acc_1" deposit_100 bank).2).2
        = Some n.
Proof.
  assert (Hval : services.validateTransactionRequest deposit_100 = None)
    by reflexivity.
  assert (Ha : accounts bank !! "acc_1" = Some ann)
    by (vm_compute; reflexivity).
  assert (Henough : req_Type deposit_100 = "withdraw" →
                    req_Amount deposit_100 ≤ acc_Balance ann)
    by (intros Hk; discriminate Hk).
  assert (Hfresh : storage.find_one ("txn_" +:+ pretty (uuids bank))
                     (ledger bank) = None) by reflexivity.
  assert (Hh : healthy bank) by (repeat split).
  split; [exact Hval|]. split; [exact Ha|]. split; [exact Hh|].
  destruct (submit_then_process "acc_1" deposit_100 ann bank Hval Ha Henough
              Hfresh Hh)
    as (m & n & t & Hpub & Hd & _ & Hack & Hbal & _).
  exists m, n. split; [exact Hpub|]. split; [exact (Hd eq_refl)|].
  split; [exact Hack|exact Hbal].
Defined.

Lemma balances_never_negative_witness :
  balances_nonnegative bank
  ∧ balances_nonnegative
      (perform_all
         [OpCreateAccount (mkCreateAccountRequest "Bob" 2500);
          OpProcessSync "acc_1" withdraw_600;
          OpProcessAsync "acc_1" deposit_100;
          OpDeliver (Ok deposit_message)]
         bank).
Proof.
  assert (Hinv : balances_nonnegative bank).
  { intros id a Hrow.
    change (accounts bank) with ({["acc_1" := ann]} : gmap string Account)
      in Hrow.
    apply lookup_singleton_Some in Hrow as [_ <-]. simpl. lia. }
  split; [exact Hinv|].
  exact (balances_never_negative _ bank Hinv).
Defined.

Lemma processTransactionSync_answers_witness :
  nth_fault 0 (pg_faults bank) = None
  ∧ nth_fault 0 (mongo_faults bank) = None
  ∧ handlers.code (handlers.processTransactionSync "acc_1" withdraw_600 bank).1
    = 400
  ∧ accounts (handlers.processTransactionSync "acc_1" withdraw_600 bank).2
    = accounts bank.
Proof.
  assert (Hpg : nth_fault 0 (pg_faults bank) = None) by reflexivity.
  assert (Hm0 : nth_fault 0 (mongo_faults bank) = None) by reflexivity.
  split; [exact Hpg|]. split; [exact Hm0|].
  pose proof (processTransactionSync_answers "acc_1" withdraw_600 bank Hpg Hm0)
    as Hrun.
  cbv zeta in Hrun.
  change (services.validateTransactionRequest withdraw_600) with (@None error)
    in Hrun.
  change (accounts bank !! "acc_1") with (Some ann) in Hrun.
  cbv iota in Hrun.
  destruct (decide (req_Type withdraw_600 = "withdraw"
                    ∧ acc_Balance ann < req_Amount withdraw_600))
    as [_|Hno].
  - destruct Hrun as (Hcode & _ & Hacc & _). split; [exact Hcode|exact Hacc].
  - exfalso. apply Hno. split; [reflexivity|simpl; lia].
Defined.

Lemma processTransactionAsync_account_unreadable_witness :
  nth_fault 0 (pg_faults bank_accounts_down) ≠ None
  ∧ (handlers.processTransactionAsync "acc_1" deposit_100 bank_accounts_down).1
    = handlers.mkResponse 404
        [("error", handlers.JString "Account not found")]
  ∧ ledger
      (handlers.processTransactionAsync "acc_1" deposit_100
         bank_accounts_down).2
    = ledger bank_accounts_down.
Proof.
  assert (Hdown : nth_fault 0 (pg_faults bank_accounts_down) ≠ None)
    by discriminate.
  split; [exact Hdown|].
  destruct (processTransactionAsync_account_unreadable "acc_1" deposit_100
              bank_accounts_down (or_introl Hdown))
    as (Hrun & _ & Hledger & _).
  split; [exact Hrun|exact Hledger].
Defined.

Lemma GetTransactions_page_witness :
  accounts bank_history !! "acc_1" = Some ann
  ∧ 1 < 2 ^ 56
  ∧ ∃ l,
      handlers.reply_code
        (handlers.GetTransactions (errorString "negative skip") "acc_1" 1 500
           bank_history).1
      = 200
      ∧ In ("transactions", handlers.VTransactions l)
          (handlers.reply_body
             (handlers.GetTransactions (errorString "negative skip") "acc_1" 1
                500 bank_history).1)
      ∧ Z.of_nat (length l) ≤ 100
      ∧ StronglySorted storage.newest_first l.
Proof.
  assert (Hid : "acc_1" ≠ EmptyString) by discriminate.
  assert (Ha : accounts bank_history !! "acc_1" = Some ann)
    by (vm_compute; reflexivity).
  assert (Hp : nth_fault 0 (pg_faults bank_history) = None) by reflexivity.
  assert (H0 : nth_fault 0 (mongo_faults bank_history) = None) by reflexivity.
  assert (H1 : nth_fault 1 (mongo_faults bank_history) = None) by reflexivity.
  assert (H2 : nth_fault 2 (mongo_faults bank_history) = None) by reflexivity.
  assert (Hpage : 1 < 2 ^ 56) by (vm_compute; reflexivity).
  split; [exact Ha|]. split; [exact Hpage|].
  destruct (GetTransactions_page (errorString "negative skip") "acc_1" 1 500
              ann bank_history Hid Ha Hp H0 H1 H2 Hpage)
    as (l & Hrun & Hlen & _ & Hsorted & _).
  exists l. rewrite Hrun. split; [reflexivity|]. split; [left; reflexivity|].
  split; [exact Hlen|exact Hsorted].
Defined.

Lemma GetTransactions_account_unreadable_witness :
  "acc_9" ≠ EmptyString
  ∧ accounts bank !! "acc_9" = None
  ∧ handlers.reply_code
      (handlers.GetTransactions (errorString "negative skip") "acc_9" 1 10
         bank).1
    = 404.
Proof.
  assert (Hid : "acc_9" ≠ EmptyString) by discriminate.
  assert (Hnone : accounts bank !! "acc_9" = None)
    by (vm_compute; reflexivity).
  split; [exact Hid|]. split; [exact Hnone|].
  exact (proj1 (GetTransactions_account_unreadable
                  (errorString "negative skip") "acc_9" 1 10 bank Hid
                  (or_intror Hnone))).
Defined.

Lemma GetTransactionHistory_pages_ordered_witness :
  accounts bank_history !! "acc_1" = Some ann
  ∧ 1 ≤ 1 < 2
  ∧ ∃ l l' total,
      (services.GetTransactionHistory (errorString "negative skip") "acc_1" 1 2
         bank_history).1
      = Ok (l, total)
      ∧ (services.GetTransactionHistory (errorString "negative skip") "acc_1" 2
           2 bank_history).1
        = Ok (l', total)
      ∧ ∀ t t', t ∈ l → t' ∈ l' → txn_Timestamp t' ≤ txn_Timestamp t.
Proof.
  assert (Hid : "acc_1" ≠ EmptyString) by discriminate.
  assert (Ha : accounts bank_history !! "acc_1" = Some ann)
    by (vm_compute; reflexivity).
  assert (Hp : nth_fault 0 (pg_faults bank_history) = None) by reflexivity.
  assert (H0 : nth_fault 0 (mongo_faults bank_history) = None) by reflexivity.
  assert (H1 : nth_fault 1 (mongo_faults bank_history) = None) by reflexivity.
  assert (H2 : nth_fault 2 (mongo_faults bank_history) = None) by reflexivity.
  assert (Hpage : 1 ≤ 1 < 2) by lia.
  assert (Hpage' : 2 < 2 ^ 56) by (vm_compute; reflexivity).
  split; [exact Ha|]. split; [exact Hpage|].
  exact (GetTransactionHistory_pages_ordered (errorString "negative skip")
           "acc_1" 1 2 2 ann bank_history Hid Ha Hp H0 H1 H2 Hpage Hpage').
Defined.

Lemma parseInt_reads_decimal_witness :
  Z.of_N 5432 < 2 ^ 63
  ∧ pretty 5432%N = "5432"
  ∧ config.parseInt (pretty 5432%N) = 5432.
Proof.
  assert (Hn : Z.of_N 5432 < 2 ^ 63) by (vm_compute; reflexivity).
  split; [exact Hn|]. split; [vm_compute; reflexivity|].
  exact (parseInt_reads_decimal 5432 Hn).
Defined.
